(** * kt-assistant-service: the agent conversation state machine

    A shallow embedding of the TypeScript sources of the KT assistant
    service:

    - [services/agentConversation.service.ts]: [startSession] and
      [handleMessage], the per-task conversation state machine;
    - the [llmService] wrapper around the AI engine client
      ([generateSummary], [applyEdits], [analyzeUpdateType]);
    - [JiraService] ([getPendingTasks], [updateTask], [addComment],
      [getTransitionId]);
    - the [AgentSession] Mongoose model ([TaskStateSchema],
      [AgentSessionSchema]);
    - [AIService.processMessage], the retrying front end of the engine.

    Conventions.  JavaScript strings are modelled as [string], a sequence
    of 8-bit code units (the Latin-1 range).  Numbers that hold indices,
    counters and delays are [Z].  External collaborators (the engine, Jira)
    are oracles of an environment record; every call they receive is
    appended to a trace.  The session collection is a [gmap] from session
    identifiers to stored documents; a [save] is a write to that map and
    is also recorded in the trace. *)

From Stdlib Require Import ZArith Lia Ascii.
From stdpp Require Import base option list strings gmap.

Local Open Scope Z_scope.

(* ===================================================================== *)
(** * Text: code units, [trim], [toLowerCase] and the two regular
      expressions of [handleMessage] *)
(* ===================================================================== *)

Module Text.

Definition code (c : ascii) : N := Ascii.N_of_ascii c.

Definition between (lo hi : N) (c : ascii) : bool :=
  (N.leb lo (code c) && N.leb (code c) hi)%bool.

Definition isUpper (c : ascii) : bool := between 65 90 c.
Definition isLower (c : ascii) : bool := between 97 122 c.
Definition isDigit (c : ascii) : bool := between 48 57 c.

(** [\w] of a RegExp without the [u] flag: [A-Za-z0-9_]. *)
Definition isWordChar (c : ascii) : bool :=
  (isUpper c || isLower c || isDigit c || N.eqb (code c) 95)%bool.

(** Canonicalize of a RegExp with the [i] flag and without [u]: a code
    unit is upper-cased, except that a code unit of 128 or more never
    canonicalizes to an ASCII one.  The patterns below are ASCII, so
    only the ASCII letters matter and the other code units are kept. *)
Definition canonicalize (c : ascii) : ascii :=
  if isLower c then Ascii.ascii_of_N (code c - 32)%N else c.

(** [String.prototype.toLowerCase] on code units below 256: the ASCII
    capitals and the Latin-1 capitals (192..222 but for the
    multiplication sign 215) move up by 32. *)
Definition lowerChar (c : ascii) : ascii :=
  if (isUpper c || (between 192 222 c && negb (N.eqb (code c) 215)))%bool
  then Ascii.ascii_of_N (code c + 32)%N else c.

Fixpoint toLowerCase (s : string) : string :=
  match s with
  | EmptyString => EmptyString
  | String c r => String (lowerChar c) (toLowerCase r)
  end.

(** WhiteSpace and LineTerminator code units below 256, the ones
    [String.prototype.trim] strips: TAB, LF, VT, FF, CR, SP, NBSP. *)
Definition isSpace (c : ascii) : bool :=
  (between 9 13 c || N.eqb (code c) 32 || N.eqb (code c) 160)%bool.

Fixpoint trimStart (s : string) : string :=
  match s with
  | EmptyString => EmptyString
  | String c r => if isSpace c then trimStart r else s
  end.

Fixpoint trimEnd (s : string) : string :=
  match s with
  | EmptyString => EmptyString
  | String c r =>
      match trimEnd r with
      | EmptyString => if isSpace c then EmptyString else String c EmptyString
      | r' => String c r'
      end
  end.

Definition trim (s : string) : string := trimEnd (trimStart s).

(** ** Regular expressions

    The fragment of the RegExp syntax used by [isAffirmative] and
    [saidDone]: pattern characters, the [\b] assertion, concatenation
    and disjunction.  [matchRe] is the backtracking matcher: it returns
    the continuations (last consumed code unit, remaining input) in the
    order a JavaScript engine tries them. *)

Inductive regex : Type :=
| Lit (c : ascii)
| WordB
| Seq (r1 r2 : regex)
| Alt (r1 r2 : regex)
| Eps
| Fail.

Definition cursor : Type := option ascii * string.

Definition isWordOpt (o : option ascii) : bool :=
  match o with Some c => isWordChar c | None => false end.

Definition peek (s : string) : option ascii :=
  match s with EmptyString => None | String c _ => Some c end.

Fixpoint matchRe (r : regex) (prev : option ascii) (rest : string)
  : list cursor :=
  match r with
  | Lit c =>
      match rest with
      | String x rest' =>
          if Ascii.eqb (canonicalize x) (canonicalize c)
          then [(Some x, rest')] else []
      | EmptyString => []
      end
  | WordB =>
      if xorb (isWordOpt prev) (isWordOpt (peek rest))
      then [(prev, rest)] else []
  | Seq r1 r2 =>
      concat (map (fun k : cursor => matchRe r2 k.1 k.2) (matchRe r1 prev rest))
  | Alt r1 r2 => matchRe r1 prev rest ++ matchRe r2 prev rest
  | Eps => [(prev, rest)]
  | Fail => []
  end.

(** [RegExp.prototype.test] without the [g] flag: try every start
    position from the left. *)
Fixpoint testFrom (r : regex) (prev : option ascii) (rest : string) : bool :=
  match matchRe r prev rest with
  | _ :: _ => true
  | [] =>
      match rest with
      | EmptyString => false
      | String x rest' => testFrom r (Some x) rest'
      end
  end.

Definition test (r : regex) (s : string) : bool := testFrom r None s.

(** A literal word and a disjunction of literal words. *)
Fixpoint word (w : string) : regex :=
  match w with
  | EmptyString => Eps
  | String c w' => Seq (Lit c) (word w')
  end.

Fixpoint anyOf (ws : list string) : regex :=
  match ws with
  | [] => Fail
  | w :: ws' => Alt (word w) (anyOf ws')
  end.

(** [/\b(w1|...|wn)\b/i] *)
Definition wholeWordRe (ws : list string) : regex :=
  Seq WordB (Seq (anyOf ws) WordB).

Definition affirmativeWords : list string :=
  ["yes"; "yep"; "yeah"; "y"; "ok"; "okay"; "sure"; "go ahead";
   "confirm"; "proceed"].

Definition doneWords : list string :=
  ["done"; "completed"; "complete"; "finished"; "resolved"; "closed"].

(** [/\b(yes|yep|yeah|y|ok|okay|sure|go ahead|confirm|proceed)\b/i.test(s)] *)
Definition isAffirmative (s : string) : bool :=
  test (wholeWordRe affirmativeWords) s.

(** [/\b(done|completed|complete|finished|resolved|closed)\b/i.test(s)] *)
Definition saidDone (s : string) : bool :=
  test (wholeWordRe doneWords) s.

End Text.

(* ===================================================================== *)
(** * Js: values and outcomes of asynchronous functions *)
(* ===================================================================== *)

Module Js.

(** What a rejected promise carries.  [AxiosErr] is the shape the code
    inspects: [error.response?.status], [error.code], [error.message];
    [ValidationErr] is the error with which Mongoose rejects a document
    that fails the validation of its schema. *)
Inductive Error : Type :=
| Err (message : string)
| AxiosErr (status : option Z) (code : option string) (message : string)
| TypeErr (message : string)
| ValidationErr (message : string).

Definition message (e : Error) : string :=
  match e with
  | Err m => m
  | AxiosErr _ _ m => m
  | TypeErr m => m
  | ValidationErr m => m
  end.

Inductive Outcome (A : Type) : Type :=
| Return (a : A)
| Throw (e : Error).
Arguments Return {A} a.
Arguments Throw {A} e.

Definition returned {A} (o : Outcome A) : bool :=
  match o with Return _ => true | Throw _ => false end.

(** Truthiness of a string and of an optional string. *)
Definition truthy (s : string) : bool :=
  match s with EmptyString => false | String _ _ => true end.

Definition truthyOpt (o : option string) : bool :=
  match o with Some s => truthy s | None => false end.

(** [a || b] on strings. *)
Definition orElse (a b : string) : string := if truthy a then a else b.

(** [`${x}`] for a possibly undefined string. *)
Definition show (o : option string) : string :=
  match o with Some s => s | None => "undefined" end.

Definition dq : string := String (Ascii.ascii_of_N 34) EmptyString.
Definition nl : string := String (Ascii.ascii_of_N 10) EmptyString.

End Js.

Export Js(Outcome(..), Error(..)).

(* ===================================================================== *)
(** * Engine: [aiEngineClient.processMessage] and [llmService] *)
(* ===================================================================== *)

Module Engine.

(** [user_context] as the three operations of [llmService] fill it. *)
Record UserContext : Type := mkContext {
  user_id : string;
  agent_operation : string;
  task_title : option string;
  current_summary : option string;
}.

(** [AIEngineProcessRequest].  [user_input] is optional because the
    callers pass [task.draftSummary!], which may be undefined at run
    time. *)
Record AIEngineProcessRequest : Type := mkRequest {
  user_input : option string;
  user_context : UserContext;
}.

(** [AIEngineProcessResponse], the fields the service reads. *)
Record AIEngineProcessResponse : Type := mkResponse {
  success : bool;
  route_type : option string;
  backend_action : option string;
  generated_content : option string;
  requires_user_approval : option bool;
  error : option string;
  error_message : option string;
}.

(** The engine behind [aiEngineClient.processMessage]: it answers with a
    response or the HTTP client rejects (transport error, timeout, a
    status outside 2xx). *)
Definition Oracle : Type := AIEngineProcessRequest -> Outcome AIEngineProcessResponse.

(** [ensureSuccess(response, fallbackMessage)] *)
Definition ensureSuccess (response : AIEngineProcessResponse)
    (fallbackMessage : string) : Outcome unit :=
  if (negb (success response) || negb (Js.truthyOpt (generated_content response)))%bool
  then Throw (Err
         (if Js.truthyOpt (error_message response)
          then Js.show (error_message response)
          else if Js.truthyOpt (error response)
               then Js.show (error response)
               else fallbackMessage))
  else Return tt.

Definition content (response : AIEngineProcessResponse) : string :=
  default EmptyString (generated_content response).

Section llmService.
Variable engine : Oracle.

Definition summaryRequest (userUpdate taskTitle user : string) :=
  mkRequest (Some userUpdate)
    (mkContext user "draft_summary" (Some taskTitle) None).

Definition editsRequest (draftSummary : option string) (userEdits user : string) :=
  mkRequest (Some userEdits)
    (mkContext user "apply_edits" None draftSummary).

Definition analyzeRequest (summary : option string) (user : string) :=
  mkRequest summary (mkContext user "analyze_update" None None).

Definition generateSummary (userUpdate taskTitle user : string)
  : Outcome string :=
  match engine (summaryRequest userUpdate taskTitle user) with
  | Throw e => Throw e
  | Return response =>
      match ensureSuccess response "Failed to generate task summary" with
      | Throw e => Throw e
      | Return _ => Return (Text.trim (content response))
      end
  end.

Definition applyEdits (draftSummary : option string) (userEdits user : string)
  : Outcome string :=
  match engine (editsRequest draftSummary userEdits user) with
  | Throw e => Throw e
  | Return response =>
      match ensureSuccess response "Failed to apply edits to summary" with
      | Throw e => Throw e
      | Return _ => Return (Text.trim (content response))
      end
  end.

Definition updateTypes : list string :=
  ["status_only"; "comment_only"; "comment_and_status"].

Definition analyzeUpdateType (summary : option string) (user : string)
  : Outcome string :=
  match engine (analyzeRequest summary user) with
  | Throw e => Throw e
  | Return response =>
      if (negb (success response)
          || negb (Js.truthyOpt (generated_content response)))%bool
      then Return "comment_only"
      else
        let normalized := Text.toLowerCase (Text.trim (content response)) in
        if (String.eqb normalized "status_only"
            || String.eqb normalized "comment_only"
            || String.eqb normalized "comment_and_status")%bool
        then Return normalized
        else Return "comment_only"
  end.
End llmService.

End Engine.

(* ===================================================================== *)
(** * Jira: [JiraService] over the Atlassian REST API *)
(* ===================================================================== *)

Module Jira.

(** One element of [data.issues] of the search response. *)
Record Issue : Type := mkIssue {
  key : string;
  summary : string;
  statusName : option string;      (* [fields.status?.name] *)
  created : option string;
  updated : option string;
}.

(** What [getPendingTasks] returns per issue. *)
Record PendingTask : Type := mkPending {
  taskId : string;
  title : string;
  status : string;
  createdAt : option string;
  updatedAt : option string;
}.

(** [{ type: "comment" | "status" | "fields"; value }] *)
Inductive Action : Type :=
| Comment (value : option string)
| Status (value : string)
| Fields (value : list (string * string)).

Record Transition : Type := mkTransition {
  id : string;
  toName : string;                 (* [t.to.name] *)
}.

(** The remote side.  [integration] is [IntegrationToken.findOne] for the
    user (the account id of the token when there is one);
    [cloudResource] is the outcome of [getCloudResource], which checks
    the access token ([ensureValidJiraAccessToken], see [JiraAuth]: it
    may request a new token and save it) and reads the accessible
    resources; the others are the HTTP requests of the methods
    themselves, which return or reject.  The trace of a request records
    the calls of the methods of [JiraService], not the HTTP requests and
    the saves of the token that a method makes on the way. *)
Record Api : Type := mkApi {
  integration : string -> option string;
  cloudResource : string -> Outcome string;
  search : string -> string -> Outcome (list Issue);
  postComment : string -> option string -> Outcome unit;
  postTransition : string -> string -> Outcome unit;
  putFields : string -> list (string * string) -> Outcome unit;
  getTransitions : string -> Outcome (list Transition);
}.

(** The filter [getPendingTasks] sends. *)
Definition jql (accountId : string) : string :=
  "assignee = " +:+ accountId +:+ " AND status = " +:+ Js.dq +:+ "In Progress"
    +:+ Js.dq +:+ " AND created >= -7d".

Definition toPending (issue : Issue) : PendingTask :=
  mkPending (key issue) (summary issue)
    (Js.orElse (default EmptyString (statusName issue)) EmptyString)
    (created issue) (updated issue).

Section JiraService.
Variable api : Api.

Definition getPendingTasks (userId : string) : Outcome (list PendingTask) :=
  match integration api userId with
  | None => Throw (Err "Jira integration not found")
  | Some accountId =>
      match cloudResource api userId with
      | Throw e => Throw e
      | Return cloudId =>
          match search api cloudId (jql accountId) with
          | Throw e => Throw e
          | Return issues => Return (map toPending issues)
          end
      end
  end.

Definition updateTask (task : string) (action : Action) (user : string)
  : Outcome unit :=
  match integration api user with
  | None => Throw (Err "Jira integration not found")
  | Some _ =>
      match cloudResource api user with
      | Throw e => Throw e
      | Return _ =>
          match action with
          | Comment text => postComment api task text
          | Status transitionId => postTransition api task transitionId
          | Fields value =>
              putFields api task
                (List.filter
                   (fun kv : string * string =>
                      negb (String.eqb kv.1 "summary" && Js.truthy kv.2))
                   value)
          end
      end
  end.

Definition addComment (task : string) (comment : option string) (user : string)
  : Outcome unit :=
  updateTask task (Comment comment) user.

Definition getTransitionId (task statusName user : string) : Outcome string :=
  match integration api user with
  | None => Throw (Err "Jira integration not found")
  | Some _ =>
      match cloudResource api user with
      | Throw e => Throw e
      | Return _ =>
          match getTransitions api task with
          | Throw e => Throw e
          | Return transitions =>
              match find (fun t => String.eqb (toName t) statusName) transitions with
              | Some t => Return (id t)
              | None =>
                  Throw (Err ("Transition to status " +:+ Js.dq +:+ statusName
                                +:+ Js.dq +:+ " not found"))
              end
          end
      end
  end.
End JiraService.

(** The calls [handleMessage] and [startSession] make, as they appear in
    a trace. *)
Inductive Call : Type :=
| CGetPendingTasks (userId : string)
| CAddComment (task : string) (comment : option string)
| CUpdateTask (task : string) (action : Action)
| CGetTransitionId (task statusName : string).

(** The calls that change the ticket. *)
Definition isMutation (c : Call) : bool :=
  match c with
  | CAddComment _ _ | CUpdateTask _ _ => true
  | CGetPendingTasks _ | CGetTransitionId _ _ => false
  end.

End Jira.

(* ===================================================================== *)
(** * Agent: the [AgentSession] model, [startSession], [handleMessage] *)
(* ===================================================================== *)

Module Agent.

Inductive AgentTaskState : Type :=
| AWAITING_UPDATE
| AWAITING_EDIT_DECISION
| AWAITING_EDIT_INPUT
| AWAITING_CONFIRM
| COMPLETED.

#[export] Instance AgentTaskState_eq_dec : EqDecision AgentTaskState.
Proof. solve_decision. Defined.

(** [ITaskState]: a task of the session object held in memory while a
    request is served. *)
Record ITaskState : Type := mkTask {
  taskId : string;
  title : string;
  status : string;
  pendingStatusDone : option bool;
  createdAt : option string;
  updatedAt : option string;
  draftSummary : option string;
  finalSummary : option string;
  state : AgentTaskState;
}.

(** [IAgentSession] in memory; [_id] is the session identifier.  The
    [createdAt]/[updatedAt] stamps that Mongoose maintains are wall-clock
    values and are left out.  The validators of the schema ([required])
    are not modelled: the model admits every document they admit. *)
Record IAgentSession : Type := mkSession {
  _id : string;
  userId : string;
  currentIndex : Z;
  tasks : list ITaskState;
}.

(** A stored sub-document has the paths [TaskStateSchema] declares:
    [taskId], [title], [status], [createdAt], [updatedAt],
    [draftSummary], [finalSummary], [state].  The schema is strict (the
    Mongoose default), so a property set on the in-memory task that is
    not a declared path is not written by [save] and is absent after
    [findById]. *)
Record TaskDoc : Type := mkTaskDoc {
  doc_taskId : string;
  doc_title : string;
  doc_status : string;
  doc_createdAt : option string;
  doc_updatedAt : option string;
  doc_draftSummary : option string;
  doc_finalSummary : option string;
  doc_state : AgentTaskState;
}.

(** [AgentSessionSchema] *)
Record SessionDoc : Type := mkSessionDoc {
  doc_userId : string;
  doc_currentIndex : Z;
  doc_tasks : list TaskDoc;
}.

Definition taskToDoc (t : ITaskState) : TaskDoc :=
  mkTaskDoc (taskId t) (title t) (status t) (createdAt t) (updatedAt t)
    (draftSummary t) (finalSummary t) (state t).

Definition taskOfDoc (d : TaskDoc) : ITaskState :=
  mkTask (doc_taskId d) (doc_title d) (doc_status d) None
    (doc_createdAt d) (doc_updatedAt d)
    (doc_draftSummary d) (doc_finalSummary d) (doc_state d).

Definition toDoc (s : IAgentSession) : SessionDoc :=
  mkSessionDoc (userId s) (currentIndex s) (map taskToDoc (tasks s)).

Definition ofDoc (sid : string) (d : SessionDoc) : IAgentSession :=
  mkSession sid (doc_userId d) (doc_currentIndex d) (map taskOfDoc (doc_tasks d)).

(** Field assignments. *)
Definition set_status (v : string) (t : ITaskState) : ITaskState :=
  mkTask (taskId t) (title t) v (pendingStatusDone t) (createdAt t)
    (updatedAt t) (draftSummary t) (finalSummary t) (state t).
Definition set_pendingStatusDone (v : bool) (t : ITaskState) : ITaskState :=
  mkTask (taskId t) (title t) (status t) (Some v) (createdAt t)
    (updatedAt t) (draftSummary t) (finalSummary t) (state t).
Definition set_draftSummary (v : option string) (t : ITaskState) : ITaskState :=
  mkTask (taskId t) (title t) (status t) (pendingStatusDone t) (createdAt t)
    (updatedAt t) v (finalSummary t) (state t).
Definition set_finalSummary (v : option string) (t : ITaskState) : ITaskState :=
  mkTask (taskId t) (title t) (status t) (pendingStatusDone t) (createdAt t)
    (updatedAt t) (draftSummary t) v (state t).
Definition set_state (v : AgentTaskState) (t : ITaskState) : ITaskState :=
  mkTask (taskId t) (title t) (status t) (pendingStatusDone t) (createdAt t)
    (updatedAt t) (draftSummary t) (finalSummary t) v.

Definition set_currentIndex (v : Z) (s : IAgentSession) : IAgentSession :=
  mkSession (_id s) (userId s) v (tasks s).
Definition set_tasks (v : list ITaskState) (s : IAgentSession) : IAgentSession :=
  mkSession (_id s) (userId s) (currentIndex s) v.

(** [session.tasks[i]] for a number [i]: undefined outside the array. *)
Definition taskAt (ts : list ITaskState) (i : Z) : option ITaskState :=
  if i <? 0 then None else ts !! Z.to_nat i.

(** [task] aliases [session.tasks[session.currentIndex]]: an assignment
    to a field of [task] is an update of that element of the session. *)
Definition setTask (i : Z) (t : ITaskState) (s : IAgentSession) : IAgentSession :=
  set_tasks (<[Z.to_nat i := t]> (tasks s)) s.

(** ** The world a request runs in *)

Inductive Event : Type :=
| EvEngine (request : Engine.AIEngineProcessRequest) (ok : bool)
| EvJira (call : Jira.Call) (ok : bool)
| EvSave (sid : string) (doc : SessionDoc).

Record World : Type := mkWorld {
  store : gmap string SessionDoc;
  trace : list Event;
}.

(** What a request depends on besides the collection.  [castDate] is
    the cast of a string to a [Date] path of the schema: [None] when the
    string is no date (a cast error), [Some None] when it casts to null,
    and otherwise the date, written as a string.  [validationMessage] is
    the text of Mongoose's validation error for the failing paths (the
    index of the task, when the path is one of a task, and the name of
    the path); the service does not read it. *)
Record Env : Type := mkEnv {
  engine : Engine.Oracle;
  jira : Jira.Api;
  objectId : string;               (* the identifier of the next new document *)
  castDate : string -> option (option string);
  validationMessage : list (option nat * string) -> string;
}.

(** State and exceptions: a computation changes the world and returns or
    throws; what it did before throwing stays done. *)
Definition M (A : Type) : Type := World -> Outcome A * World.

#[export] Instance M_ret : MRet M := fun A a w => (Return a, w).
#[export] Instance M_bind : MBind M := fun A B f m w =>
  match m w with
  | (Return a, w') => f a w'
  | (Throw e, w') => (Throw e, w')
  end.

Definition throw {A} (e : Error) : M A := fun w => (Throw e, w).

Definition emit (ev : Event) : M unit :=
  fun w => (Return tt, mkWorld (store w) (trace w ++ [ev])).

(** An external call: its outcome is logged, then returned or thrown. *)
Definition external {A} (mk : bool -> Event) (o : Outcome A) : M A :=
  emit (mk (Js.returned o));;
  match o with
  | Return a => mret a
  | Throw e => throw e
  end.

(** [AgentSession.findById] *)
Definition findById (sid : string) : M (option IAgentSession) :=
  fun w => (Return (ofDoc sid <$> store w !! sid), w).

(** [session.save()] *)
Definition save (s : IAgentSession) : M unit :=
  fun w => (Return tt,
            mkWorld (<[_id s := toDoc s]> (store w))
                    (trace w ++ [EvSave (_id s) (toDoc s)])).

Section service.
Variable env : Env.

Definition generateSummary (userUpdate taskTitle user : string) : M string :=
  external (EvEngine (Engine.summaryRequest userUpdate taskTitle user))
    (Engine.generateSummary (engine env) userUpdate taskTitle user).

Definition applyEdits (draft : option string) (userEdits user : string) : M string :=
  external (EvEngine (Engine.editsRequest draft userEdits user))
    (Engine.applyEdits (engine env) draft userEdits user).

Definition analyzeUpdateType (summary : option string) (user : string) : M string :=
  external (EvEngine (Engine.analyzeRequest summary user))
    (Engine.analyzeUpdateType (engine env) summary user).

Definition addComment (task : string) (comment : option string) (user : string)
  : M unit :=
  external (EvJira (Jira.CAddComment task comment))
    (Jira.addComment (jira env) task comment user).

Definition getTransitionId (task statusName user : string) : M string :=
  external (EvJira (Jira.CGetTransitionId task statusName))
    (Jira.getTransitionId (jira env) task statusName user).

Definition updateTask (task : string) (action : Jira.Action) (user : string)
  : M unit :=
  external (EvJira (Jira.CUpdateTask task action))
    (Jira.updateTask (jira env) task action user).

Definition getPendingTasks (user : string) : M (list Jira.PendingTask) :=
  external (EvJira (Jira.CGetPendingTasks user))
    (Jira.getPendingTasks (jira env) user).

(** *** [startSession] *)

(** The cast of [createdAt] and [updatedAt]: an undefined value stays
    undefined. *)
Definition castOptDate (o : option string) : option (option string) :=
  match o with
  | None => Some None
  | Some s => castDate env s
  end.

(** The paths of the task at index [i] that fail the validation of
    [TaskStateSchema]: [taskId], [title] and [status] are required
    strings, which the empty string is not, and [createdAt] and
    [updatedAt] are dates. *)
Definition taskFailures (i : nat) (t : Jira.PendingTask)
  : list (option nat * string) :=
  (if Js.truthy (Jira.taskId t) then [] else [(Some i, "taskId")])
  ++ (if Js.truthy (Jira.title t) then [] else [(Some i, "title")])
  ++ (if Js.truthy (Jira.status t) then [] else [(Some i, "status")])
  ++ match castOptDate (Jira.createdAt t) with
     | Some _ => []
     | None => [(Some i, "createdAt")]
     end
  ++ match castOptDate (Jira.updatedAt t) with
     | Some _ => []
     | None => [(Some i, "updatedAt")]
     end.

(** The paths of the new session that fail the validation of
    [AgentSessionSchema]; an empty [tasks] array passes. *)
Definition failures (userId : string) (pendingTasks : list Jira.PendingTask)
  : list (option nat * string) :=
  (if Js.truthy userId then [] else [(None, "userId")])
  ++ concat (imap taskFailures pendingTasks).

(** The element of [tasks] that [startSession] builds from a pending
    task, after the casts of the schema. *)
Definition newTask (t : Jira.PendingTask) : ITaskState :=
  mkTask (Jira.taskId t) (Jira.title t) (Jira.status t) None
    (default None (castOptDate (Jira.createdAt t)))
    (default None (castOptDate (Jira.updatedAt t)))
    None None AWAITING_UPDATE.

(** [AgentSession.create({ userId, currentIndex: 0, tasks })]: the
    document is validated, and saved when it is valid. *)
Definition create (userId : string) (pendingTasks : list Jira.PendingTask)
  : M IAgentSession :=
  match failures userId pendingTasks with
  | [] =>
      let session := mkSession (objectId env) userId 0 (map newTask pendingTasks) in
      save session;;
      mret session
  | paths => throw (ValidationErr (validationMessage env paths))
  end.

Definition startSession (user : string) : M IAgentSession :=
  pendingTasks ← getPendingTasks user;
  create user pendingTasks.

(** *** [handleMessage] *)

Definition noTasksReply : string :=
  "I couldn’t find any pending Jira tasks for you. If that seems wrong, try refreshing or reconnecting Jira.".

Definition undefinedTask {A} : M A :=
  throw (TypeErr "Cannot read properties of undefined (reading 'state')").

(** The guard against index drift. *)
Definition healIndex (session : IAgentSession) : M IAgentSession :=
  if ((currentIndex session <? 0)
      || (currentIndex session >=? Z.of_nat (length (tasks session))))%bool
  then
    let session := set_currentIndex 0 session in
    save session;;
    mret session
  else mret session.

(** The block [if (task.status !== "Done") { ... task.status = "Done" }],
    which the [status_only] and the [comment_and_status] branches
    both contain. *)
Definition transitionToDone (task : ITaskState) (user : string) : M ITaskState :=
  if negb (String.eqb (status task) "Done") then
    transitionId ← getTransitionId (taskId task) "Done" user;
    updateTask (taskId task) (Jira.Status transitionId) user;;
    mret (set_status "Done" task)
  else mret task.

(** The loop [while (nextIndex < session.tasks.length)]; [remaining] is
    [session.tasks.length - nextIndex], the number of indices left. *)
Fixpoint advanceLoop (remaining : nat) (nextIndex : Z) (session : IAgentSession)
  : M (IAgentSession * bool) :=
  match remaining with
  | O => mret (session, false)
  | S remaining' =>
      match taskAt (tasks session) nextIndex with
      | None => undefinedTask
      | Some next =>
          if decide (state next ≠ COMPLETED) then
            let session := set_currentIndex nextIndex session in
            mret (setTask nextIndex (set_state AWAITING_UPDATE next) session, true)
          else advanceLoop remaining' (nextIndex + 1) session
      end
  end.

Definition advance (session : IAgentSession) : M (IAgentSession * bool) :=
  let nextIndex := currentIndex session + 1 in
  advanceLoop (Z.to_nat (Z.of_nat (length (tasks session)) - nextIndex))
    nextIndex session.

Definition summaryReply (draft : string) : string :=
  "Here's the summary I generated: " +:+ Js.dq +:+ draft +:+ Js.dq +:+ Js.nl
    +:+ "Do you want to update anything in it?".
Definition editPromptReply : string :=
  "Okay, please tell me what changes you'd like to make.".
Definition confirmPromptReply (draft : option string) : string :=
  "I'm about to update the ticket with: " +:+ Js.dq +:+ Js.show draft +:+ Js.dq
    +:+ ". Should I go ahead?".
Definition updatedReply (draft : option string) : string :=
  "Here's the updated summary: " +:+ Js.dq +:+ Js.show draft +:+ Js.dq +:+ Js.nl
    +:+ "Should I go ahead and update Jira?".
Definition notYetReply : string :=
  "Okay, I won't update it yet. What would you like to change?".
Definition nextTaskReply (nextTitle : string) : string :=
  "Ticket updated. Let's move to your next task: " +:+ Js.dq +:+ nextTitle +:+ Js.dq.
Definition allDoneReply : string :=
  "Ticket updated. All tasks are done. Great job!".
Definition completeReply : string := "All tasks are complete.".

(** [(raw || "").trim() || fallback] *)
Definition orFallback (raw : string) (fallback : option string) : option string :=
  let trimmed := Text.trim (Js.orElse raw EmptyString) in
  if Js.truthy trimmed then Some trimmed else fallback.

Definition onAwaitingUpdate (session : IAgentSession) (task : ITaskState)
    (userMessage user : string) : M (string * IAgentSession) :=
  draftRaw ← generateSummary userMessage (title task) user;
  let draft := Js.orElse (Text.trim (Js.orElse draftRaw EmptyString)) "Update noted." in
  let task := set_draftSummary (Some draft) task in
  let task := if Text.saidDone userMessage
              then set_pendingStatusDone true task else task in
  let task := set_state AWAITING_EDIT_DECISION task in
  let session := setTask (currentIndex session) task session in
  save session;;
  mret (summaryReply draft, session).

Definition onAwaitingEditDecision (session : IAgentSession) (task : ITaskState)
    (userMessage : string) : M (string * IAgentSession) :=
  if Text.isAffirmative userMessage then
    let session :=
      setTask (currentIndex session) (set_state AWAITING_EDIT_INPUT task) session in
    save session;;
    mret (editPromptReply, session)
  else
    let session :=
      setTask (currentIndex session) (set_state AWAITING_CONFIRM task) session in
    save session;;
    mret (confirmPromptReply (draftSummary task), session).

Definition onAwaitingEditInput (session : IAgentSession) (task : ITaskState)
    (userMessage user : string) : M (string * IAgentSession) :=
  updatedRaw ← applyEdits (draftSummary task) userMessage user;
  let updatedSummary := orFallback updatedRaw (draftSummary task) in
  let task := set_draftSummary updatedSummary task in
  let task := set_state AWAITING_CONFIRM task in
  let session := setTask (currentIndex session) task session in
  save session;;
  mret (updatedReply updatedSummary, session).

(** The update type after the [pendingStatusDone] override. *)
Definition forceStatus (task : ITaskState) (updateType : string) : string :=
  if (bool_decide (pendingStatusDone task = Some true)
      && String.eqb updateType "comment_only")%bool
  then "comment_and_status" else updateType.

(** The three-way commit. *)
Definition commit (task : ITaskState) (updateType user : string) : M ITaskState :=
  if String.eqb updateType "comment_only" then
    addComment (taskId task) (draftSummary task) user;;
    mret task
  else if String.eqb updateType "status_only" then
    transitionToDone task user
  else if String.eqb updateType "comment_and_status" then
    addComment (taskId task) (draftSummary task) user;;
    transitionToDone task user
  else mret task.

Definition onAwaitingConfirm (session : IAgentSession) (task : ITaskState)
    (userMessage user : string) : M (string * IAgentSession) :=
  if negb (Text.isAffirmative userMessage) then mret (notYetReply, session)
  else
    updateType ← analyzeUpdateType (draftSummary task) user;
    let updateType := forceStatus task updateType in
    task ← commit task updateType user;
    let task := set_finalSummary (draftSummary task) task in
    let task := set_state COMPLETED task in
    let session := setTask (currentIndex session) task session in
    '(session, advanced) ← advance session;
    save session;;
    if advanced : bool then
      match taskAt (tasks session) (currentIndex session) with
      | None => undefinedTask
      | Some next => mret (nextTaskReply (title next), session)
      end
    else mret (allDoneReply, session).

(** [switch (task.state)] *)
Definition dispatch (session : IAgentSession) (task : ITaskState)
    (userMessage user : string) : M (string * IAgentSession) :=
  match state task with
  | AWAITING_UPDATE => onAwaitingUpdate session task userMessage user
  | AWAITING_EDIT_DECISION => onAwaitingEditDecision session task userMessage
  | AWAITING_EDIT_INPUT => onAwaitingEditInput session task userMessage user
  | AWAITING_CONFIRM => onAwaitingConfirm session task userMessage user
  | COMPLETED => mret (completeReply, session)
  end.

Definition handleMessage (sessionId userMessage user : string)
  : M (string * IAgentSession) :=
  found ← findById sessionId;
  match found with
  | None => throw (Err "Session not found")
  | Some session =>
      if decide (length (tasks session) = 0%nat) then mret (noTasksReply, session)
      else
        session ← healIndex session;
        match taskAt (tasks session) (currentIndex session) with
        | None => undefinedTask
        | Some task => dispatch session task userMessage user
        end
  end.
End service.

(** Running a request from a store with an empty trace. *)
Definition fresh (st : gmap string SessionDoc) : World := mkWorld st [].

End Agent.

(* ===================================================================== *)
(** * AIService: [processMessage] with its retry loop *)
(* ===================================================================== *)

Module AIService.

Record Context : Type := mkContext {
  userId : string;
  teamId : option string;
  projectId : option string;
}.

Record AIRequest : Type := mkRequest {
  message : string;
  context : option Context;
}.

Record Data : Type := mkData {
  content : string;
  routeType : option string;
  backendAction : option string;
  requiresApproval : bool;
}.

Record Failure : Type := mkFailure {
  code : string;
  failureMessage : string;
}.

(** [AIResponse]: [data] on success, [error] otherwise. *)
Inductive AIResponse : Type :=
| Success (data : Data)
| Failed (error : Failure).

(** [{ user_input, user_context }] as [buildUserContext] fills it. *)
Record Payload : Type := mkPayload {
  user_input : string;
  user_id : option string;
  team_id : option string;
  project_id : option string;
}.

Inductive Event : Type :=
| Incr (key : string)
| EngineCall (payload : Payload)
| Metrics
| Sleep (ms : Z).

Definition retryAttempts : nat := 3.

(** [error?.response?.status] and [error?.code] *)
Definition statusOf (e : Error) : option Z :=
  match e with AxiosErr st _ _ => st | _ => None end.
Definition codeOf (e : Error) : option string :=
  match e with AxiosErr _ c _ => c | _ => None end.

Definition retryableStatuses : list Z := [408; 425; 429; 500; 502; 503; 504].

(** [isRetryable(error)]; [None] is a null error. *)
Definition isRetryable (error : option Error) : bool :=
  match error with
  | None => false
  | Some e =>
      let status := statusOf e in
      if (bool_decide (status = None ∨ status = Some 0)
          && bool_decide (codeOf e = Some "ECONNABORTED"))%bool
      then true
      else match status with
           | Some st => bool_decide (st ∈ retryableStatuses)
           | None => false
           end
  end.

(** [1000 * (attempt + 1)] *)
Definition backoff (attempt : Z) : Z := 1000 * (attempt + 1).

Fixpoint includes (haystack needle : string) : bool :=
  (String.prefix needle haystack
   || match haystack with
      | EmptyString => false
      | String _ rest => includes rest needle
      end)%bool.

(** [getErrorCode(error)] *)
Definition getErrorCode (error : option Error) : string :=
  let msg := match error with Some e => Js.message e | None => EmptyString end in
  if includes msg "Rate limit" then "RATE_LIMIT_EXCEEDED"
  else if includes msg "cost limit" then "COST_LIMIT_EXCEEDED"
  else if bool_decide ((error ≫= statusOf) = Some 401) then "UNAUTHORIZED"
  else if bool_decide ((error ≫= statusOf) = Some 404) then "NOT_FOUND"
  else "INTERNAL_ERROR".

Definition buildPayload (request : AIRequest) : Payload :=
  let keep (o : option string) := if Js.truthyOpt o then o else None in
  mkPayload (message request)
    (keep (userId <$> context request))
    (keep (context request ≫= teamId))
    (keep (context request ≫= projectId)).

(** [mapSuccess(response)] *)
Definition mapSuccess (response : Engine.AIEngineProcessResponse) : AIResponse :=
  Success (mkData
    (default EmptyString
       (if Js.truthyOpt (Engine.generated_content response)
        then Engine.generated_content response else None))
    (Engine.route_type response)
    (Engine.backend_action response)
    (default false (Engine.requires_user_approval response))).

Definition engineError (response : Engine.AIEngineProcessResponse) : AIResponse :=
  Failed (mkFailure
    (if Js.truthyOpt (Engine.error response)
     then Js.show (Engine.error response) else "ENGINE_ERROR")
    (if Js.truthyOpt (Engine.error_message response)
     then Js.show (Engine.error_message response)
     else "AI engine returned an error")).

(** The handler of the outer [catch]. *)
Definition caught (error : option Error) : AIResponse :=
  let msg := match error with Some e => Js.message e | None => EmptyString end in
  Failed (mkFailure (getErrorCode error)
    (if Js.truthy msg then msg else "Failed to process AI request")).

(** The Redis counters behind [enforceRateLimits]; the expiry of a key
    is a matter of wall-clock time and is not modelled. *)
Definition Redis : Type := gmap string Z.

Definition incr (key : string) (redis : Redis) : Z * Redis :=
  let n := default 0 (redis !! key) + 1 in (n, <[key := n]> redis).

(** [enforceRateLimits(request)]: the new counters and the events, and
    an error when the limit is exceeded. *)
Definition enforceRateLimits (request : AIRequest) (redis : Redis)
  : option Error * Redis * list Event :=
  match context request with
  | None => (None, redis, [])
  | Some ctx =>
      if negb (Js.truthy (userId ctx)) then (None, redis, [])
      else
        let rateLimitKey := "rate:" +:+ userId ctx in
        let '(requests, redis) := incr rateLimitKey redis in
        if 100 <? requests
        then (Some (Err "Rate limit exceeded"), redis, [Incr rateLimitKey])
        else (None, redis, [Incr rateLimitKey])
  end.

Section processMessage.
(** The engine's answer to the call of each attempt. *)
Variable engine : nat -> Outcome Engine.AIEngineProcessResponse.

(** [for (let attempt = 0; attempt < this.retryAttempts; attempt++)];
    [remaining] is [retryAttempts - attempt].  The result is what the
    [try] block produces: a response, or the error it throws. *)
Fixpoint attempts (remaining attempt : nat) (payload : Payload)
    (lastError : option Error) : (AIResponse + option Error) * list Event :=
  match remaining with
  | O => (inr lastError, [])
  | S remaining' =>
      match engine attempt with
      | Return engineResponse =>
          (inl (if Engine.success engineResponse
                then mapSuccess engineResponse
                else engineError engineResponse),
           [EngineCall payload; Metrics])
      | Throw error =>
          if negb (isRetryable (Some error))
          then (inr (Some error), [EngineCall payload])
          else
            let '(r, evs) := attempts remaining' (S attempt) payload (Some error) in
            (r, EngineCall payload :: Sleep (backoff (Z.of_nat attempt)) :: evs)
      end
  end.

Definition processMessage (request : AIRequest) (redis : Redis)
  : AIResponse * Redis * list Event :=
  match enforceRateLimits request redis with
  | (Some e, redis, evs) => (caught (Some e), redis, evs)
  | (None, redis, evs) =>
      match attempts retryAttempts 0 (buildPayload request) None with
      | (inl response, evs') => (response, redis, evs ++ evs')
      | (inr error, evs') => (caught error, redis, evs ++ evs')
      end
  end.
End processMessage.

Definition engineCalls (evs : list Event) : nat :=
  length (List.filter (fun ev => match ev with EngineCall _ => true | _ => false end) evs).

Definition sleeps (evs : list Event) : list Z :=
  omap (fun ev => match ev with Sleep ms => Some ms | _ => None end) evs.

End AIService.

(* ===================================================================== *)
(** * Vocabulary of the statements *)
(* ===================================================================== *)

Module Words.

(** Case-insensitive comparison as the text of the requirements means
    it: two strings are the same word when they agree once the ASCII
    capitals are lowered. *)
Definition lower (c : ascii) : ascii :=
  if Text.isUpper c then Ascii.ascii_of_N (Text.code c + 32)%N else c.

Fixpoint sameWord (a b : string) : bool :=
  match a, b with
  | EmptyString, EmptyString => true
  | String x a', String y b' => (Ascii.eqb (lower x) (lower y) && sameWord a' b')%bool
  | _, _ => false
  end.

(** The last code unit of [s], or [prev] when [s] is empty. *)
Fixpoint lastOr (prev : option ascii) (s : string) : option ascii :=
  match s with
  | EmptyString => prev
  | String c s' => lastOr (Some c) s'
  end.

(** [s] contains [w] as a whole word: an occurrence of [w], in any
    letter case, with no word character right before or right after. *)
Definition containsWholeWord (w s : string) : Prop :=
  ∃ pre occ post : string,
    s = pre +:+ occ +:+ post
    ∧ sameWord occ w = true
    ∧ Text.isWordOpt (lastOr None pre) = false
    ∧ Text.isWordOpt (Text.peek post) = false.

(** A phrase whose first and last code units are word characters. *)
Definition wordEdged (w : string) : bool :=
  (Text.isWordOpt (Text.peek w) && Text.isWordOpt (lastOr None w))%bool.

End Words.

(* ===================================================================== *)
(** * Concrete collaborators used in the examples *)
(* ===================================================================== *)

Module Fixtures.

Definition answer (text : string) : Engine.AIEngineProcessResponse :=
  Engine.mkResponse true (Some "llm_route") None (Some text) None None None.

Definition timeout : Error :=
  AxiosErr None (Some "ECONNABORTED") "timeout of 15000ms exceeded".

Definition httpError (status : Z) : Error :=
  AxiosErr (Some status) (Some "ERR_BAD_RESPONSE") "Request failed".

(** An engine that is unreachable. *)
Definition downEngine : Engine.Oracle := fun _ => Throw timeout.

(** An engine that drafts [summary] and classifies every update as
    [updateType]. *)
Definition scriptedEngine (summary updateType : string) : Engine.Oracle :=
  fun request =>
    if String.eqb (Engine.agent_operation (Engine.user_context request)) "analyze_update"
    then Return (answer updateType)
    else Return (answer summary).

Definition analyticsIssue : Jira.Issue :=
  Jira.mkIssue "KT-1" "Add Analytics events" (Some "In Progress") None None.

(** A Jira site that works: one issue in progress, a transition to Done. *)
Definition healthyJira (issues : list Jira.Issue) : Jira.Api :=
  Jira.mkApi
    (fun _ => Some "acct-1")
    (fun _ => Return "cloud-1")
    (fun _ _ => Return issues)
    (fun _ _ => Return tt)
    (fun _ _ => Return tt)
    (fun _ _ => Return tt)
    (fun _ => Return [Jira.mkTransition "11" "In Review"; Jira.mkTransition "31" "Done"]).

(** Dates that cast to themselves, and the text of a validation error. *)
Definition keepDate (s : string) : option (option string) := Some (Some s).

Definition validationText (paths : list (option nat * string)) : string :=
  "AgentSession validation failed".

Definition env (summary updateType : string) (issues : list Jira.Issue) : Agent.Env :=
  Agent.mkEnv (scriptedEngine summary updateType) (healthyJira issues) "s1"
    keepDate validationText.

(** A stored session with one task that awaits confirmation. *)
Definition confirmTask : Agent.TaskDoc :=
  Agent.mkTaskDoc "KT-1" "Add Analytics events" "In Progress" None None
    (Some "Added tracking events.") None Agent.AWAITING_CONFIRM.

Definition confirmSession : Agent.SessionDoc :=
  Agent.mkSessionDoc "u1" 0 [confirmTask].

Definition confirmStore : gmap string Agent.SessionDoc :=
  {[ "s1" := confirmSession ]}.

(** A stored session with two tasks: the first awaits confirmation, the
    second has a draft waiting for the edit decision. *)
Definition secondTask : Agent.TaskDoc :=
  Agent.mkTaskDoc "KT-2" "Fix login redirect" "In Progress" None None
    (Some "Redirect fixed.") None Agent.AWAITING_EDIT_DECISION.

Definition twoTasks : Agent.SessionDoc :=
  Agent.mkSessionDoc "u1" 0 [confirmTask; secondTask].

Definition twoTaskStore : gmap string Agent.SessionDoc :=
  {[ "s1" := twoTasks ]}.

(** The session the confirming turn returns from [twoTaskStore]. *)
Definition afterConfirm : Agent.IAgentSession :=
  Agent.mkSession "s1" "u1" 1
    [Agent.mkTask "KT-1" "Add Analytics events" "In Progress" None None None
       (Some "Added tracking events.") (Some "Added tracking events.")
       Agent.COMPLETED;
     Agent.mkTask "KT-2" "Fix login redirect" "In Progress" None None None
       (Some "Redirect fixed.") None Agent.AWAITING_UPDATE].

(** A stored session without tasks, and one whose index has drifted. *)
Definition emptySession : Agent.SessionDoc := Agent.mkSessionDoc "u1" 0 [].

Definition driftedSession : Agent.SessionDoc :=
  Agent.mkSessionDoc "u1" 7 [confirmTask].

Definition oddStore : gmap string Agent.SessionDoc :=
  {[ "s0" := emptySession; "s1" := driftedSession ]}.

(** The conversation of the completion scenario: one task in progress,
    the user reports it completed, declines to edit, then confirms.  The
    engine classifies the draft as a comment. *)
Definition scenarioEnv : Agent.Env :=
  env "Added tracking events." "comment_only" [analyticsIssue].

Definition started : Agent.World :=
  (Agent.startSession scenarioEnv "u1" (Agent.fresh ∅)).2.

Definition reported : Outcome (string * Agent.IAgentSession) * Agent.World :=
  Agent.handleMessage scenarioEnv "s1" "completed, added tracking" "u1"
    (Agent.fresh (Agent.store started)).

Definition declined : Outcome (string * Agent.IAgentSession) * Agent.World :=
  Agent.handleMessage scenarioEnv "s1" "no changes" "u1"
    (Agent.fresh (Agent.store reported.2)).

Definition confirmed : Outcome (string * Agent.IAgentSession) * Agent.World :=
  Agent.handleMessage scenarioEnv "s1" "yes" "u1"
    (Agent.fresh (Agent.store declined.2)).

(** The flags [pendingStatusDone] of the tasks of a returned session. *)
Definition flags (o : Outcome (string * Agent.IAgentSession)) : list (option bool) :=
  match o with
  | Return (_, s) => map Agent.pendingStatusDone (Agent.tasks s)
  | Throw _ => []
  end.

(** An engine that fails three times with 503 and would then answer. *)
Definition flakyEngine (attempt : nat) : Outcome Engine.AIEngineProcessResponse :=
  if (attempt <? 3)%nat then Throw (httpError 503) else Return (answer "Hello!").

Definition hello : AIService.AIRequest :=
  AIService.mkRequest "hello" (Some (AIService.mkContext "u1" None None)).

(** Redis before any request was counted. *)
Definition noCounters : gmap string Z := ∅.

End Fixtures.

(* ===================================================================== *)
(** * Vocabulary of the statements about sessions *)
(* ===================================================================== *)

Module Sessions.
Import Agent.

(** The task a stored session points at, when its index is in range. *)
Definition currentTask (d : SessionDoc) : option TaskDoc :=
  if doc_currentIndex d <? 0 then None
  else doc_tasks d !! Z.to_nat (doc_currentIndex d).

(** [0 <= currentIndex < len(tasks)] whenever [tasks] is non-empty. *)
Definition indexOk (d : SessionDoc) : Prop :=
  doc_tasks d ≠ [] →
  0 ≤ doc_currentIndex d < Z.of_nat (length (doc_tasks d)).

Definition savedIndexOk (ev : Event) : Prop :=
  match ev with
  | EvSave _ d => indexOk d
  | _ => True
  end.

(** The stored session after the guard against index drift has fired. *)
Definition healed (d : SessionDoc) : SessionDoc :=
  mkSessionDoc (doc_userId d) 0 (doc_tasks d).

Definition inRange (s : IAgentSession) : Prop :=
  0 ≤ currentIndex s < Z.of_nat (length (tasks s)).

(** What the loop after a commit computes: the first task after the
    current one that is not COMPLETED becomes the current one and awaits
    an update; without such a task the session stays as it is. *)
Definition advanceResult (s : IAgentSession) : IAgentSession * bool :=
  let j := currentIndex s + 1 in
  match list_find (λ t, state t ≠ COMPLETED) (drop (Z.to_nat j) (tasks s)) with
  | Some (k, next) =>
      (setTask (j + Z.of_nat k) (set_state AWAITING_UPDATE next)
         (set_currentIndex (j + Z.of_nat k) s), true)
  | None => (s, false)
  end.

(** The store after the saves of a trace. *)
Fixpoint replay (evs : list Event) (st : gmap string SessionDoc)
  : gmap string SessionDoc :=
  match evs with
  | [] => st
  | EvSave sid d :: evs' => replay evs' (<[sid := d]> st)
  | _ :: evs' => replay evs' st
  end.

(** A computation whose events satisfy [P], whose writes to the store
    are the saves among them, and whose result satisfies [Q]. *)
Definition traced {A} (P : Event → Prop) (Q : A → Prop) (m : M A) : Prop :=
  ∀ w, ∃ evs,
    trace (m w).2 = trace w ++ evs
    ∧ store (m w).2 = replay evs (store w)
    ∧ Forall P evs
    ∧ ∀ a, (m w).1 = Return a → Q a.

(** The world after an external call was logged. *)
Definition logged (w : World) (evs : list Event) : World :=
  mkWorld (store w) (trace w ++ evs).

(** The world after a save. *)
Definition saved (w : World) (s : IAgentSession) : World :=
  mkWorld (<[_id s := toDoc s]> (store w)) (trace w ++ [EvSave (_id s) (toDoc s)]).

(** The current task once it is finalized. *)
Definition finalized (task : ITaskState) : ITaskState :=
  set_state COMPLETED (set_finalSummary (draftSummary task) task).

(** The first task after index [i] that is not COMPLETED is the one at
    [j]. *)
Definition nextOpen (d : SessionDoc) (j : Z) (next : TaskDoc) : Prop :=
  doc_currentIndex d < j
  ∧ doc_tasks d !! Z.to_nat j = Some next
  ∧ doc_state next ≠ COMPLETED
  ∧ ∀ k other, doc_currentIndex d < k < j →
      doc_tasks d !! Z.to_nat k = Some other → doc_state other = COMPLETED.

(** Every task after the current one is COMPLETED. *)
Definition noneOpen (d : SessionDoc) : Prop :=
  ∀ k other, doc_currentIndex d < k →
    doc_tasks d !! Z.to_nat k = Some other → doc_state other = COMPLETED.

(** The states in which a draft has been proposed to the user. *)
Definition draftReady (st : AgentTaskState) : Prop :=
  st = AWAITING_EDIT_DECISION ∨ st = AWAITING_EDIT_INPUT ∨ st = AWAITING_CONFIRM.

(** A proposed draft is a non-empty string. *)
Definition draftOk (t : ITaskState) : Prop :=
  draftReady (state t) →
  ∃ draft, draftSummary t = Some draft ∧ draft ≠ EmptyString.

(** The cached status is Done only once the task is COMPLETED. *)
Definition statusOk (t : ITaskState) : Prop :=
  status t = "Done" → state t = COMPLETED.

(** The moves of one task, as the state switch makes them. *)
Inductive taskStep : ITaskState → ITaskState → Prop :=
| step_draft t draft (saidDone : bool) :
    state t = AWAITING_UPDATE → draft ≠ EmptyString →
    taskStep t
      (set_state AWAITING_EDIT_DECISION
         (let t := set_draftSummary (Some draft) t in
          if saidDone then set_pendingStatusDone true t else t))
| step_edit t :
    state t = AWAITING_EDIT_DECISION →
    taskStep t (set_state AWAITING_EDIT_INPUT t)
| step_keep t :
    state t = AWAITING_EDIT_DECISION →
    taskStep t (set_state AWAITING_CONFIRM t)
| step_revise t draft :
    state t = AWAITING_EDIT_INPUT →
    draft = draftSummary t ∨ (∃ text, draft = Some text ∧ text ≠ EmptyString) →
    taskStep t (set_state AWAITING_CONFIRM (set_draftSummary draft t))
| step_commit t t1 :
    state t = AWAITING_CONFIRM →
    t1 = t ∨ t1 = set_status "Done" t →
    taskStep t (finalized t1)
| step_next t :
    state t ≠ COMPLETED →
    taskStep t (set_state AWAITING_UPDATE t).

(** A task as it was, or one move later. *)
Definition moved (t t' : ITaskState) : Prop := t' = t ∨ taskStep t t'.

(** A save of the session [s] after at most one move of each task. *)
Definition savedMoved (s : IAgentSession) (ev : Event) : Prop :=
  match ev with
  | EvSave _ d => ∃ s', d = toDoc s' ∧ Forall2 moved (tasks s) (tasks s')
  | _ => True
  end.

(** A save of a session of the store [st] after at most one move of
    each of its tasks. *)
Definition savedFrom (st : gmap string SessionDoc) (ev : Event) : Prop :=
  match ev with
  | EvSave _ d' =>
      ∃ sid d s', st !! sid = Some d ∧ d' = toDoc s'
                  ∧ Forall2 moved (tasks (ofDoc sid d)) (tasks s')
  | _ => True
  end.

(** A property of tasks holds throughout the collection. *)
Definition everyTask (I : ITaskState → Prop) (st : gmap string SessionDoc) : Prop :=
  ∀ sid d, st !! sid = Some d → Forall (λ t, I (taskOfDoc t)) (doc_tasks d).

(** The search that [getPendingTasks] sends asks for issues whose status
    is In Progress; a site that answers the filter returns no issue whose
    status is Done. *)
Definition answersFilter (api : Jira.Api) : Prop :=
  ∀ cloudId accountId issues,
    Jira.search api cloudId (Jira.jql accountId) = Return issues →
    Forall (λ issue, Jira.statusName issue ≠ Some "Done") issues.

Definition anySite (api : Jira.Api) : Prop := True.

(** The stores the service can produce: from the empty collection, by
    [startSession] against a Jira site of the kind [site] and by
    [handleMessage], whatever the engine and Jira do. *)
Inductive reachable (site : Jira.Api → Prop) : gmap string SessionDoc → Prop :=
| reach_empty : reachable site ∅
| reach_start env user st :
    reachable site st → site (jira env) →
    reachable site (store (startSession env user (fresh st)).2)
| reach_message env sid msg user st :
    reachable site st →
    reachable site (store (handleMessage env sid msg user (fresh st)).2).

(** A request: the outcome and the world after it, from a store. *)
Definition turn (env : Env) (st : gmap string SessionDoc)
    (sid msg user : string) : Outcome (string * IAgentSession) * World :=
  handleMessage env sid msg user (fresh st).

(** A ticket mutation that completed without error appears in the trace. *)
Definition committed (evs : list Event) : Prop :=
  ∃ call, EvJira call true ∈ evs ∧ Jira.isMutation call = true.

(** The calls to Jira in a trace, with whether they returned. *)
Definition jiraCalls (evs : list Event) : list (Jira.Call * bool) :=
  omap (fun ev => match ev with
                  | EvJira call ok => Some (call, ok)
                  | _ => None
                  end) evs.

End Sessions.

(* ===================================================================== *)
(** * Vocabulary of the statements about what a request leaves alone *)
(* ===================================================================== *)

Module Frames.
Import Agent Sessions.

(** A save of the session [s] under its own identifier and user, after at
    most one move of each task. *)
Definition savedAs (s : IAgentSession) (ev : Event) : Prop :=
  match ev with
  | EvSave sid d =>
      ∃ s', sid = _id s ∧ d = toDoc s' ∧ userId s' = userId s
            ∧ Forall2 moved (tasks s) (tasks s')
  | _ => True
  end.

(** A save under the identifier [sid] of the session stored there, after
    at most one move of each task. *)
Definition savedOver (st : gmap string SessionDoc) (sid : string) (ev : Event) : Prop :=
  match ev with
  | EvSave sid' d' =>
      sid' = sid
      ∧ ∃ d s', st !! sid = Some d ∧ d' = toDoc s' ∧ doc_userId d' = doc_userId d
                ∧ Forall2 moved (tasks (ofDoc sid d)) (tasks s')
  | _ => True
  end.

Definition notJira (ev : Event) : Prop :=
  match ev with
  | EvJira _ _ => False
  | _ => True
  end.

(** No task of the session awaits confirmation. *)
Definition noneAwaitsConfirm (d : SessionDoc) : Prop :=
  Forall (λ t, doc_state t ≠ AWAITING_CONFIRM) (doc_tasks d).

(** The session as [findById] returns it after a [save]. *)
Definition reloaded (s : IAgentSession) : IAgentSession :=
  ofDoc (_id s) (toDoc s).

(** What a trace counts.  [engineRequests] is the number of calls of
    [aiEngineClient.processMessage], each of which is one request to the
    engine.  [jiraOperations] is the number of calls of the methods of
    [JiraService] (addComment, getTransitionId, updateTask,
    getPendingTasks); it is not the number of HTTP requests: each of
    these methods also looks up the integration token, may refresh and
    save it, and reads the accessible resources before its own request.
    [sessionSaves] is the number of saves of the session document. *)
Definition engineRequests (evs : list Event) : nat :=
  length (List.filter (λ ev, match ev with EvEngine _ _ => true | _ => false end) evs).
Definition jiraOperations (evs : list Event) : nat :=
  length (List.filter (λ ev, match ev with EvJira _ _ => true | _ => false end) evs).
Definition sessionSaves (evs : list Event) : nat :=
  length (List.filter (λ ev, match ev with EvSave _ _ => true | _ => false end) evs).

(** A trace with at most so many engine requests, Jira operations and
    saves of the session. *)
Definition withinBudget (engineMax jiraMax saveMax : nat) (evs : list Event) : Prop :=
  (engineRequests evs ≤ engineMax)%nat
  ∧ (jiraOperations evs ≤ jiraMax)%nat
  ∧ (sessionSaves evs ≤ saveMax)%nat.

End Frames.

(* ===================================================================== *)
(** * Controller: [AgentController] and [getPendingTasksCount] *)
(* ===================================================================== *)

Module Controller.
Import Agent.

(** [agentConversationService.getPendingTasksCount] *)
Definition getPendingTasksCount (env : Env) (user : string) : M nat :=
  pendingTasks ← getPendingTasks env user;
  mret (length pendingTasks).

(** The fields of [req.body] the controller reads; [user] is the
    [LoginToken.id] that the authentication middleware stored. *)
Record Body : Type := mkBody {
  sessionId : option string;
  message : option string;
  user : string;
}.

Inductive Json : Type :=
| Started (session : IAgentSession)          (* status, message, data *)
| Replied (reply : string) (session : IAgentSession)
| Counted (count : nat)
| Failed (message : string).

Record HttpResponse : Type := mkHttp {
  statusCode : Z;
  json : Json;
}.

(** The handlers, as the functions given to [catchAsync]: a thrown error
    is the rejection that [catchAsync] receives. *)
Definition startSession (env : Env) (body : Body) : M HttpResponse :=
  session ← Agent.startSession env (user body);
  mret (mkHttp 201 (Started session)).

Definition handleMessage (env : Env) (body : Body) : M HttpResponse :=
  if (negb (Js.truthyOpt (sessionId body)) || negb (Js.truthyOpt (message body)))%bool
  then mret (mkHttp 400 (Failed "sessionId and message are required"))
  else
    '(reply, session) ← Agent.handleMessage env (Js.show (sessionId body))
                          (Js.show (message body)) (user body);
    mret (mkHttp 200 (Replied reply session)).

Definition pendingTasksCount (env : Env) (body : Body) : M HttpResponse :=
  count ← getPendingTasksCount env (user body);
  mret (mkHttp 200 (Counted count)).

End Controller.

(* ===================================================================== *)
(** * Health: [AIService.getHealth] and the route [/ai/health] *)
(* ===================================================================== *)

Module Health.

(** The payload of the engine's health endpoint: the fields of
    [AIEngineHealthResponse] and, since [getHealth] spreads the whole
    payload into its result, the properties [status], [provider] and
    [error] that a payload may carry although the interface does not
    declare them ([None] when the payload has no such key). *)
Record AIEngineHealthResponse : Type := mkEngineHealth {
  healthy : bool;
  timestamp : string;
  statusKey : option string;
  providerKey : option string;
  errorKey : option string;
}.

(** What [getHealth] returns, the properties the route and its clients
    read. *)
Record Report : Type := mkReport {
  status : string;
  provider : option string;
  engineHealthy : option bool;
  error : option string;
}.

(** [AIService.getHealth()]; [engine] is [aiEngineClient.getHealth()].
    In [{ status, provider, ...health }] a key of the payload overrides
    the one written before the spread. *)
Definition getHealth (engine : Outcome AIEngineHealthResponse) : Report :=
  match engine with
  | Return health =>
      mkReport
        (default (if healthy health then "healthy" else "unhealthy")
           (statusKey health))
        (Some (default "ai_engine" (providerKey health)))
        (Some (healthy health))
        (errorKey health)
  | Throw e =>
      mkReport "unhealthy" None None
        (Some (if Js.truthy (Js.message e) then Js.message e
               else "Health check failed"))
  end.

(** [res.status(health.status === "healthy" ? 200 : 503)] *)
Definition route (engine : Outcome AIEngineHealthResponse) : Z * Report :=
  let health := getHealth engine in
  (if String.eqb (status health) "healthy" then 200 else 503, health).

End Health.

(* ===================================================================== *)
(** * JiraAuth: [ensureValidJiraAccessToken] *)
(* ===================================================================== *)

Module JiraAuth.

(** The fields of the integration token the function reads and writes.
    [expiresAt] is the time in milliseconds of [new Date(expiresAt)], and
    [None] when that date is invalid (the field is missing). *)
Record TokenDoc : Type := mkToken {
  accessToken : option string;
  refreshToken : option string;
  expiresAt : option Z;
}.

(** [refreshRes.data] *)
Record RefreshData : Type := mkRefresh {
  access_token : string;
  refresh_token : string;
  expires_in : Z;
}.

Inductive Event : Type :=
| Refresh (refresh_token : string)
| SaveToken (doc : TokenDoc).

(** [now > expiresAt - 60_000], false when [expiresAt] is not a number. *)
Definition expiring (now : Z) (doc : TokenDoc) : bool :=
  match expiresAt doc with
  | Some t => t - 60000 <? now
  | None => false
  end.

(** [ensureValidJiraAccessToken(tokenDoc)] at the time [now]; [post] is
    the request to the token endpoint.  The result is the token returned
    or the error thrown, the document afterwards and the events. *)
Definition ensureValidJiraAccessToken
    (post : string → Outcome RefreshData) (now : Z) (tokenDoc : TokenDoc)
  : Outcome (option string) * TokenDoc * list Event :=
  if negb (Js.truthyOpt (refreshToken tokenDoc))
  then (Throw (Err "Missing refresh token for Jira integration."), tokenDoc, [])
  else
    if (negb (Js.truthyOpt (accessToken tokenDoc)) || expiring now tokenDoc)%bool
    then
      match post (Js.show (refreshToken tokenDoc)) with
      | Throw e => (Throw e, tokenDoc, [Refresh (Js.show (refreshToken tokenDoc))])
      | Return data =>
          let tokenDoc' :=
            mkToken (Some (access_token data)) (Some (refresh_token data))
              (Some (now + expires_in data * 1000)) in
          (Return (accessToken tokenDoc'), tokenDoc',
           [Refresh (Js.show (refreshToken tokenDoc)); SaveToken tokenDoc'])
      end
    else (Return (accessToken tokenDoc), tokenDoc, []).

Definition refreshes (evs : list Event) : nat :=
  length (List.filter (fun ev => match ev with Refresh _ => true | _ => false end) evs).

End JiraAuth.

(* ===================================================================== *)
(** * Azure: [handleAzureError] *)
(* ===================================================================== *)

Module Azure.

(** [AzureOpenAIError] *)
Record AzureOpenAIError : Type := mkAzureError {
  message : string;
  code : string;
  status : Z;
  isRetryable : bool;
}.

(** [handleAzureError(error)] *)
Definition handleAzureError (error : Error) : AzureOpenAIError :=
  let status := AIService.statusOf error in
  if bool_decide (status = Some 429)
  then mkAzureError "Rate limit exceeded" "RATE_LIMIT_EXCEEDED" 429 true
  else if bool_decide (status = Some 401)
  then mkAzureError "Invalid API key or unauthorized" "UNAUTHORIZED" 401 false
  else if bool_decide (status = Some 404)
  then mkAzureError "Model or deployment not found" "RESOURCE_NOT_FOUND" 404 false
  else if bool_decide (status = Some 503)
  then mkAzureError "Azure OpenAI service unavailable" "SERVICE_UNAVAILABLE" 503 true
  else mkAzureError
         (if Js.truthy (Js.message error) then Js.message error else "Unknown error")
         "INTERNAL_ERROR" 500 false.

End Azure.

(* ===================================================================== *)
Module Samples.

(** A session that is finished, next to one that awaits confirmation. *)
Definition doneTask : Agent.TaskDoc :=
  Agent.mkTaskDoc "KT-7" "Rotate API keys" "Done" None None
    (Some "Keys rotated.") (Some "Keys rotated.") Agent.COMPLETED.

Definition archive : Agent.SessionDoc := Agent.mkSessionDoc "u2" 0 [doneTask].

Definition mixedStore : gmap string Agent.SessionDoc :=
  {[ "s1" := Fixtures.confirmSession; "s2" := archive ]}.

(** A session whose only task has a draft waiting for the edit decision. *)
Definition draftedStore : gmap string Agent.SessionDoc :=
  {[ "s1" := Agent.mkSessionDoc "u1" 0 [Fixtures.secondTask] ]}.

(** A Jira site whose workflow has no transition to Done. *)
Definition stuckJira : Jira.Api :=
  Jira.mkApi
    (fun _ => Some "acct-1")
    (fun _ => Return "cloud-1")
    (fun _ _ => Return [])
    (fun _ _ => Return tt)
    (fun _ _ => Return tt)
    (fun _ _ => Return tt)
    (fun _ => Return [Jira.mkTransition "11" "In Review"]).

Definition stuckEnv : Agent.Env :=
  Agent.mkEnv (Fixtures.scriptedEngine "Added tracking events." "comment_and_status")
    stuckJira "s1" Fixtures.keepDate Fixtures.validationText.

(** An environment whose engine is unreachable. *)
Definition offlineEnv : Agent.Env :=
  Agent.mkEnv Fixtures.downEngine (Fixtures.healthyJira []) "s1"
    Fixtures.keepDate Fixtures.validationText.

(** A session as [startSession] stores it: one task awaiting its update. *)
Definition freshSession : Agent.SessionDoc :=
  Agent.mkSessionDoc "u1" 0
    [Agent.mkTaskDoc "KT-1" "Add Analytics events" "In Progress" None None
       None None Agent.AWAITING_UPDATE].

Definition freshStore : gmap string Agent.SessionDoc := {[ "s1" := freshSession ]}.

(** A session whose only task waits for the user's edits. *)
Definition editingSession : Agent.SessionDoc :=
  Agent.mkSessionDoc "u1" 0
    [Agent.mkTaskDoc "KT-1" "Add Analytics events" "In Progress" None None
       (Some "Added tracking events.") None Agent.AWAITING_EDIT_INPUT].

Definition editingStore : gmap string Agent.SessionDoc :=
  {[ "s1" := editingSession ]}.

(** An engine that answers every request with blanks. *)
Definition blankEnv : Agent.Env :=
  Agent.mkEnv (fun _ => Return (Fixtures.answer "   ")) (Fixtures.healthyJira []) "s1"
    Fixtures.keepDate Fixtures.validationText.

(** A Jira site whose search returns an issue that is already Done, and
    the conversation on it: the session is started, the user reports,
    declines to edit and confirms; the engine classifies the update as
    [status_only]. *)
Definition closedIssue : Jira.Issue :=
  Jira.mkIssue "KT-9" "Archive old reports" (Some "Done") None None.

Definition closedEnv : Agent.Env :=
  Fixtures.env "Archived the reports." "status_only" [closedIssue].

Definition closedStarted : Agent.World :=
  (Agent.startSession closedEnv "u1" (Agent.fresh ∅)).2.

Definition closedReported : Agent.World :=
  (Agent.handleMessage closedEnv "s1" "archived them" "u1"
     (Agent.fresh (Agent.store closedStarted))).2.

Definition closedDeclined : Agent.World :=
  (Agent.handleMessage closedEnv "s1" "no changes" "u1"
     (Agent.fresh (Agent.store closedReported))).2.

(** An engine that answers every request with an empty text. *)
Definition emptyEnv : Agent.Env :=
  Agent.mkEnv (fun _ => Return (Fixtures.answer EmptyString))
    (Fixtures.healthyJira [Fixtures.analyticsIssue]) "s1"
    Fixtures.keepDate Fixtures.validationText.

(** Redis after a hundred requests of the user u1 within the hour. *)
Definition busyCounters : gmap string Z := {[ "rate:u1" := 100 ]}.

(** An engine that refuses the request without an HTTP error. *)
Definition refusal : Engine.AIEngineProcessResponse :=
  Engine.mkResponse false None None None None (Some "RATE_LIMITED")
    (Some "Too many requests").

Definition refusingEngine (attempt : nat) : Outcome Engine.AIEngineProcessResponse :=
  if (attempt <? 1)%nat then Throw (Fixtures.httpError 503) else Return refusal.

End Samples.

(** * Properties *)
(* ===================================================================== *)

Example isAffirmative_yes : Text.isAffirmative "Yes, please" = true.
Proof. reflexivity. Qed.

Example isAffirmative_yesterday : Text.isAffirmative "yesterday" = false.
Proof. reflexivity. Qed.

Example isAffirmative_go_ahead : Text.isAffirmative "please GO AHEAD now" = true.
Proof. reflexivity. Qed.

Example saidDone_completed : Text.saidDone "completed, added tracking" = true.
Proof. reflexivity. Qed.

Example saidDone_undone : Text.saidDone "undone" = false.
Proof. reflexivity. Qed.

Example trim_example : Text.trim "  Status_Only  " = "Status_Only".
Proof. reflexivity. Qed.


(** ** The patterns accept their phrases *)

Section regex_facts.
Import Text Words.

Lemma canonicalize_lower (c : ascii) : canonicalize (lower c) = canonicalize c.
Proof. destruct c as [[] [] [] [] [] [] [] []]; reflexivity. Qed.

Lemma isWordChar_lower (c : ascii) : isWordChar (lower c) = isWordChar c.
Proof. destruct c as [[] [] [] [] [] [] [] []]; reflexivity. Qed.

Lemma lower_canonicalize (x y : ascii) :
  lower x = lower y → canonicalize x = canonicalize y.
Proof.
  intros H. rewrite <- (canonicalize_lower x), <- (canonicalize_lower y).
  by rewrite H.
Qed.

Lemma lower_isWordChar (x y : ascii) :
  lower x = lower y → isWordChar x = isWordChar y.
Proof.
  intros H. rewrite <- (isWordChar_lower x), <- (isWordChar_lower y).
  by rewrite H.
Qed.

Lemma matchRe_Seq r1 r2 prev rest k k' :
  In k (matchRe r1 prev rest) → In k' (matchRe r2 k.1 k.2) →
  In k' (matchRe (Seq r1 r2) prev rest).
Proof.
  intros H1 H2. simpl. apply in_concat.
  exists (matchRe r2 k.1 k.2). split; [|done].
  apply in_map_iff. by exists k.
Qed.

(** An occurrence of [w] is consumed by [word w]. *)
Lemma matchRe_word w : ∀ occ post prev,
  sameWord occ w = true →
  In (lastOr prev occ, post) (matchRe (word w) prev (occ +:+ post)).
Proof.
  induction w as [|c w IH]; intros [|x occ] post prev Hs; simpl in Hs; try done.
  - simpl. by left.
  - apply andb_prop in Hs as [Hx Hs]. apply Ascii.eqb_eq in Hx.
    apply (matchRe_Seq _ _ _ _ (Some x, occ +:+ post)).
    + simpl. rewrite (lower_canonicalize _ _ Hx), Ascii.eqb_refl. by left.
    + simpl. by apply IH.
Qed.

Lemma matchRe_anyOf ws w prev rest k :
  In w ws → In k (matchRe (word w) prev rest) → In k (matchRe (anyOf ws) prev rest).
Proof.
  induction ws as [|w' ws IH]; intros Hin Hk; [done|].
  simpl. apply in_or_app. destruct Hin as [->|Hin]; [by left|right; by apply IH].
Qed.

Lemma sameWord_peek occ w :
  sameWord occ w = true → isWordOpt (peek occ) = isWordOpt (peek w).
Proof.
  destruct occ as [|x occ], w as [|y w]; simpl; try done.
  intros [Hx _]%andb_prop. apply Ascii.eqb_eq in Hx. by apply lower_isWordChar.
Qed.

Lemma sameWord_lastOr occ : ∀ w p q,
  sameWord occ w = true → isWordOpt p = isWordOpt q →
  isWordOpt (lastOr p occ) = isWordOpt (lastOr q w).
Proof.
  induction occ as [|x occ IH]; intros [|y w] p q Hs Hpq; simpl in *; try done.
  apply andb_prop in Hs as [Hx Hs]. apply Ascii.eqb_eq in Hx.
  apply IH; [done|]. simpl. by apply lower_isWordChar.
Qed.

Lemma lastOr_nonempty occ p q : occ ≠ EmptyString → lastOr p occ = lastOr q occ.
Proof. destruct occ; [done|]. reflexivity. Qed.

Lemma peek_append occ post : occ ≠ EmptyString → peek (occ +:+ post) = peek occ.
Proof. by destruct occ. Qed.

(** Matching restarts at every position, so a match after [pre] is found. *)
Lemma testFrom_skip r rest : ∀ pre prev,
  matchRe r (lastOr prev pre) rest ≠ [] → testFrom r prev (pre +:+ rest) = true.
Proof.
  induction pre as [|c pre IH]; intros prev Hm; simpl in *.
  - destruct rest; simpl; destruct (matchRe r prev _); done.
  - destruct (matchRe r prev _); [|done]. by apply IH.
Qed.

Lemma wholeWordRe_complete ws w s :
  In w ws → wordEdged w = true → containsWholeWord w s →
  test (wholeWordRe ws) s = true.
Proof.
  intros Hin Hedge (pre & occ & post & -> & Hs & Hpre & Hpost).
  apply andb_prop in Hedge as [Hfirst Hlast].
  assert (Hne : occ ≠ EmptyString).
  { intros ->. destruct w; simpl in *; done. }
  apply testFrom_skip.
  assert (In (lastOr (lastOr None pre) occ, post)
            (matchRe (wholeWordRe ws) (lastOr None pre) (occ +:+ post))) as Hk;
    [|by destruct (matchRe _ _ _)].
  unfold wholeWordRe.
  apply (matchRe_Seq _ _ _ _ (lastOr None pre, occ +:+ post)).
  { simpl. rewrite Hpre, (peek_append _ _ Hne), (sameWord_peek _ _ Hs), Hfirst.
    by left. }
  simpl fst; simpl snd.
  apply (matchRe_Seq _ _ _ _ (lastOr (lastOr None pre) occ, post)).
  { eapply matchRe_anyOf; [done|]. by apply matchRe_word. }
  simpl. rewrite (lastOr_nonempty occ _ None Hne).
  rewrite (sameWord_lastOr occ w None None Hs eq_refl), Hlast, Hpost. by left.
Qed.
End regex_facts.

(** C9. Every input that contains one of yes, yep, yeah, y, ok, okay, sure,
    go ahead, confirm, proceed as a whole word, in any letter case, is
    accepted by [isAffirmative]; every input that contains one of done,
    completed, complete, finished, resolved, closed as a whole word, in
    any letter case, is accepted by [saidDone]. *)
Theorem phrase_sets_accepted (w s : string) :
  (w ∈ Text.affirmativeWords → Words.containsWholeWord w s →
   Text.isAffirmative s = true)
  ∧ (w ∈ Text.doneWords → Words.containsWholeWord w s →
     Text.saidDone s = true).
Proof.
  split; intros Hin%list_elem_of_In Hc;
    (eapply wholeWordRe_complete; [exact Hin| |exact Hc]).
  - assert (Forall (λ w, Words.wordEdged w = true) Text.affirmativeWords) as HF
      by (repeat constructor).
    rewrite Forall_forall in HF. apply HF. by apply list_elem_of_In.
  - assert (Forall (λ w, Words.wordEdged w = true) Text.doneWords) as HF
      by (repeat constructor).
    rewrite Forall_forall in HF. apply HF. by apply list_elem_of_In.
Qed.

Lemma phrase_sets_accepted_witness :
  Text.isAffirmative "Sure, GO AHEAD!" = true
  ∧ Text.saidDone "it is Resolved." = true.
Proof.
  split.
  - apply (phrase_sets_accepted "go ahead" "Sure, GO AHEAD!").
    + unfold Text.affirmativeWords. set_solver.
    + exists "Sure, ", "GO AHEAD", "!". repeat split; reflexivity.
  - apply (phrase_sets_accepted "resolved" "it is Resolved.").
    + unfold Text.doneWords. set_solver.
    + exists "it is ", "Resolved", ".". repeat split; reflexivity.
Defined.

(** ** [analyzeUpdateType] *)

Section analyze_facts.
Import Engine.

Lemma in_updateTypes (u : string) :
  u ∈ updateTypes
  ↔ u = "status_only" ∨ u = "comment_only" ∨ u = "comment_and_status".
Proof.
  unfold updateTypes. rewrite !elem_of_cons, elem_of_nil. tauto.
Qed.

Lemma analyzeUpdateType_in_enum engine summary user u :
  analyzeUpdateType engine summary user = Return u → u ∈ updateTypes.
Proof.
  unfold analyzeUpdateType, updateTypes.
  destruct (engine _) as [response|e]; [|done].
  destruct (_ || _)%bool; [intros [= <-]; set_solver|].
  destruct (String.eqb _ "status_only") eqn:E1; simpl.
  { apply String.eqb_eq in E1. intros [= <-]. rewrite E1. set_solver. }
  destruct (String.eqb _ "comment_only") eqn:E2; simpl.
  { apply String.eqb_eq in E2. intros [= <-]. rewrite E2. set_solver. }
  destruct (String.eqb _ "comment_and_status") eqn:E3; simpl.
  { apply String.eqb_eq in E3. intros [= <-]. rewrite E3. set_solver. }
  intros [= <-]. set_solver.
Qed.
End analyze_facts.

(** C3 (as stated) fails: when the call to the engine itself is rejected,
    [analyzeUpdateType] is rejected with the same error and yields no
    update type, so not [comment_only] either. *)
Lemma analyzeUpdateType_engine_down :
  Engine.analyzeUpdateType Fixtures.downEngine (Some "Added tracking events") "u1"
    = Throw Fixtures.timeout
  ∧ Engine.analyzeUpdateType Fixtures.downEngine (Some "Added tracking events") "u1"
    ≠ Return "comment_only".
Proof. split; [reflexivity|discriminate]. Qed.

(** C3 (amended). Whenever the engine answers, [analyzeUpdateType] returns
    one of status_only, comment_only, comment_and_status; it returns
    comment_only when the answer has [success: false] or no content, and
    when the content, trimmed and lower-cased, is none of the three.  When
    the call to the engine is rejected, the rejection propagates. *)
Theorem analyzeUpdateType_default
    (engine : Engine.Oracle) (summary : option string) (user : string) :
  (∀ response, engine (Engine.analyzeRequest summary user) = Return response →
     ∃ u, Engine.analyzeUpdateType engine summary user = Return u
          ∧ u ∈ Engine.updateTypes
          ∧ (Engine.success response = false
             ∨ Js.truthyOpt (Engine.generated_content response) = false
             ∨ Text.toLowerCase (Text.trim (Engine.content response))
                 ∉ Engine.updateTypes →
             u = "comment_only"))
  ∧ (∀ e, engine (Engine.analyzeRequest summary user) = Throw e →
       Engine.analyzeUpdateType engine summary user = Throw e).
Proof.
  split.
  - intros response Hr.
    destruct (Engine.analyzeUpdateType engine summary user) as [u|e] eqn:Hu.
    2: { unfold Engine.analyzeUpdateType in Hu. rewrite Hr in Hu.
         by repeat case_match. }
    exists u. split; [done|]. split; [by eapply analyzeUpdateType_in_enum|].
    unfold Engine.analyzeUpdateType in Hu. rewrite Hr in Hu.
    intros [H|[H|H]].
    + rewrite H in Hu. simpl in Hu. congruence.
    + rewrite H, orb_true_r in Hu. congruence.
    + destruct (_ || _)%bool; [congruence|].
      destruct (String.eqb _ "status_only") eqn:E1.
      { apply String.eqb_eq in E1. rewrite E1 in H.
        unfold Engine.updateTypes in H. set_solver. }
      destruct (String.eqb _ "comment_only") eqn:E2.
      { apply String.eqb_eq in E2. simpl in Hu. congruence. }
      destruct (String.eqb _ "comment_and_status") eqn:E3.
      { apply String.eqb_eq in E3. rewrite E3 in H.
        unfold Engine.updateTypes in H. set_solver. }
      simpl in Hu. congruence.
  - intros e He. unfold Engine.analyzeUpdateType. by rewrite He.
Qed.

Lemma analyzeUpdateType_default_witness :
  (∃ u, Engine.analyzeUpdateType (Fixtures.scriptedEngine "Done." "maybe")
          (Some "Done.") "u1" = Return u
        ∧ u ∈ Engine.updateTypes
        ∧ (Engine.success (Fixtures.answer "maybe") = false
           ∨ Js.truthyOpt (Engine.generated_content (Fixtures.answer "maybe")) = false
           ∨ Text.toLowerCase (Text.trim (Engine.content (Fixtures.answer "maybe")))
               ∉ Engine.updateTypes →
           u = "comment_only"))
  ∧ Engine.analyzeUpdateType Fixtures.downEngine (Some "Done.") "u1"
    = Throw Fixtures.timeout.
Proof.
  split.
  - apply (proj1 (analyzeUpdateType_default
                    (Fixtures.scriptedEngine "Done." "maybe") (Some "Done.") "u1")).
    reflexivity.
  - apply (proj2 (analyzeUpdateType_default Fixtures.downEngine (Some "Done.") "u1")).
    reflexivity.
Defined.

(** ** The session documents *)

Section doc_facts.
Import Agent Sessions.

Lemma taskToDoc_ofDoc (d : TaskDoc) : taskToDoc (taskOfDoc d) = d.
Proof. by destruct d. Qed.

Lemma tasksToDoc_ofDoc (ts : list TaskDoc) :
  map taskToDoc (map taskOfDoc ts) = ts.
Proof.
  induction ts as [|t ts IH]; simpl; [done|]. by rewrite taskToDoc_ofDoc, IH.
Qed.

Lemma toDoc_ofDoc sid (d : SessionDoc) : toDoc (ofDoc sid d) = d.
Proof.
  destruct d as [u i ts]. unfold toDoc, ofDoc; simpl.
  by rewrite tasksToDoc_ofDoc.
Qed.

Lemma taskAt_ofDoc sid (d : SessionDoc) :
  taskAt (tasks (ofDoc sid d)) (currentIndex (ofDoc sid d))
  = taskOfDoc <$> currentTask d.
Proof.
  unfold taskAt, currentTask; simpl. case_match; [done|].
  by rewrite list_lookup_fmap.
Qed.

Lemma currentTask_inv (d : SessionDoc) (t : TaskDoc) :
  currentTask d = Some t →
  0 ≤ doc_currentIndex d < Z.of_nat (length (doc_tasks d)).
Proof.
  unfold currentTask. case_match eqn:E; [done|].
  intros H%lookup_lt_Some. lia.
Qed.
End doc_facts.

(** A tactic that runs the monadic code of a request symbolically. *)
Ltac run_request :=
  unfold Agent.handleMessage, Agent.healIndex, Agent.findById, Agent.save,
    Agent.external, Agent.emit, Agent.throw, Agent.undefinedTask,
    mbind, mret, Agent.M_bind, Agent.M_ret; simpl.

(** C4. When the current task of a stored session is in AWAITING_CONFIRM
    and the message is not affirmative, the request returns the
    "not yet" reply with the session as it was loaded, and the world is
    the one it started in: the stored session is unchanged, so the task is
    still in AWAITING_CONFIRM, and the trace has no new event, so there
    was no call to Jira (no addComment, updateTask or getTransitionId). *)
Theorem non_affirmative_keeps_confirm
    (env : Agent.Env) (w : Agent.World) (sid msg user : string)
    (d : Agent.SessionDoc) (t : Agent.TaskDoc) :
  Agent.store w !! sid = Some d →
  Sessions.currentTask d = Some t →
  Agent.doc_state t = Agent.AWAITING_CONFIRM →
  Text.isAffirmative msg = false →
  Agent.handleMessage env sid msg user w
  = (Return (Agent.notYetReply, Agent.ofDoc sid d), w).
Proof.
  intros Hd Ht Hst Hmsg.
  pose proof (currentTask_inv _ _ Ht) as Hidx.
  pose proof (taskAt_ofDoc sid d) as Hat. rewrite Ht in Hat.
  run_request. rewrite Hd. simpl.
  rewrite length_map.
  destruct (decide _) as [E|_]; [lia|].
  destruct (_ || _)%bool eqn:E; [lia|].
  rewrite Hat.
  unfold Agent.dispatch. simpl. rewrite Hst.
  unfold Agent.onAwaitingConfirm. by rewrite Hmsg.
Qed.

Lemma non_affirmative_keeps_confirm_witness :
  Agent.handleMessage (Fixtures.env "Added tracking." "comment_only" [])
    "s1" "not yet, wait" "u1" (Agent.fresh Fixtures.confirmStore)
  = (Return (Agent.notYetReply, Agent.ofDoc "s1" Fixtures.confirmSession),
     Agent.fresh Fixtures.confirmStore).
Proof.
  apply (non_affirmative_keeps_confirm _ _ _ _ _ _ Fixtures.confirmTask);
    reflexivity.
Defined.

(** ** Reducing a request to the state switch *)

Section request_facts.
Import Agent Sessions.

Lemma handleMessage_missing env w sid msg user :
  store w !! sid = None →
  handleMessage env sid msg user w = (Throw (Err "Session not found"), w).
Proof. intros H. run_request. by rewrite H. Qed.

Lemma handleMessage_empty env w sid d msg user :
  store w !! sid = Some d → doc_tasks d = [] →
  handleMessage env sid msg user w = (Return (noTasksReply, ofDoc sid d), w).
Proof. intros H E. run_request. rewrite H. simpl. by rewrite E. Qed.

Lemma handleMessage_in_range env w sid d t msg user :
  store w !! sid = Some d → currentTask d = Some t →
  handleMessage env sid msg user w
  = dispatch env (ofDoc sid d) (taskOfDoc t) msg user w.
Proof.
  intros Hd Ht.
  pose proof (currentTask_inv _ _ Ht) as Hidx.
  pose proof (taskAt_ofDoc sid d) as Hat. rewrite Ht in Hat.
  run_request. rewrite Hd. simpl. rewrite length_map.
  destruct (decide _) as [E|_]; [lia|].
  destruct (_ || _)%bool eqn:E; [lia|].
  by rewrite Hat.
Qed.

Lemma handleMessage_drift env w sid d t0 rest msg user :
  store w !! sid = Some d → doc_tasks d = t0 :: rest →
  doc_currentIndex d < 0 ∨ Z.of_nat (length (doc_tasks d)) ≤ doc_currentIndex d →
  handleMessage env sid msg user w
  = dispatch env (ofDoc sid (healed d)) (taskOfDoc t0) msg user
      (mkWorld (<[sid := healed d]> (store w))
               (trace w ++ [EvSave sid (healed d)])).
Proof.
  intros Hd Hts Hidx.
  run_request. rewrite Hd. simpl. rewrite length_map.
  destruct (decide _) as [E|_]; [rewrite Hts in E; done|].
  destruct (_ || _)%bool eqn:E; [|lia].
  simpl. unfold toDoc; simpl. rewrite tasksToDoc_ofDoc.
  unfold taskAt; simpl. rewrite Hts. simpl.
  unfold healed, ofDoc; simpl. by rewrite Hts.
Qed.
End request_facts.

(** C8. A request on a stored session with no tasks returns the
    explanatory reply and leaves the world as it was.  A request on a
    stored session with tasks whose index is negative or not below the
    number of tasks first saves the session with [currentIndex] 0 and
    then runs the state switch on the task at index 0, which exists. *)
Theorem guards_empty_and_drift
    (env : Agent.Env) (w : Agent.World) (sid msg user : string)
    (d : Agent.SessionDoc) :
  Agent.store w !! sid = Some d →
  (Agent.doc_tasks d = [] →
   Agent.handleMessage env sid msg user w
   = (Return (Agent.noTasksReply, Agent.ofDoc sid d), w))
  ∧ (Agent.doc_tasks d ≠ [] →
     Agent.doc_currentIndex d < 0
     ∨ Z.of_nat (length (Agent.doc_tasks d)) ≤ Agent.doc_currentIndex d →
     ∃ t0,
       Sessions.currentTask (Sessions.healed d) = Some t0
       ∧ Agent.taskAt (Agent.tasks (Agent.ofDoc sid (Sessions.healed d))) 0
         = Some (Agent.taskOfDoc t0)
       ∧ Agent.handleMessage env sid msg user w
         = Agent.dispatch env (Agent.ofDoc sid (Sessions.healed d)) (Agent.taskOfDoc t0)
             msg user
             (Agent.mkWorld (<[sid := Sessions.healed d]> (Agent.store w))
                            (Agent.trace w ++ [Agent.EvSave sid (Sessions.healed d)]))).
Proof.
  intros Hd. split.
  - intros E. by apply handleMessage_empty.
  - intros Hne Hidx. destruct (Agent.doc_tasks d) as [|t0 rest] eqn:Hts; [done|].
    exists t0. split; [|split].
    + unfold Sessions.currentTask, Sessions.healed; simpl. by rewrite Hts.
    + unfold Agent.taskAt, Sessions.healed; simpl. by rewrite Hts.
    + eapply handleMessage_drift; [done|done|]. by rewrite Hts.
Qed.

(** ** The effects of a computation, piece by piece *)

Section traced_facts.
Import Agent Sessions.
Context {P : Event → Prop}.

Lemma replay_app evs1 : ∀ evs2 st,
  replay (evs1 ++ evs2) st = replay evs2 (replay evs1 st).
Proof. induction evs1 as [|[] evs1 IH]; intros; simpl; auto. Qed.

Lemma replay_lookup evs : ∀ st sid d,
  replay evs st !! sid = Some d → st !! sid = Some d ∨ EvSave sid d ∈ evs.
Proof.
  induction evs as [|ev evs IH]; intros st sid d H; simpl in H; [by left|].
  destruct ev as [| |sid' d']; try (destruct (IH _ _ _ H); [by left|right; set_solver]).
  destruct (IH _ _ _ H) as [H'|H']; [|right; set_solver].
  destruct (decide (sid' = sid)) as [->|Hne].
  - rewrite lookup_insert_eq in H'. injection H' as ->. right. set_solver.
  - rewrite lookup_insert_ne in H' by done. by left.
Qed.

Lemma traced_ret {A} (Q : A → Prop) (a : A) : Q a → traced P Q (mret a).
Proof.
  intros HQ w. exists []. simpl. rewrite app_nil_r.
  repeat split; [done|]. by intros ? [= <-].
Qed.

Lemma traced_throw {A} (Q : A → Prop) (e : Error) : traced P Q (throw e).
Proof. intros w. exists []. simpl. rewrite app_nil_r. by repeat split. Qed.

Lemma traced_bind {A B} (Q : A → Prop) (R : B → Prop) (m : M A) (f : A → M B) :
  traced P Q m → (∀ a, Q a → traced P R (f a)) → traced P R (m ≫= f).
Proof.
  intros Hm Hf w. destruct (Hm w) as (evs1 & Ht & Hs & HP & HQ).
  unfold mbind, M_bind. destruct (m w) as [[a|e] w1]; simpl in *.
  - destruct (Hf a (HQ a eq_refl) w1) as (evs2 & Ht2 & Hs2 & HP2 & HR).
    exists (evs1 ++ evs2). rewrite Ht2, Ht, Hs2, Hs, replay_app, app_assoc.
    repeat split; [by apply Forall_app|done].
  - exists evs1. by repeat split.
Qed.

Lemma traced_external {A} (mk : bool → Event) (o : Outcome A) (Q : A → Prop) :
  (∀ ok, P (mk ok)) → (∀ ok d sid, mk ok ≠ EvSave sid d) →
  (∀ a, o = Return a → Q a) →
  traced P Q (external mk o).
Proof.
  intros HP Hmk HQ w. exists [mk (Js.returned o)].
  unfold external, emit, mbind, M_bind, mret, M_ret, throw.
  assert (∀ ok (st : gmap string SessionDoc), match mk ok with
                   | EvSave sid d => <[sid:=d]> st
                   | _ => st
                   end = st) as Hst.
  { intros ok st. destruct (mk ok) eqn:E; [done|done|by apply Hmk in E]. }
  destruct o as [a|e]; simpl; rewrite Hst;
    (split; [done|split; [done|split; [by constructor|]]]).
  - intros ? [= <-]. by apply HQ.
  - done.
Qed.

Lemma traced_save (s : IAgentSession) :
  P (EvSave (_id s) (toDoc s)) → traced P (λ _, True) (save s).
Proof.
  intros HP w. exists [EvSave (_id s) (toDoc s)]. simpl.
  split; [done|split; [done|split; [by constructor|done]]].
Qed.

Lemma traced_findById sid :
  traced P (λ found, ∀ s, found = Some s → ∃ d, s = ofDoc sid d) (findById sid).
Proof.
  intros w. exists []. simpl. rewrite app_nil_r. repeat split; [done|].
  intros ? [= <-] s. destruct (store w !! sid) as [d|]; [|done].
  intros [= <-]. by exists d.
Qed.
End traced_facts.

(** ** Moving on to the next task *)

Section advance_facts.
Import Agent Sessions.

Lemma taskAt_lookup (ts : list ITaskState) (j : Z) :
  0 ≤ j → taskAt ts j = ts !! Z.to_nat j.
Proof. intros H. unfold taskAt. destruct (j <? 0) eqn:E; [lia|done]. Qed.

Lemma advanceLoop_spec (remaining : nat) : ∀ (j : Z) (s : IAgentSession) (w : World),
  0 ≤ j → (Z.to_nat j + remaining)%nat = length (tasks s) →
  advanceLoop remaining j s w
  = (Return
       match list_find (λ t, state t ≠ COMPLETED) (drop (Z.to_nat j) (tasks s)) with
       | Some (k, next) =>
           (setTask (j + Z.of_nat k) (set_state AWAITING_UPDATE next)
              (set_currentIndex (j + Z.of_nat k) s), true)
       | None => (s, false)
       end, w).
Proof.
  induction remaining as [|n IH]; intros j s w Hj Hlen; simpl.
  - rewrite drop_ge by lia. done.
  - rewrite taskAt_lookup by done.
    destruct (tasks s !! Z.to_nat j) as [next|] eqn:Hnext.
    2: { apply lookup_ge_None in Hnext. lia. }
    rewrite (drop_S _ _ _ Hnext). simpl.
    destruct (decide (state next ≠ COMPLETED)) as [Hopen|Hdone].
    + simpl. by rewrite Z.add_0_r.
    + rewrite IH by lia.
      replace (Z.to_nat (j + 1)) with (S (Z.to_nat j)) by lia.
      destruct (list_find _ _) as [[k next']|]; simpl; [|done].
      by replace (j + 1 + Z.of_nat k) with (j + Z.of_nat (S k)) by lia.
Qed.

Lemma advance_spec (s : IAgentSession) (w : World) :
  inRange s → advance s w = (Return (advanceResult s), w).
Proof.
  intros [Hlo Hhi]. unfold advance, advanceResult.
  apply advanceLoop_spec; lia.
Qed.

Lemma advanceResult_tasks (s : IAgentSession) :
  length (tasks (advanceResult s).1) = length (tasks s)
  ∧ _id (advanceResult s).1 = _id s.
Proof.
  unfold advanceResult. destruct (list_find _ _) as [[k next]|]; simpl; [|done].
  by rewrite length_insert.
Qed.

Lemma advanceResult_inRange (s : IAgentSession) :
  inRange s → inRange (advanceResult s).1.
Proof.
  intros [Hlo Hhi]. unfold inRange. rewrite (proj1 (advanceResult_tasks s)).
  unfold advanceResult.
  destruct (list_find _ _) as [[k next]|] eqn:Hfind; simpl; [|done].
  apply list_find_Some in Hfind as (Hk%lookup_lt_Some & _).
  rewrite length_drop in Hk. lia.
Qed.
End advance_facts.

(** ** Every save writes a session whose index is in range *)

Section index_facts.
Import Agent Sessions.

Lemma inRange_savedIndexOk (s : IAgentSession) :
  inRange s → savedIndexOk (EvSave (_id s) (toDoc s)).
Proof. intros H _. unfold toDoc; simpl. by rewrite length_map. Qed.

Lemma inRange_setTask i t s : inRange s → inRange (setTask i t s).
Proof. unfold inRange, setTask; simpl. by rewrite length_insert. Qed.

Lemma external_indexOk {A} (mk : bool → Event) (o : Outcome A) :
  (∀ ok, savedIndexOk (mk ok)) → (∀ ok d sid, mk ok ≠ EvSave sid d) →
  traced savedIndexOk (λ _, True) (external mk o).
Proof. intros. by apply traced_external. Qed.

Lemma healIndex_traced (s : IAgentSession) :
  tasks s ≠ [] →
  traced savedIndexOk (λ s', inRange s' ∧ tasks s' = tasks s ∧ _id s' = _id s)
    (healIndex s).
Proof.
  intros Hne. unfold healIndex.
  assert (0 < Z.of_nat (length (tasks s))) by (destruct (tasks s); [done|simpl; lia]).
  destruct (_ || _)%bool eqn:E.
  - eapply traced_bind.
    + apply traced_save. apply inRange_savedIndexOk. unfold inRange; simpl. lia.
    + intros _ _. apply traced_ret. unfold inRange; simpl. split; [lia|done].
  - apply traced_ret. unfold inRange. split; [lia|done].
Qed.

Lemma transitionToDone_traced (P : Event → Prop) env task user :
  (∀ call ok, P (EvJira call ok)) →
  traced P (λ task1, task1 = task ∨ task1 = set_status "Done" task)
    (transitionToDone env task user).
Proof.
  intros HP. unfold transitionToDone.
  destruct (negb _); [|apply traced_ret; by left].
  eapply traced_bind; [by apply (traced_external _ _ (λ _, True))|].
  intros transitionId _.
  eapply traced_bind; [by apply (traced_external _ _ (λ _, True))|].
  intros _ _. apply traced_ret. by right.
Qed.

Lemma commit_traced (P : Event → Prop) env task updateType user :
  (∀ call ok, P (EvJira call ok)) →
  traced P (λ task1, task1 = task ∨ task1 = set_status "Done" task)
    (commit env task updateType user).
Proof.
  intros HP. unfold commit.
  destruct (String.eqb updateType "comment_only").
  { eapply traced_bind; [by apply (traced_external _ _ (λ _, True))|].
    intros _ _. apply traced_ret. by left. }
  destruct (String.eqb updateType "status_only");
    [by apply transitionToDone_traced|].
  destruct (String.eqb updateType "comment_and_status");
    [|apply traced_ret; by left].
  eapply traced_bind; [by apply (traced_external _ _ (λ _, True))|].
  intros _ _. by apply transitionToDone_traced.
Qed.

Lemma advance_traced (P : Event → Prop) (s : IAgentSession) :
  inRange s →
  traced P (λ r, r = advanceResult s) (advance s).
Proof.
  intros Hs w. exists []. rewrite (advance_spec s w Hs). simpl.
  rewrite app_nil_r. repeat split; [done|]. by intros ? [= <-].
Qed.

Lemma dispatch_traced env s task msg user :
  inRange s → traced savedIndexOk (λ _, True) (dispatch env s task msg user).
Proof.
  intros Hs. unfold dispatch. destruct (state task).
  - unfold onAwaitingUpdate.
    eapply traced_bind; [by apply external_indexOk|]. intros draftRaw _.
    eapply traced_bind; [|intros _ _; by apply traced_ret].
    apply traced_save, inRange_savedIndexOk, inRange_setTask, Hs.
  - unfold onAwaitingEditDecision. destruct (Text.isAffirmative msg);
      (eapply traced_bind; [|intros _ _; by apply traced_ret]);
      apply traced_save, inRange_savedIndexOk, inRange_setTask, Hs.
  - unfold onAwaitingEditInput.
    eapply traced_bind; [by apply external_indexOk|]. intros updatedRaw _.
    eapply traced_bind; [|intros _ _; by apply traced_ret].
    apply traced_save, inRange_savedIndexOk, inRange_setTask, Hs.
  - unfold onAwaitingConfirm. destruct (negb _); [by apply traced_ret|].
    eapply traced_bind; [by apply external_indexOk|]. intros updateType _.
    eapply traced_bind; [by apply commit_traced|]. intros task' _.
    eapply traced_bind; [apply advance_traced, inRange_setTask, Hs|].
    intros r ->.
    set (s1 := setTask _ _ s).
    assert (inRange (advanceResult s1).1) as Hr
      by apply advanceResult_inRange, inRange_setTask, Hs.
    destruct (advanceResult s1) as [s2 b]; simpl in *.
    eapply traced_bind; [apply traced_save, inRange_savedIndexOk, Hr|].
    intros _ _. destruct b; [|by apply traced_ret].
    destruct (taskAt _ _); [by apply traced_ret|apply traced_throw].
  - by apply traced_ret.
Qed.

Lemma handleMessage_traced env sid msg user :
  traced savedIndexOk (λ _, True) (handleMessage env sid msg user).
Proof.
  unfold handleMessage.
  eapply traced_bind; [apply traced_findById|]. intros [s|] _; [|apply traced_throw].
  destruct (decide _) as [E|Hne]; [by apply traced_ret|].
  eapply traced_bind.
  { apply healIndex_traced. by destruct (tasks s). }
  intros s' (Hr & _ & _).
  destruct (taskAt _ _); [by apply dispatch_traced|apply traced_throw].
Qed.

Lemma startSession_traced env user :
  traced savedIndexOk (λ _, True) (startSession env user).
Proof.
  unfold startSession.
  eapply traced_bind; [by apply external_indexOk|]. intros pending _.
  unfold create. destruct (failures _ _ _); [|apply traced_throw].
  eapply traced_bind; [|intros _ _; by apply traced_ret].
  apply traced_save. intros Hne. unfold toDoc in *; simpl in *.
  destruct pending; [done|]. simpl. lia.
Qed.
End index_facts.


(** ** The confirmation step, inverted *)

Section confirm_facts.
Import Agent Sessions.

Lemma external_run {A} (mk : bool → Event) (o : Outcome A) (w : World) :
  external mk o w = (o, logged w [mk (Js.returned o)]).
Proof. unfold external, emit, mbind, M_bind, mret, M_ret, throw. by destruct o. Qed.

Lemma logged_logged w evs1 evs2 :
  logged (logged w evs1) evs2 = logged w (evs1 ++ evs2).
Proof. unfold logged; simpl. by rewrite app_assoc. Qed.

Lemma committed_app_l evs1 evs2 : committed evs1 → committed (evs1 ++ evs2).
Proof. intros (c & H & Hm). exists c. split; [|done]. apply elem_of_app. by left. Qed.

Lemma committed_app_r evs1 evs2 : committed evs2 → committed (evs1 ++ evs2).
Proof. intros (c & H & Hm). exists c. split; [|done]. apply elem_of_app. by right. Qed.

(** [transitionToDone] returns only after a transition was posted, unless
    the cached status is already Done. *)
Lemma transitionToDone_inv env task user w :
  ∃ evs, (transitionToDone env task user w).2 = logged w evs
    ∧ ∀ task1, (transitionToDone env task user w).1 = Return task1 →
        (status task = "Done" ∧ task1 = task ∧ evs = [])
        ∨ (status task ≠ "Done" ∧ task1 = set_status "Done" task
           ∧ ∃ transitionId,
               evs = [EvJira (Jira.CGetTransitionId (taskId task) "Done") true;
                      EvJira (Jira.CUpdateTask (taskId task) (Jira.Status transitionId)) true]).
Proof.
  unfold transitionToDone.
  destruct (String.eqb (status task) "Done") eqn:E; simpl.
  - apply String.eqb_eq in E. exists []. unfold logged; rewrite app_nil_r.
    split; [by destruct w|]. intros ? [= <-]. by left.
  - apply String.eqb_neq in E.
    unfold getTransitionId, updateTask, mbind, M_bind. rewrite external_run.
    destruct (Jira.getTransitionId _ _ _ _) as [transitionId|e]; simpl.
    2: { eexists. split; [done|]. done. }
    rewrite external_run.
    destruct (Jira.updateTask _ _ _ _) as [[]|e]; simpl.
    2: { eexists. split; [by rewrite logged_logged|]. done. }
    eexists. split; [by rewrite logged_logged|].
    intros ? [= <-]. right. split; [done|]. split; [done|]. by exists transitionId.
Qed.

(** [commit] returns only after a mutation completed, unless the update
    is status-only and the cached status is already Done. *)
Lemma commit_inv env task updateType user w :
  ∃ evs, (commit env task updateType user w).2 = logged w evs
    ∧ ∀ task1, (commit env task updateType user w).1 = Return task1 →
        (task1 = task ∨ task1 = set_status "Done" task)
        ∧ (updateType ∈ Engine.updateTypes →
           committed evs ∨ (updateType = "status_only" ∧ status task = "Done")).
Proof.
  unfold commit.
  destruct (String.eqb updateType "comment_only") eqn:E1.
  { unfold addComment, mbind, M_bind. rewrite external_run.
    destruct (Jira.addComment _ _ _ _) as [[]|e]; simpl.
    2: { eexists. split; [done|]. done. }
    eexists. split; [done|]. intros ? [= <-]. split; [by left|].
    intros _. left. eexists. split; [by apply list_elem_of_singleton|done]. }
  destruct (String.eqb updateType "status_only") eqn:E2.
  { apply String.eqb_eq in E2.
    destruct (transitionToDone_inv env task user w) as (evs & Hw & Hr).
    exists evs. split; [done|]. intros task1 H1.
    destruct (Hr _ H1) as [(Hs & -> & ->)|(Hs & -> & tid & ->)].
    - split; [by left|]. intros _. by right.
    - split; [by right|]. intros _. left.
      exists (Jira.CUpdateTask (taskId task) (Jira.Status tid)).
      split; [set_solver|done]. }
  destruct (String.eqb updateType "comment_and_status") eqn:E3.
  { unfold addComment, mbind, M_bind. rewrite external_run.
    destruct (Jira.addComment _ _ _ _) as [[]|e]; simpl.
    2: { eexists. split; [done|]. done. }
    destruct (transitionToDone_inv env task user
                (logged w [EvJira (Jira.CAddComment (taskId task) (draftSummary task)) true]))
      as (evs & Hw & Hr).
    eexists. split; [by rewrite Hw, logged_logged|].
    intros task1 H1. split.
    - destruct (Hr _ H1) as [(_ & -> & _)|(_ & -> & _)]; [by left|by right].
    - intros _. left. apply committed_app_l.
      eexists. split; [by apply list_elem_of_singleton|done]. }
  exists []. unfold logged; rewrite app_nil_r. split; [by destruct w|].
  intros ? [= <-]. split; [by left|].
  apply String.eqb_neq in E1, E2, E3.
  intros Hu%in_updateTypes. by destruct Hu as [?|[?|?]].
Qed.

Lemma forceStatus_in_enum task u :
  u ∈ Engine.updateTypes → forceStatus task u ∈ Engine.updateTypes.
Proof.
  unfold forceStatus. destruct (_ && _)%bool; [|done].
  intros _. apply in_updateTypes. by right; right.
Qed.

(** A confirmed turn either changes no stored session, or it has
    committed and saved the finalized and advanced session. *)
Lemma onAwaitingConfirm_inv env s task msg user w :
  Text.isAffirmative msg = true → inRange s →
  let r := onAwaitingConfirm env s task msg user w in
  (store r.2 = store w ∧ (∃ evs, trace r.2 = trace w ++ evs) ∧ ∃ e, r.1 = Throw e)
  ∨ ∃ u task1 evs,
      Engine.analyzeUpdateType (engine env) (draftSummary task) user = Return u
      ∧ (task1 = task ∨ task1 = set_status "Done" task)
      ∧ (committed evs ∨ (forceStatus task u = "status_only" ∧ status task = "Done"))
      ∧ let s2 := advanceResult (setTask (currentIndex s) (finalized task1) s) in
        r.2 = saved (logged w (EvEngine (Engine.analyzeRequest (draftSummary task) user) true
                                :: evs)) s2.1
        ∧ r.1 = if s2.2
                then match taskAt (tasks s2.1) (currentIndex s2.1) with
                     | Some next => Return (nextTaskReply (title next), s2.1)
                     | None => Throw (TypeErr "Cannot read properties of undefined (reading 'state')")
                     end
                else Return (allDoneReply, s2.1).
Proof.
  intros Hmsg Hs. unfold onAwaitingConfirm. rewrite Hmsg. simpl.
  unfold analyzeUpdateType, mbind, M_bind. rewrite external_run.
  destruct (Engine.analyzeUpdateType _ _ _) as [u|e] eqn:Hu; simpl.
  2: { left. split; [done|]. split; [by eexists|by eexists]. }
  destruct (commit_inv env task (forceStatus task u) user
              (logged w [EvEngine (Engine.analyzeRequest (draftSummary task) user) true]))
    as (evs & Hw & Hr).
  destruct (commit env task (forceStatus task u) user _) as [[task1|e] w1] eqn:Hc;
    simpl in *; subst w1.
  2: { left. split; [done|]. split; [|by eexists].
       exists ([EvEngine (Engine.analyzeRequest (draftSummary task) user) true] ++ evs).
       by rewrite app_assoc. }
  destruct (Hr _ eq_refl) as [Htask Hcommit].
  right. exists u, task1, evs. split; [done|]. split; [done|].
  split. { apply Hcommit, forceStatus_in_enum. by eapply analyzeUpdateType_in_enum. }
  rewrite advance_spec by by apply inRange_setTask.
  unfold finalized. simpl.
  destruct (advanceResult _) as [s2 b]; simpl.
  unfold saved, logged; simpl. rewrite <- (app_assoc (trace w)). simpl.
  destruct b; simpl.
  - unfold undefinedTask, throw, mret, M_ret. by destruct (taskAt _ _).
  - done.
Qed.
End confirm_facts.

(** ** Which task the loop after a commit selects *)

Section next_facts.
Import Agent Sessions.

Lemma advanceResult_some (s : IAgentSession) (j : Z) (next : ITaskState) :
  0 ≤ currentIndex s → currentIndex s < j →
  tasks s !! Z.to_nat j = Some next → state next ≠ COMPLETED →
  (∀ k other, currentIndex s < k < j →
     tasks s !! Z.to_nat k = Some other → state other = COMPLETED) →
  advanceResult s
  = (setTask j (set_state AWAITING_UPDATE next) (set_currentIndex j s), true).
Proof.
  intros Hlo Hj Hnext Hopen Hbefore. unfold advanceResult.
  set (n := Z.to_nat (currentIndex s + 1)).
  destruct (list_find _ _) as [[k next']|] eqn:Hfind.
  - apply list_find_Some in Hfind as (Hk & Hopen' & Hmin).
    rewrite lookup_drop in Hk.
    destruct (Z.lt_trichotomy (currentIndex s + 1 + Z.of_nat k) j) as [Hlt|[Heq|Hgt]].
    + exfalso. apply Hopen'.
      apply (Hbefore (currentIndex s + 1 + Z.of_nat k)); [lia|].
      by replace (Z.to_nat (currentIndex s + 1 + Z.of_nat k)) with (n + k)%nat by lia.
    + replace (Z.to_nat j) with (n + k)%nat in Hnext by lia.
      rewrite Hnext in Hk. injection Hk as <-. by rewrite Heq.
    + exfalso. apply (Hmin (Z.to_nat j - n)%nat next); [|lia|done].
      rewrite lookup_drop. by replace (n + (Z.to_nat j - n))%nat with (Z.to_nat j) by lia.
  - exfalso. apply list_find_None in Hfind.
    rewrite Forall_forall in Hfind. apply (Hfind next); [|done].
    apply list_elem_of_lookup. exists (Z.to_nat j - n)%nat.
    rewrite lookup_drop. by replace (n + (Z.to_nat j - n))%nat with (Z.to_nat j) by lia.
Qed.

Lemma advanceResult_none (s : IAgentSession) :
  0 ≤ currentIndex s →
  (∀ k other, currentIndex s < k →
     tasks s !! Z.to_nat k = Some other → state other = COMPLETED) →
  advanceResult s = (s, false).
Proof.
  intros Hlo Hdone. unfold advanceResult.
  set (n := Z.to_nat (currentIndex s + 1)).
  destruct (list_find _ _) as [[k next']|] eqn:Hfind; [|done].
  apply list_find_Some in Hfind as (Hk & Hopen' & _).
  rewrite lookup_drop in Hk. exfalso. apply Hopen'.
  apply (Hdone (Z.of_nat (n + k))); [lia|]. by rewrite Nat2Z.id.
Qed.

(** The tasks of the loaded session beyond the finalized one are those
    of the stored session. *)
Lemma lookup_after_finalize sid (d : SessionDoc) (fin : ITaskState) (k : Z) :
  0 ≤ doc_currentIndex d → doc_currentIndex d < k →
  tasks (setTask (doc_currentIndex d) fin (ofDoc sid d)) !! Z.to_nat k
  = taskOfDoc <$> doc_tasks d !! Z.to_nat k.
Proof.
  intros Hlo Hk. unfold setTask, ofDoc; simpl.
  rewrite list_lookup_insert_ne by lia. apply list_lookup_fmap.
Qed.
End next_facts.

(** C6. When an affirmative message at AWAITING_CONFIRM is answered (the
    commit went through), the finalized session is stored, the task at the
    old index is COMPLETED, and: if [j] is the first index after it whose
    task is not COMPLETED, then [currentIndex] is [j], that task awaits an
    update and the reply names it; if every later task is COMPLETED,
    [currentIndex] is unchanged and the reply says that all tasks are
    done. *)
Theorem confirmed_commit_advances
    (env : Agent.Env) (st : gmap string Agent.SessionDoc) (sid msg user : string)
    (d : Agent.SessionDoc) (t : Agent.TaskDoc)
    (reply : string) (s' : Agent.IAgentSession) (w' : Agent.World) :
  st !! sid = Some d →
  Sessions.currentTask d = Some t →
  Agent.doc_state t = Agent.AWAITING_CONFIRM →
  Text.isAffirmative msg = true →
  Sessions.turn env st sid msg user = (Return (reply, s'), w') →
  Agent.store w' !! sid = Some (Agent.toDoc s')
  ∧ Agent.state <$> Agent.taskAt (Agent.tasks s') (Agent.doc_currentIndex d)
    = Some Agent.COMPLETED
  ∧ (∀ j next, Sessions.nextOpen d j next →
       Agent.currentIndex s' = j
       ∧ Agent.state <$> Agent.taskAt (Agent.tasks s') j = Some Agent.AWAITING_UPDATE
       ∧ reply = Agent.nextTaskReply (Agent.doc_title next))
  ∧ (Sessions.noneOpen d →
       Agent.currentIndex s' = Agent.doc_currentIndex d
       ∧ reply = Agent.allDoneReply).
Proof.
  intros Hd Ht Hst Hmsg Hturn.
  pose proof (currentTask_inv _ _ Ht) as Hidx.
  unfold Sessions.turn in Hturn.
  rewrite (handleMessage_in_range env (Agent.fresh st) sid d t msg user Hd Ht) in Hturn.
  unfold Agent.dispatch in Hturn. simpl in Hturn. rewrite Hst in Hturn.
  assert (Sessions.inRange (Agent.ofDoc sid d)) as Hr.
  { unfold Sessions.inRange. simpl. by rewrite length_map. }
  destruct (onAwaitingConfirm_inv env (Agent.ofDoc sid d) (Agent.taskOfDoc t)
              msg user (Agent.fresh st) Hmsg Hr)
    as [(_ & _ & e & He)|(u & task1 & evs & _ & _ & _ & Hw & Hout)];
    rewrite Hturn in *; simpl in *; [done|].
  set (i := Agent.doc_currentIndex d) in *.
  set (fin := Sessions.finalized task1) in *.
  set (s1 := Agent.setTask i fin (Agent.ofDoc sid d)) in *.
  assert (Agent.tasks s1 !! Z.to_nat i = Some fin) as Hfin.
  { unfold s1, Agent.setTask; simpl. apply list_lookup_insert_eq.
    rewrite length_map. lia. }
  assert (Agent._id (Sessions.advanceResult s1).1 = sid) as Hid
    by apply (proj2 (advanceResult_tasks s1)).
  assert (∀ j next, Sessions.nextOpen d j next →
            Sessions.advanceResult s1
            = (Agent.setTask j (Agent.set_state Agent.AWAITING_UPDATE (Agent.taskOfDoc next))
                 (Agent.set_currentIndex j s1), true)) as Hsome.
  { intros j next (Hj & Hnext & Hopen & Hbefore).
    apply advanceResult_some; [simpl; lia|done| |done|].
    - unfold s1, i. rewrite lookup_after_finalize by lia. by rewrite Hnext.
    - intros k other Hk. unfold s1, i.
      rewrite lookup_after_finalize by (simpl in Hk; lia).
      destruct (Agent.doc_tasks d !! Z.to_nat k) as [o|] eqn:Hko; [|done].
      intros [= <-]. simpl. by eapply Hbefore. }
  assert (Sessions.noneOpen d → Sessions.advanceResult s1 = (s1, false)) as Hnone.
  { intros Hall. apply advanceResult_none; [simpl; lia|].
    intros k other Hk. unfold s1, i.
    rewrite lookup_after_finalize by (simpl in Hk; lia).
    destruct (Agent.doc_tasks d !! Z.to_nat k) as [o|] eqn:Hko; [|done].
    intros [= <-]. simpl. by eapply Hall. }
  assert (s' = (Sessions.advanceResult s1).1) as Hs'.
  { destruct (Sessions.advanceResult s1) as [s2 []]; simpl in *.
    - destruct (Agent.taskAt _ _); [|done]. by injection Hout as _ ->.
    - by injection Hout as _ ->. }
  split; [|split; [|split]].
  - subst w'. simpl. rewrite Hs', Hid. apply lookup_insert_eq.
  - rewrite Hs'. rewrite taskAt_lookup by lia. unfold Sessions.advanceResult.
    unfold s1, Agent.setTask in Hfin. simpl in Hfin.
    destruct (list_find _ _) as [[k next]|] eqn:Hfind; simpl.
    + rewrite list_lookup_insert_ne by lia. by rewrite Hfin.
    + by rewrite Hfin.
  - intros j next Hopen. pose proof Hopen as (Hj & Hnext & _).
    rewrite (Hsome _ _ Hopen) in *. simpl in *. subst s'. simpl.
    split; [done|]. rewrite taskAt_lookup in * by lia.
    assert (Z.to_nat j < length (Agent.tasks s1))%nat as Hlen.
    { unfold s1, Agent.setTask; simpl. rewrite length_insert, length_map.
      by apply lookup_lt_Some in Hnext. }
    rewrite list_lookup_insert_eq in * by done. simpl. split; [done|].
    by injection Hout as ->.
  - intros Hall. rewrite (Hnone Hall) in *. simpl in *. subst s'.
    split; [done|]. by injection Hout as ->.
Qed.


(** ** The moves of the tasks in one request *)

Section move_facts.
Import Agent Sessions.

Lemma orElse_nonempty (a b : string) : b ≠ EmptyString → Js.orElse a b ≠ EmptyString.
Proof. unfold Js.orElse. by destruct a. Qed.

Lemma truthy_nonempty (a : string) : Js.truthy a = true → a ≠ EmptyString.
Proof. by destruct a. Qed.

Lemma currentTask_or_drift (d : SessionDoc) :
  (∃ t, currentTask d = Some t)
  ∨ doc_currentIndex d < 0
  ∨ Z.of_nat (length (doc_tasks d)) ≤ doc_currentIndex d.
Proof.
  unfold currentTask. destruct (doc_currentIndex d <? 0) eqn:E; [right; lia|].
  destruct (doc_tasks d !! _) as [t|] eqn:Ht; [left; by exists t|].
  apply lookup_ge_None in Ht. right. lia.
Qed.

Lemma moved_same (ts : list ITaskState) : Forall2 moved ts ts.
Proof. apply Forall_Forall2_diag, Forall_forall. intros t _. by left. Qed.

Lemma moved_setTask s i t t' :
  tasks s !! Z.to_nat i = Some t → taskStep t t' →
  Forall2 moved (tasks s) (tasks (setTask i t' s)).
Proof.
  intros Ht Hstep. unfold setTask; simpl.
  rewrite <- (list_insert_id _ _ _ Ht) at 1.
  apply Forall2_insert; [apply moved_same|by right].
Qed.

Lemma moved_finalize_advance s task task1 :
  0 ≤ currentIndex s →
  tasks s !! Z.to_nat (currentIndex s) = Some task →
  state task = AWAITING_CONFIRM →
  task1 = task ∨ task1 = set_status "Done" task →
  Forall2 moved (tasks s)
    (tasks (advanceResult (setTask (currentIndex s) (finalized task1) s)).1).
Proof.
  intros Hlo Ht Hst H1.
  assert (taskStep task (finalized task1)) as Hcommit by by constructor.
  unfold advanceResult.
  destruct (list_find _ _) as [[k next]|] eqn:Hfind; simpl;
    [|by apply (moved_setTask s _ task)].
  apply list_find_Some in Hfind as (Hk & Hopen & _).
  rewrite lookup_drop in Hk. simpl in Hk.
  rewrite list_lookup_insert_ne in Hk by lia.
  set (j := Z.to_nat (currentIndex s + 1 + Z.of_nat k)).
  replace (Z.to_nat (currentIndex s + 1) + k)%nat with j in Hk by lia.
  rewrite <- (list_insert_id _ _ _ Ht) at 1.
  rewrite <- (list_insert_id (<[_ := task]> (tasks s)) j next) at 1.
  2: { rewrite list_lookup_insert_ne by lia. done. }
  apply Forall2_insert; [|right; by constructor].
  apply Forall2_insert; [apply moved_same|by right].
Qed.

(** Every save of the state switch writes the session after at most one
    move of each task. *)
Lemma dispatch_moves env s task msg user :
  inRange s →
  taskAt (tasks s) (currentIndex s) = Some task →
  traced (savedMoved s) (λ _, True) (dispatch env s task msg user).
Proof.
  intros Hr Hat. pose proof Hr as [Hlo _].
  rewrite taskAt_lookup in Hat by done.
  assert (∀ t', taskStep task t' →
            savedMoved s (EvSave (_id (setTask (currentIndex s) t' s))
                            (toDoc (setTask (currentIndex s) t' s)))) as Hsave.
  { intros t' Hstep. eexists. split; [done|]. by eapply moved_setTask. }
  unfold dispatch. destruct (state task) eqn:Est.
  - unfold onAwaitingUpdate.
    eapply traced_bind; [by apply (traced_external _ _ (λ _, True))|].
    intros draftRaw _.
    eapply traced_bind; [|intros _ _; by apply traced_ret].
    apply traced_save.
    apply (Hsave _ (step_draft task _ (Text.saidDone msg) Est
                      (orElse_nonempty _ "Update noted." ltac:(done)))).
  - unfold onAwaitingEditDecision. destruct (Text.isAffirmative msg);
      (eapply traced_bind; [|intros _ _; by apply traced_ret]);
      apply traced_save, Hsave; by constructor.
  - unfold onAwaitingEditInput.
    eapply traced_bind; [by apply (traced_external _ _ (λ _, True))|].
    intros updatedRaw _.
    eapply traced_bind; [|intros _ _; by apply traced_ret].
    apply traced_save, Hsave. constructor; [done|].
    unfold orFallback. destruct (Js.truthy _) eqn:Etr; [right|by left].
    eexists. split; [done|]. by apply truthy_nonempty.
  - unfold onAwaitingConfirm. destruct (negb _); [by apply traced_ret|].
    eapply traced_bind; [by apply (traced_external _ _ (λ _, True))|].
    intros updateType _.
    eapply traced_bind; [by apply commit_traced|]. intros task1 Htask1.
    eapply traced_bind; [by apply advance_traced, inRange_setTask|].
    intros r ->.
    pose proof (moved_finalize_advance s task task1 Hlo Hat Est Htask1) as Hmoved.
    unfold finalized in Hmoved.
    destruct (advanceResult _) as [s2 b]; simpl in *.
    eapply traced_bind; [apply traced_save; by exists s2|].
    intros _ _. destruct b; [|by apply traced_ret].
    destruct (taskAt (tasks s2) _); [by apply traced_ret|apply traced_throw].
  - by apply traced_ret.
Qed.
End move_facts.

(** ** Properties of tasks that every reachable store has *)

Section request_moves.
Import Agent Sessions.

Lemma handleMessage_moves env sid msg user w :
  ∃ evs, trace (handleMessage env sid msg user w).2 = trace w ++ evs
         ∧ store (handleMessage env sid msg user w).2 = replay evs (store w)
         ∧ Forall (savedFrom (store w)) evs.
Proof.
  destruct (store w !! sid) as [d|] eqn:Hd.
  2: { rewrite handleMessage_missing by done. exists []. simpl.
       by rewrite app_nil_r. }
  destruct (doc_tasks d) as [|t0 rest] eqn:Hts.
  { rewrite (handleMessage_empty _ _ _ d) by done. exists []. simpl.
    by rewrite app_nil_r. }
  assert (∀ s evs, tasks s = tasks (ofDoc sid d) →
            Forall (savedMoved s) evs → Forall (savedFrom (store w)) evs) as Hfrom.
  { intros s evs Hs Hevs. eapply Forall_impl; [exact Hevs|].
    intros [| |sid' d'] Hev; try done.
    destruct Hev as (s' & -> & Hm). exists sid, d, s'. by rewrite <- Hs. }
  destruct (currentTask_or_drift d) as [[t Ht]|Hdrift].
  - rewrite (handleMessage_in_range _ _ _ d t) by done.
    destruct (dispatch_moves env (ofDoc sid d) (taskOfDoc t) msg user) with (w := w)
      as (evs & ? & ? & ? & _).
    + pose proof (currentTask_inv _ _ Ht). unfold inRange; simpl.
      by rewrite length_map.
    + rewrite taskAt_ofDoc, Ht. done.
    + exists evs. eauto.
  - rewrite (handleMessage_drift env w sid d t0 rest msg user Hd Hts Hdrift).
    set (w1 := mkWorld _ _).
    destruct (dispatch_moves env (ofDoc sid (healed d)) (taskOfDoc t0) msg user)
      with (w := w1) as (evs & Ht' & Hs' & HP & _).
    + unfold inRange, healed; simpl. rewrite Hts. simpl. lia.
    + unfold taskAt, healed; simpl. by rewrite Hts.
    + exists (EvSave sid (healed d) :: evs). rewrite Ht', Hs'. simpl.
      rewrite <- app_assoc. split; [done|]. split; [done|].
      constructor; [|by eapply Hfrom].
      exists sid, d, (ofDoc sid (healed d)). split; [done|].
      split; [by rewrite toDoc_ofDoc|]. apply moved_same.
Qed.

Lemma getPendingTasks_not_done api user pending :
  answersFilter api →
  Jira.getPendingTasks api user = Return pending →
  Forall (λ p, Jira.status p ≠ "Done") pending.
Proof.
  intros Hapi. unfold Jira.getPendingTasks.
  destruct (Jira.integration api user) as [account|]; [|done].
  destruct (Jira.cloudResource api user) as [cloud|]; [|done].
  destruct (Jira.search api cloud _) as [issues|] eqn:Hsearch; [|done].
  intros [= <-]. apply Forall_fmap. eapply Forall_impl; [by eapply Hapi|].
  intros issue Hne. simpl in Hne. unfold Jira.toPending; simpl.
  destruct (Jira.statusName issue) as [[|c n]|]; simpl; [done| |done].
  intros E. apply Hne. unfold Js.orElse in E. simpl in E. by rewrite E.
Qed.

Section invariant.
Context (site : Jira.Api → Prop) (I : ITaskState → Prop).
Hypothesis I_step : ∀ t t', taskStep t t' → I t → I t'.
Hypothesis I_stored : ∀ t, I t → I (taskOfDoc (taskToDoc t)).
Hypothesis I_new : ∀ env user pending,
  site (jira env) → Jira.getPendingTasks (jira env) user = Return pending →
  Forall (λ p, I (newTask env p)) pending.

Lemma everyTask_saved st ev :
  everyTask I st → savedFrom st ev →
  match ev with
  | EvSave _ d => Forall (λ t, I (taskOfDoc t)) (doc_tasks d)
  | _ => True
  end.
Proof.
  intros Hst. destruct ev as [| |sid' d']; try done.
  intros (sid & d & s' & Hd & -> & Hm).
  unfold toDoc; simpl. apply Forall_fmap.
  assert (Forall I (tasks s')) as Hs'.
  { eapply Forall2_Forall_r; [exact Hm|].
    simpl. apply Forall_fmap. eapply Forall_impl; [exact (Hst _ _ Hd)|].
    intros t Ht t' [->|Hstep]; [done|]. by eapply I_step. }
  eapply Forall_impl; [exact Hs'|]. intros t Ht. apply I_stored, Ht.
Qed.

Lemma everyTask_replay evs st :
  everyTask I st → Forall (savedFrom st) evs → everyTask I (replay evs st).
Proof.
  intros Hst Hevs sid d [H|H]%replay_lookup; [by eapply Hst|].
  rewrite Forall_forall in Hevs.
  apply (everyTask_saved st _ Hst (Hevs _ H)).
Qed.

Lemma startSession_everyTask env user st :
  site (jira env) → everyTask I st →
  everyTask I (store (startSession env user (fresh st)).2).
Proof.
  intros Hsite Hst. unfold startSession, getPendingTasks, mbind, M_bind.
  rewrite external_run.
  destruct (Jira.getPendingTasks _ _) as [pending|e] eqn:Hp; simpl; [|done].
  unfold create. destruct (failures _ _ _); simpl; [|done].
  intros sid d. destruct (decide (objectId env = sid)) as [<-|Hne].
  - rewrite lookup_insert_eq. intros [= <-]. simpl.
    rewrite map_map. apply Forall_fmap.
    eapply Forall_impl; [by eapply I_new|]. intros p Hp'. simpl.
    by apply (I_stored (newTask env p)).
  - rewrite lookup_insert_ne by done. apply Hst.
Qed.

Lemma reachable_everyTask st : reachable site st → everyTask I st.
Proof.
  induction 1 as [|env user st _ IH Hsite|env sid msg user st _ IH].
  - intros sid d H. by rewrite lookup_empty in H.
  - by apply startSession_everyTask.
  - destruct (handleMessage_moves env sid msg user (fresh st)) as (evs & _ & -> & HP).
    by apply everyTask_replay.
Qed.
End invariant.

(** A proposed draft is never empty, whatever the Jira site returns. *)
Lemma reachable_draftOk site st : reachable site st → everyTask draftOk st.
Proof.
  apply (reachable_everyTask site draftOk).
  - intros t t' Hstep Ht. destruct Hstep; unfold draftOk in *; simpl in *.
    + intros _. exists draft. split; [by destruct saidDone|done].
    + by rewrite H in Ht; intros _; apply Ht; left.
    + by rewrite H in Ht; intros _; apply Ht; left.
    + intros _. rewrite H in Ht. destruct H0 as [->|(text & -> & ?)].
      * apply Ht. by right; left.
      * by exists text.
    + by intros [?|[?|?]].
    + by intros [?|[?|?]].
  - by intros [].
  - intros api user pending _ _. apply Forall_forall. intros p _.
    unfold draftOk; simpl. by intros [?|[?|?]].
Qed.

(** Against a site that answers the filter, a task whose cached status
    is Done is COMPLETED. *)
Lemma reachable_statusOk st : reachable answersFilter st → everyTask statusOk st.
Proof.
  apply (reachable_everyTask answersFilter statusOk).
  - intros t t' Hstep Ht.
    assert (state t ≠ COMPLETED → status t ≠ "Done") as Hopen
      by (intros Hne E; by apply Hne, Ht).
    destruct Hstep; unfold statusOk; simpl; try done;
      try (intros E; exfalso; apply Hopen; [by rewrite H|];
           by try destruct saidDone).
    intros E. exfalso. by apply Hopen.
  - by intros [].
  - intros api user pending Hsite Hp.
    eapply Forall_impl; [by eapply getPendingTasks_not_done|].
    intros p Hne. unfold statusOk; simpl. done.
Qed.
End request_moves.


(** ** A task is completed only by a commit *)

Section completion_facts.
Import Agent Sessions.

(** A request on a stored session with tasks runs the state switch on a
    session with the same tasks and an index in range. *)
Lemma handleMessage_as_dispatch env st sid d msg user :
  st !! sid = Some d → doc_tasks d ≠ [] →
  ∃ d0 t0 evs0,
    doc_tasks d0 = doc_tasks d
    ∧ currentTask d0 = Some t0
    ∧ handleMessage env sid msg user (fresh st)
      = dispatch env (ofDoc sid d0) (taskOfDoc t0) msg user
          (mkWorld (<[sid := d0]> st) evs0).
Proof.
  intros Hd Hne.
  destruct (currentTask_or_drift d) as [[t Ht]|Hdrift].
  - exists d, t, []. split; [done|]. split; [done|].
    rewrite (handleMessage_in_range env (fresh st) sid d t) by done.
    by rewrite insert_id.
  - destruct (doc_tasks d) as [|t0 rest] eqn:Hts; [done|].
    exists (healed d), t0, [EvSave sid (healed d)].
    split; [by rewrite <- Hts|].
    split; [unfold currentTask, healed; simpl; by rewrite Hts|].
    rewrite (handleMessage_drift env (fresh st) sid d t0 rest) by (rewrite ?Hts; done).
    done.
Qed.

Lemma open_setTask s idx x i t' :
  tasks (setTask idx x s) !! i = Some t' →
  state t' = COMPLETED → state x ≠ COMPLETED →
  tasks s !! i = Some t'.
Proof.
  unfold setTask; simpl. intros Hl Hc Hx.
  apply list_lookup_insert_Some in Hl as [(_ & <- & _)|(_ & Hl)]; done.
Qed.

(** A confirmation with a cached status Done and an update classified
    [status_only] calls Jira not at all. *)
Lemma onAwaitingConfirm_cached_done env s task msg user w u :
  Text.isAffirmative msg = true → inRange s →
  Engine.analyzeUpdateType (engine env) (draftSummary task) user = Return u →
  forceStatus task u = "status_only" → status task = "Done" →
  jiraCalls (trace (onAwaitingConfirm env s task msg user w).2) = jiraCalls (trace w).
Proof.
  intros Hmsg Hs Hu Hforce Hdone.
  unfold onAwaitingConfirm. rewrite Hmsg. simpl.
  unfold analyzeUpdateType. unfold mbind at 1. unfold M_bind at 1.
  rewrite external_run, Hu. simpl. rewrite Hforce.
  unfold mbind at 1. unfold M_bind at 1.
  unfold commit, transitionToDone. simpl. rewrite Hdone. simpl.
  unfold mbind, M_bind. rewrite advance_spec by by apply inRange_setTask.
  destruct (advanceResult _) as [s2 b]. simpl.
  destruct b; [destruct (taskAt (tasks s2) _)|]; simpl;
    unfold jiraCalls; rewrite !omap_app; simpl; by rewrite !app_nil_r.
Qed.

(** The state switch stores a newly COMPLETED task only after a commit,
    or for the current task when its cached status is Done and the update
    is classified [status_only]: then Jira is not called. *)
Lemma dispatch_completed env s task msg user w :
  inRange s →
  taskAt (tasks s) (currentIndex s) = Some task →
  let r := dispatch env s task msg user w in
  ∃ evs, trace r.2 = trace w ++ evs
    ∧ (store r.2 = store w
       ∨ ∃ s', store r.2 = <[_id s := toDoc s']> (store w)
           ∧ ∀ i t', tasks s' !! i = Some t' → state t' = COMPLETED →
               tasks s !! i = Some t' ∨ committed evs
               ∨ (i = Z.to_nat (currentIndex s)
                  ∧ state task = AWAITING_CONFIRM ∧ status task = "Done"
                  ∧ (∃ u, Engine.analyzeUpdateType (engine env) (draftSummary task) user
                          = Return u ∧ forceStatus task u = "status_only")
                  ∧ jiraCalls evs = [])).
Proof.
  intros Hr Hat. simpl.
  assert (∀ x evs, state x ≠ COMPLETED →
            ∃ s', <[_id s := toDoc (setTask (currentIndex s) x s)]> (store w)
                  = <[_id s := toDoc s']> (store w)
              ∧ ∀ i t', tasks s' !! i = Some t' → state t' = COMPLETED →
                  tasks s !! i = Some t' ∨ committed evs
                  ∨ (i = Z.to_nat (currentIndex s)
                     ∧ state task = AWAITING_CONFIRM ∧ status task = "Done"
                     ∧ (∃ u, Engine.analyzeUpdateType (engine env) (draftSummary task) user
                             = Return u ∧ forceStatus task u = "status_only")
                     ∧ jiraCalls evs = [])) as Hopen.
  { intros x evs Hx. eexists. split; [done|].
    intros i t' Hl Hc. left. by eapply open_setTask. }
  unfold dispatch. destruct (state task) eqn:Est.
  - unfold onAwaitingUpdate, generateSummary, mbind, M_bind.
    rewrite external_run.
    destruct (Engine.generateSummary _ _ _ _) as [raw|e]; simpl.
    + eexists. split; [by rewrite <- app_assoc|]. right. by apply Hopen.
    + eexists. split; [done|]. by left.
  - unfold onAwaitingEditDecision. destruct (Text.isAffirmative msg); simpl;
      (eexists; split; [done|]; right; by apply Hopen).
  - unfold onAwaitingEditInput, applyEdits, mbind, M_bind.
    rewrite external_run.
    destruct (Engine.applyEdits _ _ _ _) as [raw|e]; simpl.
    + eexists. split; [by rewrite <- app_assoc|]. right. by apply Hopen.
    + eexists. split; [done|]. by left.
  - destruct (Text.isAffirmative msg) eqn:Hmsg.
    2: { unfold onAwaitingConfirm. rewrite Hmsg. simpl.
         exists []. rewrite app_nil_r. split; [done|]. by left. }
    destruct (onAwaitingConfirm_inv env s task msg user w Hmsg Hr)
      as [(Hst & (evs & Htr) & _)|(u & task1 & evs & Hu & _ & Hcommit & Hw & _)].
    { exists evs. split; [done|]. by left. }
    pose proof (onAwaitingConfirm_cached_done env s task msg user w u Hmsg Hr Hu)
      as Hquiet.
    rewrite Hw in *. simpl in *.
    set (tail := (EvEngine (Engine.analyzeRequest (draftSummary task) user) true :: evs)
            ++ [EvSave (_id (advanceResult (setTask (currentIndex s) (finalized task1) s)).1)
                  (toDoc (advanceResult (setTask (currentIndex s) (finalized task1) s)).1)]).
    exists tail.
    assert ((trace w ++ EvEngine (Engine.analyzeRequest (draftSummary task) user) true
               :: evs)
            ++ [EvSave (_id (advanceResult (setTask (currentIndex s) (finalized task1) s)).1)
                  (toDoc (advanceResult (setTask (currentIndex s) (finalized task1) s)).1)]
            = trace w ++ tail) as Htail.
    { unfold tail. by rewrite app_assoc. }
    split; [done|]. right.
    exists (advanceResult (setTask (currentIndex s) (finalized task1) s)).1.
    split; [by rewrite (proj2 (advanceResult_tasks _))|].
    intros i t' Hl Hc.
    assert (tasks (setTask (currentIndex s) (finalized task1) s) !! i = Some t') as Hl1.
    { unfold advanceResult in Hl.
      destruct (list_find _ _) as [[k next]|]; simpl in Hl; [|done].
      apply list_lookup_insert_Some in Hl as [(_ & <- & _)|(_ & Hl)]; done. }
    unfold setTask in Hl1; simpl in Hl1.
    apply list_lookup_insert_Some in Hl1 as [(Hi & _ & _)|(_ & Hl1)]; [|by left].
    right. destruct Hcommit as [Hcommit|[Hforce Hdone]].
    + left. unfold tail. apply committed_app_l.
      destruct Hcommit as (c & Hc' & Hm). exists c. split; [|done].
      by apply list_elem_of_further.
    + right. split; [done|]. split; [done|]. split; [done|].
      split; [by exists u|].
      specialize (Hquiet Hforce Hdone). rewrite Htail in Hquiet.
      unfold jiraCalls in *. rewrite omap_app in Hquiet.
      rewrite <- (app_nil_r (omap _ (trace w))) in Hquiet at 2.
      by apply app_inv_head in Hquiet.
  - exists []. rewrite app_nil_r. split; [done|]. by left.
Qed.
End completion_facts.

(** C2 (as stated) fails.  From the empty collection, against a Jira
    site whose search returns an issue that is already Done: the session
    is started, the user reports and declines to edit, and the task awaits
    confirmation with the cached status Done.  The confirming turn, with
    an update classified [status_only], stores the task as COMPLETED and
    calls Jira not at all. *)
Lemma completed_without_commit :
  Sessions.reachable Sessions.anySite (Agent.store Samples.closedDeclined)
  ∧ Agent.doc_state
      <$> (Agent.store Samples.closedDeclined !! "s1" ≫= λ d, Agent.doc_tasks d !! 0%nat)
    = Some Agent.AWAITING_CONFIRM
  ∧ Agent.doc_state
      <$> (Agent.store (Sessions.turn Samples.closedEnv
                          (Agent.store Samples.closedDeclined) "s1" "yes" "u1").2
             !! "s1" ≫= λ d, Agent.doc_tasks d !! 0%nat)
    = Some Agent.COMPLETED
  ∧ Sessions.jiraCalls
      (Agent.trace (Sessions.turn Samples.closedEnv
                      (Agent.store Samples.closedDeclined) "s1" "yes" "u1").2)
    = [].
Proof.
  split; [|repeat split; vm_compute; reflexivity].
  apply (Sessions.reach_message Sessions.anySite Samples.closedEnv "s1" "no changes" "u1").
  apply (Sessions.reach_message Sessions.anySite Samples.closedEnv "s1"
           "archived them" "u1").
  apply (Sessions.reach_start Sessions.anySite Samples.closedEnv "u1" ∅);
    [constructor|done].
Qed.

(** C2 (amended).  A task that is COMPLETED in the store after a
    [handleMessage] turn was COMPLETED in the store before the turn, or a
    ticket mutation (addComment, or a status transition through
    updateTask) completed without error in that turn, or it was the
    current task of the addressed session, awaiting confirmation with the
    cached status Done, and the update was classified [status_only]: the
    code then skips the transition, and the turn calls Jira not at all.
    The last case needs a task that is open while its cached status is
    Done; in a store the service produced against a Jira site whose
    search answers the filter on In Progress there is none, and the task
    was COMPLETED before or a mutation completed. *)
Theorem completed_only_after_commit
    (env : Agent.Env) (st : gmap string Agent.SessionDoc) (sid msg user : string)
    (sid' : string) (d' : Agent.SessionDoc) (i : nat) (t' : Agent.TaskDoc) :
  Agent.store (Sessions.turn env st sid msg user).2 !! sid' = Some d' →
  Agent.doc_tasks d' !! i = Some t' →
  Agent.doc_state t' = Agent.COMPLETED →
  ((∃ d t, st !! sid' = Some d ∧ Agent.doc_tasks d !! i = Some t
           ∧ Agent.doc_state t = Agent.COMPLETED)
   ∨ Sessions.committed (Agent.trace (Sessions.turn env st sid msg user).2)
   ∨ (sid' = sid
      ∧ ∃ d t, st !! sid = Some d ∧ Agent.doc_tasks d !! i = Some t
          ∧ Agent.doc_state t = Agent.AWAITING_CONFIRM
          ∧ Agent.doc_status t = "Done"
          ∧ Engine.analyzeUpdateType (Agent.engine env) (Agent.doc_draftSummary t) user
            = Return "status_only"
          ∧ Sessions.jiraCalls (Agent.trace (Sessions.turn env st sid msg user).2)
            = []))
  ∧ (Sessions.reachable Sessions.answersFilter st →
     (∃ d t, st !! sid' = Some d ∧ Agent.doc_tasks d !! i = Some t
             ∧ Agent.doc_state t = Agent.COMPLETED)
     ∨ Sessions.committed (Agent.trace (Sessions.turn env st sid msg user).2)).
Proof.
  intros Hd' Ht' Hc.
  assert ((∃ d t, st !! sid' = Some d ∧ Agent.doc_tasks d !! i = Some t
                  ∧ Agent.doc_state t = Agent.COMPLETED)
          ∨ Sessions.committed (Agent.trace (Sessions.turn env st sid msg user).2)
          ∨ (sid' = sid
             ∧ ∃ d t, st !! sid = Some d ∧ Agent.doc_tasks d !! i = Some t
                 ∧ Agent.doc_state t = Agent.AWAITING_CONFIRM
                 ∧ Agent.doc_status t = "Done"
                 ∧ Engine.analyzeUpdateType (Agent.engine env)
                     (Agent.doc_draftSummary t) user = Return "status_only"
                 ∧ Sessions.jiraCalls
                     (Agent.trace (Sessions.turn env st sid msg user).2) = []))
    as Hcases.
  { unfold Sessions.turn in *.
    assert (∀ d0, Agent.doc_tasks d0 = Agent.doc_tasks d' →
              st !! sid' = Some d0 →
              ∃ d t, st !! sid' = Some d ∧ Agent.doc_tasks d !! i = Some t
                     ∧ Agent.doc_state t = Agent.COMPLETED) as Hold.
    { intros d0 E H0. exists d0, t'. by rewrite E. }
    destruct (st !! sid) as [d|] eqn:Hd.
    2: { rewrite handleMessage_missing in Hd' by done. left. by apply (Hold d'). }
    destruct (Agent.doc_tasks d) as [|t00 rest] eqn:Hts0.
    { rewrite (handleMessage_empty _ _ _ d) in Hd' by done. left. by apply (Hold d'). }
    assert (∃ d0 t0 w0,
              Agent.doc_tasks d0 = Agent.doc_tasks d
              ∧ Sessions.currentTask d0 = Some t0
              ∧ Agent.handleMessage env sid msg user (Agent.fresh st)
                = Agent.dispatch env (Agent.ofDoc sid d0) (Agent.taskOfDoc t0) msg user w0
              ∧ Agent.store w0 = <[sid := d0]> st
              ∧ Sessions.jiraCalls (Agent.trace w0) = [])
      as (d0 & t0 & w0 & Hts & Ht0 & Heq & Hw0 & Hquiet0).
    { destruct (currentTask_or_drift d) as [[t Ht]|Hdrift].
      - exists d, t, (Agent.fresh st). split; [done|]. split; [done|].
        split; [by apply handleMessage_in_range|]. split; [|done].
        simpl. by rewrite insert_id.
      - eexists (Sessions.healed d), t00, _. split; [done|]. split.
        { unfold Sessions.currentTask, Sessions.healed; simpl. by rewrite Hts0. }
        split; [by eapply handleMessage_drift|]. done. }
    rewrite Heq in *. clear Heq.
    destruct (dispatch_completed env (Agent.ofDoc sid d0) (Agent.taskOfDoc t0) msg user w0)
      as (evs & Htr & Hst).
    { pose proof (currentTask_inv _ _ Ht0). unfold Sessions.inRange; simpl.
      by rewrite length_map. }
    { by rewrite taskAt_ofDoc, Ht0. }
    simpl in Htr, Hst. rewrite Hw0 in Hst.
    assert (∀ dx, <[sid := d0]> st !! sid' = Some dx →
              Agent.doc_tasks dx !! i = Some t' →
              ∃ d t, st !! sid' = Some d ∧ Agent.doc_tasks d !! i = Some t
                     ∧ Agent.doc_state t = Agent.COMPLETED) as Hold0.
    { intros dx Hdx Htx. destruct (decide (sid = sid')) as [<-|Hsid].
      - rewrite lookup_insert_eq in Hdx. injection Hdx as <-.
        exists d, t'. by rewrite <- Hts.
      - rewrite lookup_insert_ne in Hdx by done. by exists dx, t'. }
    destruct Hst as [Hst|(s' & Hst & Hnew)]; rewrite Hst in Hd'.
    { left. by apply (Hold0 d'). }
    simpl in Hd'. destruct (decide (sid = sid')) as [<-|Hsid].
    2: { rewrite !lookup_insert_ne in Hd' by done. left. apply (Hold0 d'); [|done].
         by rewrite lookup_insert_ne. }
    rewrite lookup_insert_eq in Hd'. injection Hd' as <-.
    unfold Agent.toDoc in Ht'; simpl in Ht'.
    change (map Agent.taskToDoc ?l) with (Agent.taskToDoc <$> l) in Ht'.
    rewrite list_lookup_fmap in Ht'.
    destruct (Agent.tasks s' !! i) as [tm|] eqn:Htm; [|done].
    simpl in Ht'. injection Ht' as <-. simpl in Hc.
    destruct (Hnew i tm Htm Hc) as [Hwas|[Hcommit|Hcached]].
    - left. simpl in Hwas.
      change (map Agent.taskOfDoc ?l) with (Agent.taskOfDoc <$> l) in Hwas.
      rewrite list_lookup_fmap in Hwas.
      destruct (Agent.doc_tasks d0 !! i) as [tdoc|] eqn:Hdoc0; [|done].
      simpl in Hwas. injection Hwas as <-.
      exists d, tdoc. rewrite <- Hts. by split.
    - right. left. rewrite Htr.
      destruct Hcommit as (c & Hin & Hm). exists c. split; [|done].
      apply elem_of_app. by right.
    - right. right. split; [done|].
      destruct Hcached as (-> & Hstate & Hdone & (u & Hu & Hforce) & Hquiet).
      simpl in *. exists d, t0. split; [done|]. split.
      { rewrite <- Hts. unfold Sessions.currentTask in Ht0.
        by destruct (_ <? 0). }
      split; [done|]. split; [done|]. split.
      { change (Agent.forceStatus (Agent.taskOfDoc t0) u) with u in Hforce.
        by rewrite <- Hforce. }
      rewrite Htr. unfold Sessions.jiraCalls in *.
      by rewrite omap_app, Hquiet0, Hquiet. }
  split; [done|]. intros Hreach.
  destruct Hcases as [?|[?|(-> & d & t & Hd & Ht & Hstate & Hdone & _)]];
    [by left|by right|].
  pose proof (reachable_statusOk _ Hreach _ _ Hd) as Hdoc.
  rewrite Forall_forall in Hdoc.
  specialize (Hdoc t (list_elem_of_lookup_2 _ _ _ Ht) Hdone). simpl in Hdoc.
  congruence.
Qed.

(** ** The completion flag does not survive a turn *)

(** The override itself upgrades a comment when the flag is set on the
    task object. *)
Lemma forceStatus_upgrades (task : Agent.ITaskState) :
  Agent.pendingStatusDone task = Some true →
  Agent.forceStatus task "comment_only" = "comment_and_status".
Proof. intros H. unfold Agent.forceStatus. by rewrite H. Qed.

(** A task loaded from the store never carries the flag, so the update
    type the engine returned is what is committed. *)
Lemma forceStatus_after_reload (t : Agent.TaskDoc) (updateType : string) :
  Agent.forceStatus (Agent.taskOfDoc t) updateType = updateType.
Proof. reflexivity. Qed.

(** So on every stored session whose current task awaits confirmation, an
    affirmative message with an engine that answers comment_only makes one
    call to Jira, the comment: whatever the user said in earlier turns, no
    transition is looked up or applied. *)
Lemma confirm_after_reload_comments_only
    (env : Agent.Env) (st : gmap string Agent.SessionDoc) (sid msg user : string)
    (d : Agent.SessionDoc) (t : Agent.TaskDoc) :
  st !! sid = Some d →
  Sessions.currentTask d = Some t →
  Agent.doc_state t = Agent.AWAITING_CONFIRM →
  Text.isAffirmative msg = true →
  Engine.analyzeUpdateType (Agent.engine env) (Agent.doc_draftSummary t) user
    = Return "comment_only" →
  ∃ ok, Sessions.jiraCalls (Agent.trace (Sessions.turn env st sid msg user).2)
        = [(Jira.CAddComment (Agent.doc_taskId t) (Agent.doc_draftSummary t), ok)].
Proof.
  intros Hd Ht Hst Hmsg Hu.
  pose proof (currentTask_inv _ _ Ht) as Hidx.
  unfold Sessions.turn.
  rewrite (handleMessage_in_range env (Agent.fresh st) sid d t msg user Hd Ht).
  unfold Agent.dispatch. simpl. rewrite Hst.
  unfold Agent.onAwaitingConfirm. rewrite Hmsg. simpl.
  unfold Agent.analyzeUpdateType, mbind, Agent.M_bind. rewrite external_run.
  simpl. rewrite Hu. simpl.
  unfold Agent.commit, Agent.addComment, mbind, Agent.M_bind. simpl.
  rewrite external_run.
  destruct (Jira.addComment _ _ _ _) as [[]|e]; simpl; [|by exists false].
  rewrite advance_spec.
  2: { unfold Sessions.inRange, Agent.setTask; simpl.
       rewrite length_insert, length_map. lia. }
  destruct (Sessions.advanceResult _) as [s2 []]; simpl.
  - destruct (Agent.taskAt (Agent.tasks s2) _); simpl; by exists true.
  - by exists true.
Qed.

(** C1: the scenario of the requirements, run on the code.  The user says
    "completed, added tracking", which sets [pendingStatusDone] on the task
    object of that turn; the next turn ("no changes") and the confirming
    turn ("yes") load the session from the store, where the flag is not
    a path of the schema.  The engine answers comment_only, and the
    confirming turn adds the comment and nothing else: no transition is
    looked up or applied, the cached status stays In Progress, and the
    task is COMPLETED. *)
Theorem pending_status_done_lost_on_reload :
  Fixtures.flags Fixtures.reported.1 = [Some true]
  ∧ Fixtures.flags Fixtures.declined.1 = [None]
  ∧ Sessions.jiraCalls (Agent.trace Fixtures.confirmed.2)
    = [(Jira.CAddComment "KT-1" (Some "Added tracking events."), true)]
  ∧ Agent.doc_tasks <$> (Agent.store Fixtures.confirmed.2 !! "s1")
    = Some [Agent.mkTaskDoc "KT-1" "Add Analytics events" "In Progress" None None
              (Some "Added tracking events.") (Some "Added tracking events.")
              Agent.COMPLETED].
Proof. repeat split; vm_compute; reflexivity. Qed.

(** ** The retry loop of [AIService.processMessage] *)

Section retry_facts.
Import AIService.
Local Arguments isRetryable : simpl never.
Context (engine : nat → Outcome Engine.AIEngineProcessResponse).

Lemma attempts_spec (remaining : nat) : ∀ attempt payload lastError,
  ∃ k : nat,
    (k ≤ remaining)%nat
    ∧ sleeps (attempts engine remaining attempt payload lastError).2
      = map (λ a, backoff (Z.of_nat a)) (seq attempt k)
    ∧ engineCalls (attempts engine remaining attempt payload lastError).2
      = Nat.min (S k) remaining
    ∧ ∀ a, (attempt ≤ a < attempt + k)%nat →
        ∃ e, engine a = Throw e ∧ isRetryable (Some e) = true.
Proof.
  induction remaining as [|r IH]; intros attempt payload lastError.
  { exists 0%nat. simpl.
    split; [lia|split; [reflexivity|split; [reflexivity|intros a Ha; lia]]]. }
  simpl. destruct (engine attempt) as [response|e] eqn:He.
  { exists 0%nat. simpl.
    split; [lia|split; [reflexivity|split; [reflexivity|intros a Ha; lia]]]. }
  destruct (isRetryable (Some e)) eqn:Hre; simpl.
  2: { exists 0%nat. simpl.
    split; [lia|split; [reflexivity|split; [reflexivity|intros a Ha; lia]]]. }
  destruct (IH (S attempt) payload (Some e)) as (k & Hk & Hs & Hc & Hall).
  destruct (attempts engine r (S attempt) payload (Some e)) as [res evs].
  simpl in *. exists (S k). split; [lia|]. split; [|split].
  - unfold sleeps in *. simpl. by rewrite Hs.
  - unfold engineCalls in *. simpl. by rewrite Hc.
  - intros a Ha. destruct (decide (a = attempt)) as [->|Hne]; [by exists e|].
    apply Hall. lia.
Qed.

(** The loop from both sides: when the first [k] attempts that it makes
    fail with a retryable error and the next one, if attempts remain,
    does not, it makes exactly these calls and waits once after each of
    the [k] failures. *)
Lemma attempts_run (k : nat) : ∀ remaining attempt payload lastError,
  (k ≤ remaining)%nat →
  (∀ a, (attempt ≤ a < attempt + k)%nat →
     ∃ e, engine a = Throw e ∧ isRetryable (Some e) = true) →
  k = remaining
  ∨ (∀ e, engine (attempt + k) = Throw e → isRetryable (Some e) = false) →
  sleeps (attempts engine remaining attempt payload lastError).2
  = map (λ a, backoff (Z.of_nat a)) (seq attempt k)
  ∧ engineCalls (attempts engine remaining attempt payload lastError).2
    = Nat.min (S k) remaining
  ∧ ∀ e, (k < remaining)%nat → engine (attempt + k) = Throw e →
      (attempts engine remaining attempt payload lastError).1 = inr (Some e).
Proof.
  induction k as [|k IH]; intros remaining attempt payload lastError Hk Hfail Hstop.
  - destruct remaining as [|r].
    { simpl. split; [done|]. split; [done|]. intros; lia. }
    destruct Hstop as [?|Hstop]; [done|]. rewrite Nat.add_0_r in *. simpl.
    destruct (engine attempt) as [response|e].
    { split; [done|]. split; [done|]. by intros. }
    rewrite (Hstop e eq_refl). simpl. split; [done|]. split; [done|].
    by intros e' _ [= <-].
  - destruct remaining as [|r]; [lia|].
    destruct (Hfail attempt ltac:(lia)) as (e0 & He0 & Hre0).
    simpl. rewrite He0, Hre0. simpl.
    specialize (IH r (S attempt) payload (Some e0) ltac:(lia)).
    replace (attempt + S k)%nat with (S attempt + k)%nat in * by lia.
    destruct IH as (Hs & Hc & Hres).
    { intros a Ha. apply Hfail. lia. }
    { destruct Hstop as [?|?]; [left; lia|by right]. }
    destruct (attempts engine r (S attempt) payload (Some e0)) as [res evs].
    simpl in *. split; [|split].
    + unfold sleeps in *. simpl. by rewrite Hs.
    + unfold engineCalls in *. simpl. by rewrite Hc.
    + intros e Hlt He. apply Hres; [lia|done].
Qed.

Lemma enforceRateLimits_events request redis :
  engineCalls (enforceRateLimits request redis).2 = 0%nat
  ∧ sleeps (enforceRateLimits request redis).2 = [].
Proof.
  unfold enforceRateLimits. destruct (context request) as [ctx|]; [|done].
  destruct (negb _); [done|]. simpl. by destruct (100 <? _).
Qed.

Lemma engineCalls_app evs1 evs2 :
  engineCalls (evs1 ++ evs2) = (engineCalls evs1 + engineCalls evs2)%nat.
Proof. unfold engineCalls. by rewrite List.filter_app, length_app. Qed.

Lemma sleeps_app evs1 evs2 : sleeps (evs1 ++ evs2) = sleeps evs1 ++ sleeps evs2.
Proof. unfold sleeps. apply omap_app. Qed.
End retry_facts.

(** C7 (as stated) fails.  Against an engine that answers 503 three times
    and would answer the fourth call, the service calls the engine three
    times in all, that is, it retries twice and not three times, and
    gives up with the failure of the third attempt although a third retry
    would have been answered.  It waits 1000, 2000 and 3000 ms after the
    three failures. *)
Lemma retries_twice_not_three_times :
  Fixtures.flakyEngine 3 = Return (Fixtures.answer "Hello!")
  ∧ AIService.engineCalls
      (AIService.processMessage Fixtures.flakyEngine Fixtures.hello Fixtures.noCounters).2
    = 3%nat
  ∧ (AIService.processMessage Fixtures.flakyEngine Fixtures.hello Fixtures.noCounters).1.1
    = AIService.Failed (AIService.mkFailure "INTERNAL_ERROR" "Request failed")
  ∧ AIService.sleeps
      (AIService.processMessage Fixtures.flakyEngine Fixtures.hello Fixtures.noCounters).2
    = [1000; 2000; 3000].
Proof. repeat split; vm_compute; reflexivity. Qed.

(** C7 (amended).  For a call that passes the rate limit, let [k] be the
    number of attempts, among the three that the loop allows, that fail
    with a retryable error before one that does not (no response status
    with code ECONNABORTED, or status 408, 425, 429, 500, 502, 503, 504
    are retryable).  The engine is called exactly [min (k + 1) 3] times:
    every one of these [k] failures is followed by a wait and, while
    attempts remain, by the next attempt, so there are at most two
    retries.  The wait after attempt [a] (counted from 0) is 1000 ms times
    [a + 1], which for the three attempts is 1000 ms times 2^a capped at
    3000 ms; the wait after the third failure is made too.  An error that
    is not retryable (such as 401 or 400), at whatever attempt, ends the
    call at once with that error: no wait and no further attempt. *)
Theorem retry_policy
    (engine : nat → Outcome Engine.AIEngineProcessResponse)
    (request : AIService.AIRequest) (redis : AIService.Redis) (k : nat) :
  (AIService.enforceRateLimits request redis).1.1 = None →
  (k ≤ 3)%nat →
  (∀ attempt, (attempt < k)%nat →
     ∃ e, engine attempt = Throw e ∧ AIService.isRetryable (Some e) = true) →
  k = 3%nat
  ∨ (∀ e, engine k = Throw e → AIService.isRetryable (Some e) = false) →
  AIService.engineCalls (AIService.processMessage engine request redis).2
  = Nat.min (S k) 3
  ∧ AIService.sleeps (AIService.processMessage engine request redis).2
    = map (λ attempt, 1000 * (Z.of_nat attempt + 1)) (seq 0 k)
  ∧ AIService.sleeps (AIService.processMessage engine request redis).2
    = map (λ attempt, Z.min (1000 * 2 ^ Z.of_nat attempt) 3000) (seq 0 k)
  ∧ (∀ e, (k < 3)%nat → engine k = Throw e →
       (AIService.processMessage engine request redis).1.1
       = AIService.caught (Some e))
  ∧ (∀ code text,
       AIService.isRetryable (Some (AxiosErr (Some 429) code text)) = true
       ∧ AIService.isRetryable (Some (AxiosErr (Some 503) code text)) = true
       ∧ AIService.isRetryable (Some (AxiosErr None (Some "ECONNABORTED") text)) = true
       ∧ AIService.isRetryable (Some (AxiosErr (Some 401) code text)) = false
       ∧ AIService.isRetryable (Some (AxiosErr (Some 400) code text)) = false).
Proof.
  intros Hrate Hk Hfail Hstop.
  pose proof (enforceRateLimits_events request redis) as [Hc0 Hs0].
  pose proof (attempts_run engine k AIService.retryAttempts 0
                (AIService.buildPayload request) None Hk) as Hrun.
  change (0 + k)%nat with k in Hrun.
  destruct Hrun as (Hs & Hc & Hres).
  { intros a Ha. apply Hfail. lia. }
  { destruct Hstop as [->|?]; [by left|by right]. }
  unfold AIService.processMessage.
  destruct (AIService.enforceRateLimits request redis) as [[err redis'] evs0].
  simpl in Hrate, Hc0, Hs0. subst err.
  assert (map (λ a, AIService.backoff (Z.of_nat a)) (seq 0 k)
          = map (λ attempt, Z.min (1000 * 2 ^ Z.of_nat attempt) 3000) (seq 0 k))
    as Hcap.
  { destruct k as [|[|[|[|k]]]]; [done..|lia]. }
  destruct (AIService.attempts _ _ _ _ _) as [res evs]. simpl in *.
  assert (AIService.engineCalls (evs0 ++ evs) = Nat.min (S k) 3
          ∧ AIService.sleeps (evs0 ++ evs)
            = map (λ a, AIService.backoff (Z.of_nat a)) (seq 0 k)) as [Hcalls Hsleeps].
  { by rewrite engineCalls_app, sleeps_app, Hc0, Hs0, Hs, Hc. }
  split; [|split; [|split; [|split]]].
  - by destruct res.
  - by destruct res.
  - rewrite <- Hcap. by destruct res.
  - intros e Hlt He. by rewrite (Hres e Hlt He).
  - intros code text. by repeat split.
Qed.

Lemma retry_policy_witness :
  AIService.engineCalls
    (AIService.processMessage Fixtures.flakyEngine Fixtures.hello Fixtures.noCounters).2
  = Nat.min 4 3
  ∧ AIService.sleeps
      (AIService.processMessage Fixtures.flakyEngine Fixtures.hello Fixtures.noCounters).2
    = map (λ attempt, 1000 * (Z.of_nat attempt + 1)) (seq 0 3)
  ∧ AIService.sleeps
      (AIService.processMessage Fixtures.flakyEngine Fixtures.hello Fixtures.noCounters).2
    = map (λ attempt, Z.min (1000 * 2 ^ Z.of_nat attempt) 3000) (seq 0 3)
  ∧ (∀ e, (3 < 3)%nat → Fixtures.flakyEngine 3 = Throw e →
       (AIService.processMessage Fixtures.flakyEngine Fixtures.hello
          Fixtures.noCounters).1.1
       = AIService.caught (Some e))
  ∧ (∀ code text,
       AIService.isRetryable (Some (AxiosErr (Some 429) code text)) = true
       ∧ AIService.isRetryable (Some (AxiosErr (Some 503) code text)) = true
       ∧ AIService.isRetryable (Some (AxiosErr None (Some "ECONNABORTED") text)) = true
       ∧ AIService.isRetryable (Some (AxiosErr (Some 401) code text)) = false
       ∧ AIService.isRetryable (Some (AxiosErr (Some 400) code text)) = false).
Proof.
  apply (retry_policy Fixtures.flakyEngine Fixtures.hello Fixtures.noCounters 3).
  - vm_compute. reflexivity.
  - lia.
  - intros attempt Hlt. exists (Fixtures.httpError 503).
    destruct attempt as [|[|[|attempt]]]; [by split..|lia].
  - left. reflexivity.
Defined.

(** ** The theorems at concrete sessions *)

Lemma scenario_site : Sessions.answersFilter (Agent.jira Fixtures.scenarioEnv).
Proof.
  intros cloudId accountId issues [= <-].
  repeat constructor. discriminate.
Qed.

Lemma scenario_reachable (site : Jira.Api → Prop) :
  site (Agent.jira Fixtures.scenarioEnv) →
  Sessions.reachable site (Agent.store Fixtures.started)
  ∧ Sessions.reachable site (Agent.store Fixtures.declined.2).
Proof.
  intros Hsite.
  assert (Sessions.reachable site (Agent.store Fixtures.started)) as H0.
  { apply (Sessions.reach_start site Fixtures.scenarioEnv "u1" ∅);
      [constructor|done]. }
  split; [done|].
  apply (Sessions.reach_message site Fixtures.scenarioEnv "s1" "no changes" "u1").
  by apply (Sessions.reach_message site Fixtures.scenarioEnv "s1"
              "completed, added tracking" "u1").
Qed.

Lemma completed_only_after_commit_witness :
  ((∃ d t, Agent.store Fixtures.declined.2 !! "s1" = Some d
           ∧ Agent.doc_tasks d !! 0%nat = Some t
           ∧ Agent.doc_state t = Agent.COMPLETED)
   ∨ Sessions.committed
       (Agent.trace (Sessions.turn Fixtures.scenarioEnv
                       (Agent.store Fixtures.declined.2) "s1" "yes" "u1").2)
   ∨ ("s1" = "s1"
      ∧ ∃ d t, Agent.store Fixtures.declined.2 !! "s1" = Some d
          ∧ Agent.doc_tasks d !! 0%nat = Some t
          ∧ Agent.doc_state t = Agent.AWAITING_CONFIRM
          ∧ Agent.doc_status t = "Done"
          ∧ Engine.analyzeUpdateType (Agent.engine Fixtures.scenarioEnv)
              (Agent.doc_draftSummary t) "u1" = Return "status_only"
          ∧ Sessions.jiraCalls
              (Agent.trace (Sessions.turn Fixtures.scenarioEnv
                              (Agent.store Fixtures.declined.2) "s1" "yes" "u1").2)
            = []))
  ∧ (Sessions.reachable Sessions.answersFilter (Agent.store Fixtures.declined.2) →
     (∃ d t, Agent.store Fixtures.declined.2 !! "s1" = Some d
             ∧ Agent.doc_tasks d !! 0%nat = Some t
             ∧ Agent.doc_state t = Agent.COMPLETED)
     ∨ Sessions.committed
         (Agent.trace (Sessions.turn Fixtures.scenarioEnv
                         (Agent.store Fixtures.declined.2) "s1" "yes" "u1").2)).
Proof.
  apply (completed_only_after_commit Fixtures.scenarioEnv
           (Agent.store Fixtures.declined.2) "s1" "yes" "u1" "s1"
           (Agent.mkSessionDoc "u1" 0
              [Agent.mkTaskDoc "KT-1" "Add Analytics events" "In Progress" None None
                 (Some "Added tracking events.") (Some "Added tracking events.")
                 Agent.COMPLETED])
           0%nat
           (Agent.mkTaskDoc "KT-1" "Add Analytics events" "In Progress" None None
              (Some "Added tracking events.") (Some "Added tracking events.")
              Agent.COMPLETED)).
  - vm_compute. reflexivity.
  - reflexivity.
  - reflexivity.
Defined.

Lemma confirmed_commit_advances_witness :
  Agent.store (Sessions.turn (Fixtures.env "" "comment_only" [])
                 Fixtures.twoTaskStore "s1" "yes" "u1").2 !! "s1"
  = Some (Agent.toDoc Fixtures.afterConfirm)
  ∧ Agent.state <$> Agent.taskAt (Agent.tasks Fixtures.afterConfirm)
                      (Agent.doc_currentIndex Fixtures.twoTasks)
    = Some Agent.COMPLETED
  ∧ (∀ j next, Sessions.nextOpen Fixtures.twoTasks j next →
       Agent.currentIndex Fixtures.afterConfirm = j
       ∧ Agent.state <$> Agent.taskAt (Agent.tasks Fixtures.afterConfirm) j
         = Some Agent.AWAITING_UPDATE
       ∧ Agent.nextTaskReply "Fix login redirect"
         = Agent.nextTaskReply (Agent.doc_title next))
  ∧ (Sessions.noneOpen Fixtures.twoTasks →
       Agent.currentIndex Fixtures.afterConfirm
       = Agent.doc_currentIndex Fixtures.twoTasks
       ∧ Agent.nextTaskReply "Fix login redirect" = Agent.allDoneReply).
Proof.
  apply (confirmed_commit_advances (Fixtures.env "" "comment_only" [])
           Fixtures.twoTaskStore "s1" "yes" "u1" Fixtures.twoTasks
           Fixtures.confirmTask).
  - reflexivity.
  - reflexivity.
  - reflexivity.
  - reflexivity.
  - vm_compute. reflexivity.
Defined.

Lemma guards_empty_and_drift_witness :
  Agent.handleMessage Fixtures.scenarioEnv "s0" "hi" "u1" (Agent.fresh Fixtures.oddStore)
  = (Return (Agent.noTasksReply, Agent.ofDoc "s0" Fixtures.emptySession),
     Agent.fresh Fixtures.oddStore)
  ∧ ∃ t0,
      Sessions.currentTask (Sessions.healed Fixtures.driftedSession) = Some t0
      ∧ Agent.taskAt
          (Agent.tasks (Agent.ofDoc "s1" (Sessions.healed Fixtures.driftedSession))) 0
        = Some (Agent.taskOfDoc t0)
      ∧ Agent.handleMessage Fixtures.scenarioEnv "s1" "hi" "u1"
          (Agent.fresh Fixtures.oddStore)
        = Agent.dispatch Fixtures.scenarioEnv
            (Agent.ofDoc "s1" (Sessions.healed Fixtures.driftedSession))
            (Agent.taskOfDoc t0) "hi" "u1"
            (Agent.mkWorld
               (<["s1" := Sessions.healed Fixtures.driftedSession]>
                  (Agent.store (Agent.fresh Fixtures.oddStore)))
               (Agent.trace (Agent.fresh Fixtures.oddStore)
                  ++ [Agent.EvSave "s1" (Sessions.healed Fixtures.driftedSession)])).
Proof.
  split.
  - apply (proj1 (guards_empty_and_drift Fixtures.scenarioEnv
                    (Agent.fresh Fixtures.oddStore) "s0" "hi" "u1"
                    Fixtures.emptySession ltac:(vm_compute; reflexivity))).
    reflexivity.
  - apply (proj2 (guards_empty_and_drift Fixtures.scenarioEnv
                    (Agent.fresh Fixtures.oddStore) "s1" "hi" "u1"
                    Fixtures.driftedSession ltac:(vm_compute; reflexivity))).
    + discriminate.
    + right. vm_compute. discriminate.
Defined.


(** ** Outside the reachable stores *)

(** A stored task in AWAITING_EDIT_INPUT without a draft (no session the
    service builds has one) keeps no draft when the engine returns only
    white space. *)
Example missing_draft_stays_missing :
  Agent.doc_draftSummary
    <$> (Agent.store
           (Sessions.turn (Fixtures.env "   " "comment_only" [])
              {[ "s1" := Agent.mkSessionDoc "u1" 0
                           [Agent.mkTaskDoc "KT-1" "Add Analytics events" "In Progress"
                              None None None None Agent.AWAITING_EDIT_INPUT] ]}
              "s1" "shorter please" "u1").2 !! "s1"
         ≫= λ d, Agent.doc_tasks d !! 0%nat)
  = Some None.
Proof. vm_compute. reflexivity. Qed.

(* ===================================================================== *)
(** * Further properties of the code *)
(* ===================================================================== *)

(** ** The patterns accept nothing but their phrases *)

Section regex_converse.
Import Text Words.

Lemma lower_of_canonicalize (c : ascii) : lower (canonicalize c) = lower c.
Proof. destruct c as [[] [] [] [] [] [] [] []]; reflexivity. Qed.

Lemma canonicalize_lower_eq (x y : ascii) :
  canonicalize x = canonicalize y → lower x = lower y.
Proof.
  intros H. rewrite <- (lower_of_canonicalize x), <- (lower_of_canonicalize y).
  by rewrite H.
Qed.

Lemma testFrom_inv r : ∀ s prev,
  testFrom r prev s = true →
  ∃ pre rest, s = pre +:+ rest ∧ matchRe r (lastOr prev pre) rest ≠ [].
Proof.
  induction s as [|x s IH]; intros prev H; simpl in H.
  - destruct (matchRe r prev EmptyString) eqn:E; [done|].
    exists EmptyString, EmptyString. simpl. by rewrite E.
  - destruct (matchRe r prev (String x s)) eqn:E.
    + destruct (IH _ H) as (pre & rest & -> & Hm).
      by exists (String x pre), rest.
    + exists EmptyString, (String x s). simpl. by rewrite E.
Qed.

Lemma matchRe_Seq_inv r1 r2 prev rest k :
  In k (matchRe (Seq r1 r2) prev rest) →
  ∃ k1, In k1 (matchRe r1 prev rest) ∧ In k (matchRe r2 k1.1 k1.2).
Proof.
  simpl. intros (l & Hl & Hk)%in_concat.
  apply in_map_iff in Hl as (k1 & <- & Hk1). by exists k1.
Qed.

Lemma matchRe_word_inv w : ∀ prev rest q post,
  In (q, post) (matchRe (word w) prev rest) →
  ∃ occ, rest = occ +:+ post ∧ sameWord occ w = true ∧ q = lastOr prev occ.
Proof.
  induction w as [|c w IH]; intros prev rest q post H.
  - simpl in H. destruct H as [[= <- <-]|[]]. by exists EmptyString.
  - apply matchRe_Seq_inv in H as ([q1 r1] & H1 & H2). simpl in H1, H2.
    destruct rest as [|x rest]; [done|].
    destruct (Ascii.eqb _ _) eqn:E; [|done].
    destruct H1 as [[= <- <-]|[]].
    apply Ascii.eqb_eq, canonicalize_lower_eq in E.
    destruct (IH _ _ _ _ H2) as (occ & -> & Hs & ->).
    exists (String x occ). simpl. rewrite E, Ascii.eqb_refl. by rewrite Hs.
Qed.

Lemma matchRe_anyOf_inv ws : ∀ prev rest k,
  In k (matchRe (anyOf ws) prev rest) →
  ∃ w, In w ws ∧ In k (matchRe (word w) prev rest).
Proof.
  induction ws as [|w ws IH]; intros prev rest k H; simpl in H; [done|].
  apply in_app_or in H as [H|H].
  - exists w. split; [by left|done].
  - destruct (IH _ _ _ H) as (w' & ? & ?). exists w'. split; [by right|done].
Qed.

Lemma matchRe_WordB_inv prev rest k :
  In k (matchRe WordB prev rest) →
  k = (prev, rest) ∧ xorb (isWordOpt prev) (isWordOpt (peek rest)) = true.
Proof.
  simpl. destruct (xorb _ _); [|done]. by intros [<-|[]].
Qed.

Lemma wholeWordRe_sound ws s :
  Forall (λ w, wordEdged w = true) ws →
  test (wholeWordRe ws) s = true →
  ∃ w, In w ws ∧ containsWholeWord w s.
Proof.
  intros Hedge Ht.
  apply testFrom_inv in Ht as (pre & rest & -> & Hm).
  destruct (matchRe _ _ _) as [|k l] eqn:E; [done|]. clear Hm.
  assert (In k (matchRe (wholeWordRe ws) (lastOr None pre) rest)) as Hk
    by (rewrite E; by left).
  unfold wholeWordRe in Hk.
  apply matchRe_Seq_inv in Hk as (k1 & Hk1 & Hk).
  apply matchRe_WordB_inv in Hk1 as [-> Hstart]. cbn [fst snd] in Hk.
  apply matchRe_Seq_inv in Hk as ([q post] & Hk2 & Hk).
  apply matchRe_WordB_inv in Hk as [_ Hend]. cbn [fst snd] in Hend.
  apply matchRe_anyOf_inv in Hk2 as (w & Hw & Hk2).
  apply matchRe_word_inv in Hk2 as (occ & -> & Hs & ->).
  rewrite Forall_forall in Hedge.
  pose proof (Hedge w (proj2 (list_elem_of_In _ _) Hw)) as [Hfirst Hlast]%andb_prop.
  assert (occ ≠ EmptyString) as Hne.
  { intros ->. destruct w; simpl in *; done. }
  rewrite (peek_append _ _ Hne), (sameWord_peek _ _ Hs), Hfirst in Hstart.
  rewrite (lastOr_nonempty occ _ None Hne) in Hend.
  rewrite (sameWord_lastOr occ w None None Hs eq_refl), Hlast in Hend.
  exists w. split; [done|]. exists pre, occ, post.
  split; [done|]. split; [done|].
  split; [by destruct (isWordOpt (lastOr None pre))|
          by destruct (isWordOpt (peek post))].
Qed.
End regex_converse.

(** X1. [isAffirmative] accepts exactly the inputs that contain one of its
    ten phrases as a whole word in any letter case, and [saidDone] exactly
    those that contain one of its six: nothing else is taken for a
    confirmation or for a completion. *)
Theorem detectors_exact (s : string) :
  (Text.isAffirmative s = true
   ↔ ∃ w, w ∈ Text.affirmativeWords ∧ Words.containsWholeWord w s)
  ∧ (Text.saidDone s = true
     ↔ ∃ w, w ∈ Text.doneWords ∧ Words.containsWholeWord w s).
Proof.
  assert (Forall (λ w, Words.wordEdged w = true) Text.affirmativeWords) as Ha
    by (repeat constructor).
  assert (Forall (λ w, Words.wordEdged w = true) Text.doneWords) as Hd
    by (repeat constructor).
  split; split.
  - intros (w & Hw & Hc)%(wholeWordRe_sound _ _ Ha).
    exists w. split; [by apply list_elem_of_In|done].
  - intros (w & Hw%list_elem_of_In & Hc).
    eapply wholeWordRe_complete; [exact Hw| |exact Hc].
    rewrite Forall_forall in Ha. apply Ha. by apply list_elem_of_In.
  - intros (w & Hw & Hc)%(wholeWordRe_sound _ _ Hd).
    exists w. split; [by apply list_elem_of_In|done].
  - intros (w & Hw%list_elem_of_In & Hc).
    eapply wholeWordRe_complete; [exact Hw| |exact Hc].
    rewrite Forall_forall in Hd. apply Hd. by apply list_elem_of_In.
Qed.

(** ** What a request leaves alone *)

Section frame_facts.
Import Agent Sessions Frames.

Lemma advanceResult_user (s : IAgentSession) :
  userId (advanceResult s).1 = userId s.
Proof. unfold advanceResult. by destruct (list_find _ _) as [[k next]|]. Qed.

Lemma dispatch_savedAs env s task msg user :
  inRange s →
  taskAt (tasks s) (currentIndex s) = Some task →
  traced (savedAs s) (λ _, True) (dispatch env s task msg user).
Proof.
  intros Hr Hat. pose proof Hr as [Hlo _].
  rewrite taskAt_lookup in Hat by done.
  assert (∀ t', taskStep task t' →
            savedAs s (EvSave (_id (setTask (currentIndex s) t' s))
                         (toDoc (setTask (currentIndex s) t' s)))) as Hsave.
  { intros t' Hstep. eexists. split; [done|]. split; [done|]. split; [done|].
    by eapply moved_setTask. }
  unfold dispatch. destruct (state task) eqn:Est.
  - unfold onAwaitingUpdate.
    eapply traced_bind; [by apply (traced_external _ _ (λ _, True))|].
    intros draftRaw _.
    eapply traced_bind; [|intros _ _; by apply traced_ret].
    apply traced_save.
    apply (Hsave _ (step_draft task _ (Text.saidDone msg) Est
                      (orElse_nonempty _ "Update noted." ltac:(done)))).
  - unfold onAwaitingEditDecision. destruct (Text.isAffirmative msg);
      (eapply traced_bind; [|intros _ _; by apply traced_ret]);
      apply traced_save, Hsave; by constructor.
  - unfold onAwaitingEditInput.
    eapply traced_bind; [by apply (traced_external _ _ (λ _, True))|].
    intros updatedRaw _.
    eapply traced_bind; [|intros _ _; by apply traced_ret].
    apply traced_save, Hsave. constructor; [done|].
    unfold orFallback. destruct (Js.truthy _) eqn:Etr; [right|by left].
    eexists. split; [done|]. by apply truthy_nonempty.
  - unfold onAwaitingConfirm. destruct (negb _); [by apply traced_ret|].
    eapply traced_bind; [by apply (traced_external _ _ (λ _, True))|].
    intros updateType _.
    eapply traced_bind; [by apply commit_traced|]. intros task1 Htask1.
    eapply traced_bind; [by apply advance_traced, inRange_setTask|].
    intros r ->.
    pose proof (moved_finalize_advance s task task1 Hlo Hat Est Htask1) as Hmoved.
    unfold finalized in Hmoved.
    set (s1 := setTask _ _ s) in *.
    pose proof (advanceResult_user s1) as Huser.
    pose proof (proj2 (advanceResult_tasks s1)) as Hid.
    destruct (advanceResult s1) as [s2 b]; simpl in *.
    eapply traced_bind.
    { apply traced_save. exists s2. by rewrite Hid, Huser. }
    intros _ _. destruct b; [|by apply traced_ret].
    destruct (taskAt (tasks s2) _); [by apply traced_ret|apply traced_throw].
  - by apply traced_ret.
Qed.

Lemma handleMessage_savedOver env sid msg user w :
  ∃ evs, trace (handleMessage env sid msg user w).2 = trace w ++ evs
         ∧ store (handleMessage env sid msg user w).2 = replay evs (store w)
         ∧ Forall (savedOver (store w) sid) evs.
Proof.
  destruct (store w !! sid) as [d|] eqn:Hd.
  2: { rewrite handleMessage_missing by done. exists []. simpl.
       by rewrite app_nil_r. }
  destruct (doc_tasks d) as [|t0 rest] eqn:Hts.
  { rewrite (handleMessage_empty _ _ _ d) by done. exists []. simpl.
    by rewrite app_nil_r. }
  assert (∀ s evs, _id s = sid → userId s = doc_userId d →
            tasks s = tasks (ofDoc sid d) →
            Forall (savedAs s) evs → Forall (savedOver (store w) sid) evs) as Hover.
  { intros s evs Hid Hu Hs Hevs. eapply Forall_impl; [exact Hevs|].
    intros [| |sid' d'] Hev; try done.
    destruct Hev as (s' & -> & -> & Hu' & Hm). split; [done|].
    exists d, s'. rewrite <- Hs. split; [done|]. split; [done|].
    split; [|done]. unfold toDoc; simpl. congruence. }
  destruct (currentTask_or_drift d) as [[t Ht]|Hdrift].
  - rewrite (handleMessage_in_range _ _ _ d t) by done.
    destruct (dispatch_savedAs env (ofDoc sid d) (taskOfDoc t) msg user) with (w := w)
      as (evs & ? & ? & ? & _).
    + pose proof (currentTask_inv _ _ Ht). unfold inRange; simpl.
      by rewrite length_map.
    + rewrite taskAt_ofDoc, Ht. done.
    + exists evs. split; [done|]. split; [done|].
      by apply (Hover (ofDoc sid d)).
  - rewrite (handleMessage_drift env w sid d t0 rest msg user Hd Hts Hdrift).
    set (w1 := mkWorld _ _).
    destruct (dispatch_savedAs env (ofDoc sid (healed d)) (taskOfDoc t0) msg user)
      with (w := w1) as (evs & Ht' & Hs' & HP & _).
    + unfold inRange, healed; simpl. rewrite Hts. simpl. lia.
    + unfold taskAt, healed; simpl. by rewrite Hts.
    + exists (EvSave sid (healed d) :: evs). rewrite Ht', Hs'. simpl.
      rewrite <- app_assoc. split; [done|]. split; [done|].
      constructor; [|by apply (Hover (ofDoc sid (healed d)))].
      split; [done|]. exists d, (ofDoc sid (healed d)). split; [done|].
      split; [by rewrite toDoc_ofDoc|]. split; [done|]. apply moved_same.
Qed.

Lemma replay_elsewhere sid evs : ∀ (st : gmap string SessionDoc) sid',
  Forall (λ ev, ∀ k d, ev = EvSave k d → k = sid) evs →
  sid' ≠ sid → replay evs st !! sid' = st !! sid'.
Proof.
  induction evs as [|ev evs IH]; intros st sid' Hevs Hne; [done|].
  apply Forall_cons in Hevs as [Hev Hevs].
  destruct ev as [| |k d]; simpl; try by apply IH.
  rewrite IH by done. rewrite (Hev k d eq_refl).
  by apply lookup_insert_ne.
Qed.

Lemma replay_keeps sid evs : ∀ (st : gmap string SessionDoc),
  is_Some (st !! sid) → is_Some (replay evs st !! sid).
Proof.
  induction evs as [|ev evs IH]; intros st Hst; [done|].
  destruct ev as [| |k d]; simpl; try by apply IH.
  apply IH. destruct (decide (k = sid)) as [->|Hne].
  - rewrite lookup_insert_eq. by eexists.
  - by rewrite lookup_insert_ne.
Qed.

Lemma savedOver_only st sid evs :
  Forall (savedOver st sid) evs →
  Forall (λ ev, ∀ k d, ev = EvSave k d → k = sid) evs.
Proof.
  intros Hevs. eapply Forall_impl; [exact Hevs|].
  intros [| |k d] Hev k' d' E; try done.
  injection E as <- <-. by destruct Hev.
Qed.

(** A move keeps what identifies the task. *)
Lemma moved_identity (t t' : ITaskState) :
  moved t t' →
  taskId t' = taskId t ∧ title t' = title t
  ∧ createdAt t' = createdAt t ∧ updatedAt t' = updatedAt t.
Proof.
  intros [->|Hstep]; [done|].
  destruct Hstep as [t draft [] ? ?|t ?|t ?|t draft ? ?|t t1 ? [->| ->]|t ?]; done.
Qed.

(** There is no move out of COMPLETED. *)
Lemma moved_completed (t t' : ITaskState) :
  moved t t' → state t = COMPLETED → t' = t.
Proof.
  intros [->|Hstep] Hc; [done|].
  destruct Hstep; congruence.
Qed.

(** After the state switch the session is stored with its index in
    range. *)
Lemma dispatch_stays_in_range env s task msg user w d0 :
  inRange s →
  taskAt (tasks s) (currentIndex s) = Some task →
  store w !! _id s = Some d0 →
  0 ≤ doc_currentIndex d0 < Z.of_nat (length (doc_tasks d0)) →
  ∃ d', store (dispatch env s task msg user w).2 !! _id s = Some d'
        ∧ 0 ≤ doc_currentIndex d' < Z.of_nat (length (doc_tasks d')).
Proof.
  intros Hs Hat Hd0 Hr0.
  destruct (dispatch_savedAs env s task msg user Hs Hat w) as (evs & Ht & Hst & HP & _).
  destruct (dispatch_traced env s task msg user Hs w) as (evs' & Ht' & _ & HP' & _).
  assert (evs' = evs) as ->.
  { rewrite Ht in Ht'. by apply app_inv_head in Ht'. }
  rewrite Hst.
  destruct (replay_keeps (_id s) evs (store w)) as [d' Hd']; [by eexists|].
  exists d'. split; [done|].
  apply replay_lookup in Hd' as [Hd'|Hin].
  { rewrite Hd0 in Hd'. by injection Hd' as <-. }
  rewrite Forall_forall in HP, HP'.
  destruct (HP _ Hin) as (s' & _ & -> & _ & Hm).
  apply (HP' _ Hin). unfold toDoc; simpl.
  apply Forall2_length in Hm. destruct Hs as [Hlo Hhi].
  destruct (tasks s'); [simpl in *; lia|done].
Qed.
End frame_facts.

(** C5. [0 <= currentIndex < len(tasks)] holds for every session with a
    non-empty task list after every operation that persists it.  Every
    save of [startSession] and of [handleMessage] writes such a session,
    and a stored session is as it was or was written by one of these
    saves.  [startSession] establishes it: the session it returns is
    stored with [currentIndex] 0.  The guard restores it: a session with
    tasks that [handleMessage] loads is stored with its index in range
    after the request, whatever the index was before and whether or not
    the request returns, and when the index was out of range the first
    thing the request does is to save the session with [currentIndex] 0.
    The advance after a commit preserves it: its save is one of the saves
    above. *)
Theorem index_in_range_when_saved (env : Agent.Env) (w : Agent.World) :
  (∀ user,
     let w' := (Agent.startSession env user w).2 in
     (∃ evs, Agent.trace w' = Agent.trace w ++ evs
             ∧ Forall Sessions.savedIndexOk evs)
     ∧ ∀ sid d, Agent.store w' !! sid = Some d →
                Agent.store w !! sid = Some d ∨ Sessions.indexOk d)
  ∧ (∀ sid msg user,
       let w' := (Agent.handleMessage env sid msg user w).2 in
       (∃ evs, Agent.trace w' = Agent.trace w ++ evs
               ∧ Forall Sessions.savedIndexOk evs)
       ∧ ∀ sid' d, Agent.store w' !! sid' = Some d →
                   Agent.store w !! sid' = Some d ∨ Sessions.indexOk d)
  ∧ (∀ user s,
       (Agent.startSession env user w).1 = Return s →
       Agent.store (Agent.startSession env user w).2 !! Agent._id s
       = Some (Agent.toDoc s)
       ∧ Agent.currentIndex s = 0
       ∧ Sessions.indexOk (Agent.toDoc s))
  ∧ (∀ sid msg user d,
       Agent.store w !! sid = Some d → Agent.doc_tasks d ≠ [] →
       (∃ d', Agent.store (Agent.handleMessage env sid msg user w).2 !! sid = Some d'
              ∧ 0 ≤ Agent.doc_currentIndex d'
                  < Z.of_nat (length (Agent.doc_tasks d')))
       ∧ (Sessions.currentTask d = None →
          ∃ evs, Agent.trace (Agent.handleMessage env sid msg user w).2
                 = Agent.trace w ++ Agent.EvSave sid (Sessions.healed d) :: evs)).
Proof.
  assert (∀ A (m : Agent.M A),
            Sessions.traced Sessions.savedIndexOk (λ _, True) m →
            (∃ evs, Agent.trace (m w).2 = Agent.trace w ++ evs
                    ∧ Forall Sessions.savedIndexOk evs)
            ∧ ∀ sid d, Agent.store (m w).2 !! sid = Some d →
                       Agent.store w !! sid = Some d ∨ Sessions.indexOk d) as Hgen.
  { intros A m Hm. destruct (Hm w) as (evs & Ht & Hs & HP & _).
    split; [by exists evs|]. intros sid d Hd. rewrite Hs in Hd.
    apply replay_lookup in Hd as [Hd|Hd]; [by left|right].
    rewrite Forall_forall in HP. by apply (HP _ Hd). }
  split; [|split; [|split]].
  - intros. apply Hgen, startSession_traced.
  - intros. apply Hgen, handleMessage_traced.
  - intros user s.
    unfold Agent.startSession, Agent.getPendingTasks, mbind, Agent.M_bind.
    rewrite external_run.
    destruct (Jira.getPendingTasks _ _) as [pending|e]; simpl; [|done].
    unfold Agent.create. destruct (Agent.failures _ _ _); simpl; [|done].
    intros [= <-]. simpl. rewrite lookup_insert_eq.
    split; [done|]. split; [done|].
    intros Hne. unfold Agent.toDoc in *. simpl in *.
    destruct pending; [done|]. simpl. lia.
  - intros sid msg user d Hd Hne.
    destruct (Agent.doc_tasks d) as [|t0 rest] eqn:Hts; [done|].
    destruct (Sessions.currentTask d) as [t|] eqn:Ht.
    + split; [|done].
      rewrite (handleMessage_in_range _ _ _ d t) by done.
      pose proof (currentTask_inv _ _ Ht) as Hidx.
      apply (dispatch_stays_in_range env (Agent.ofDoc sid d) (Agent.taskOfDoc t)
               msg user w d); [| |done|done].
      * unfold Sessions.inRange; simpl. by rewrite length_map.
      * by rewrite taskAt_ofDoc, Ht.
    + destruct (currentTask_or_drift d) as [[t Ht']|Hdrift]; [congruence|].
      rewrite (handleMessage_drift env w sid d t0 rest msg user Hd Hts Hdrift).
      set (w1 := Agent.mkWorld _ _). split.
      * apply (dispatch_stays_in_range env (Agent.ofDoc sid (Sessions.healed d))
                 (Agent.taskOfDoc t0) msg user w1 (Sessions.healed d)).
        -- unfold Sessions.inRange, Sessions.healed; simpl. rewrite Hts. simpl. lia.
        -- unfold Agent.taskAt, Sessions.healed; simpl. by rewrite Hts.
        -- unfold w1. simpl. by rewrite lookup_insert_eq.
        -- unfold Sessions.healed; simpl. rewrite Hts. simpl. lia.
      * intros _.
        destruct (dispatch_traced env (Agent.ofDoc sid (Sessions.healed d))
                    (Agent.taskOfDoc t0) msg user) with (w := w1)
          as (evs & Htr & _).
        { unfold Sessions.inRange, Sessions.healed; simpl. rewrite Hts. simpl. lia. }
        exists evs. rewrite Htr. unfold w1. simpl. by rewrite <- app_assoc.
Qed.

(** X2. A [handleMessage] turn writes to the addressed session only: every
    other session of the collection is as it was and none is removed; and
    in the addressed session the user, the number of tasks and the
    [taskId], [title], [createdAt] and [updatedAt] of every task are as
    before, whatever the engine and Jira answer. *)
Theorem other_sessions_and_identities_kept
    (env : Agent.Env) (st : gmap string Agent.SessionDoc) (sid msg user : string) :
  (∀ sid', sid' ≠ sid →
     Agent.store (Sessions.turn env st sid msg user).2 !! sid' = st !! sid')
  ∧ (∀ d, st !! sid = Some d →
       ∃ d', Agent.store (Sessions.turn env st sid msg user).2 !! sid = Some d'
         ∧ Agent.doc_userId d' = Agent.doc_userId d
         ∧ length (Agent.doc_tasks d') = length (Agent.doc_tasks d)
         ∧ ∀ i t, Agent.doc_tasks d !! i = Some t →
             ∃ t', Agent.doc_tasks d' !! i = Some t'
               ∧ Agent.doc_taskId t' = Agent.doc_taskId t
               ∧ Agent.doc_title t' = Agent.doc_title t
               ∧ Agent.doc_createdAt t' = Agent.doc_createdAt t
               ∧ Agent.doc_updatedAt t' = Agent.doc_updatedAt t)
  ∧ (st !! sid = None →
       Agent.store (Sessions.turn env st sid msg user).2 !! sid = None).
Proof.
  unfold Sessions.turn.
  destruct (handleMessage_savedOver env sid msg user (Agent.fresh st))
    as (evs & _ & -> & Hevs). simpl in *.
  split; [|split].
  - intros sid' Hne. eapply replay_elsewhere; [|done]. by eapply savedOver_only.
  - intros d Hd.
    destruct (replay_keeps sid evs st) as [d' Hd']; [by eexists|].
    exists d'. split; [done|].
    apply replay_lookup in Hd' as [Hd'|Hev].
    { rewrite Hd in Hd'. injection Hd' as <-. split; [done|]. split; [done|].
      intros i t Ht. by exists t. }
    rewrite Forall_forall in Hevs. apply Hevs in Hev.
    destruct Hev as (_ & d0 & s' & Hd0 & -> & Hu & Hm).
    rewrite Hd in Hd0. injection Hd0 as <-.
    split; [done|]. simpl in Hm. split.
    { unfold Agent.toDoc; simpl. rewrite length_map.
      apply Forall2_length in Hm. by rewrite length_map in Hm. }
    intros i t Ht.
    destruct (Forall2_lookup_l _ _ _ i (Agent.taskOfDoc t) Hm) as (t' & Ht' & Hmv).
    { by rewrite list_lookup_fmap, Ht. }
    exists (Agent.taskToDoc t'). unfold Agent.toDoc; simpl.
    rewrite list_lookup_fmap, Ht'. split; [done|].
    by apply moved_identity in Hmv.
  - intros Hnone.
    destruct (Sessions.replay evs st !! sid) as [d'|] eqn:Hd'; [|done].
    apply replay_lookup in Hd' as [Hd'|Hev]; [congruence|].
    rewrite Forall_forall in Hevs. apply Hevs in Hev.
    destruct Hev as (_ & d0 & s' & Hd0 & _). congruence.
Qed.

(** X3. COMPLETED is final: a task that is COMPLETED in the store is stored
    unchanged after any [handleMessage] turn on any session, whatever the
    message, the engine and Jira. *)
Theorem completed_task_is_final
    (env : Agent.Env) (st : gmap string Agent.SessionDoc) (sid msg user : string)
    (sid' : string) (d : Agent.SessionDoc) (i : nat) (t : Agent.TaskDoc) :
  st !! sid' = Some d →
  Agent.doc_tasks d !! i = Some t →
  Agent.doc_state t = Agent.COMPLETED →
  ∃ d', Agent.store (Sessions.turn env st sid msg user).2 !! sid' = Some d'
        ∧ Agent.doc_tasks d' !! i = Some t.
Proof.
  intros Hd Ht Hc. unfold Sessions.turn.
  destruct (handleMessage_savedOver env sid msg user (Agent.fresh st))
    as (evs & _ & -> & Hevs). simpl in *.
  destruct (replay_keeps sid' evs st) as [d' Hd']; [by eexists|].
  exists d'. split; [done|].
  apply replay_lookup in Hd' as [Hd'|Hev].
  { rewrite Hd in Hd'. by injection Hd' as <-. }
  rewrite Forall_forall in Hevs. apply Hevs in Hev.
  destruct Hev as (-> & d0 & s' & Hd0 & -> & Hu & Hm).
  rewrite Hd in Hd0. injection Hd0 as <-. simpl in Hm.
  destruct (Forall2_lookup_l _ _ _ i (Agent.taskOfDoc t) Hm) as (t' & Ht' & Hmv).
  { by rewrite list_lookup_fmap, Ht. }
  apply moved_completed in Hmv; [|done]. subst t'.
  unfold Agent.toDoc; simpl. rewrite list_lookup_fmap, Ht'. simpl.
  by rewrite taskToDoc_ofDoc.
Qed.

(** ** When a request reaches Jira, and what a failed request leaves *)

Section call_facts.
Import Agent Sessions Frames.

Lemma dispatch_notJira env s task msg user :
  Text.isAffirmative msg = false ∨ state task ≠ AWAITING_CONFIRM →
  traced notJira (λ _, True) (dispatch env s task msg user).
Proof.
  intros Hgate. unfold dispatch. destruct (state task) eqn:Est.
  - unfold onAwaitingUpdate.
    eapply traced_bind; [by apply (traced_external _ _ (λ _, True))|].
    intros draftRaw _.
    eapply traced_bind; [|intros _ _; by apply traced_ret].
    by apply traced_save.
  - unfold onAwaitingEditDecision. destruct (Text.isAffirmative msg);
      (eapply traced_bind; [|intros _ _; by apply traced_ret]);
      by apply traced_save.
  - unfold onAwaitingEditInput.
    eapply traced_bind; [by apply (traced_external _ _ (λ _, True))|].
    intros updatedRaw _.
    eapply traced_bind; [|intros _ _; by apply traced_ret].
    by apply traced_save.
  - destruct Hgate as [Hmsg|]; [|done].
    unfold onAwaitingConfirm. rewrite Hmsg. by apply traced_ret.
  - by apply traced_ret.
Qed.

Lemma jiraCalls_notJira (evs : list Event) :
  Forall notJira evs → jiraCalls evs = [].
Proof.
  induction 1 as [|ev evs Hev _ IH]; [done|].
  unfold jiraCalls in *. by destruct ev; simpl; rewrite ?IH.
Qed.

Lemma currentTask_elem (d : SessionDoc) (t : TaskDoc) :
  currentTask d = Some t → t ∈ doc_tasks d.
Proof.
  unfold currentTask. destruct (_ <? 0); [done|]. apply list_elem_of_lookup_2.
Qed.

Lemma advanceResult_current (s : IAgentSession) :
  inRange s →
  is_Some (taskAt (tasks (advanceResult s).1) (currentIndex (advanceResult s).1)).
Proof.
  intros Hs. apply advanceResult_inRange in Hs. destruct Hs as [Hlo Hhi].
  rewrite taskAt_lookup by done. apply lookup_lt_is_Some. lia.
Qed.

Lemma dispatch_throw_store env s task msg user w e :
  inRange s →
  (dispatch env s task msg user w).1 = Throw e →
  store (dispatch env s task msg user w).2 = store w.
Proof.
  intros Hs. unfold dispatch. destruct (state task) eqn:Est.
  - unfold onAwaitingUpdate, generateSummary, mbind, M_bind.
    rewrite external_run. by destruct (Engine.generateSummary _ _ _ _).
  - unfold onAwaitingEditDecision. by destruct (Text.isAffirmative msg).
  - unfold onAwaitingEditInput, applyEdits, mbind, M_bind.
    rewrite external_run. by destruct (Engine.applyEdits _ _ _ _).
  - destruct (Text.isAffirmative msg) eqn:Hmsg.
    2: { unfold onAwaitingConfirm. by rewrite Hmsg. }
    destruct (onAwaitingConfirm_inv env s task msg user w Hmsg Hs)
      as [(Hst & _)|(u & task1 & evs & _ & _ & _ & _ & Hr)]; [done|].
    rewrite Hr. intros Hthrow.
    pose proof (advanceResult_current
                  (setTask (currentIndex s) (finalized task1) s)
                  (inRange_setTask _ _ _ Hs)) as [next Hnext].
    rewrite Hnext in Hthrow. by destruct (advanceResult _).2.
  - done.
Qed.
End call_facts.

(** X4. A [handleMessage] turn reaches Jira only to confirm: when the
    message is not affirmative, or no task of the addressed session is in
    AWAITING_CONFIRM, the turn makes no call to Jira at all (no comment,
    no transition lookup, no transition), whatever the engine answers. *)
Theorem jira_only_on_confirmation
    (env : Agent.Env) (st : gmap string Agent.SessionDoc) (sid msg user : string) :
  Text.isAffirmative msg = false
  ∨ (∀ d, st !! sid = Some d → Frames.noneAwaitsConfirm d) →
  Sessions.jiraCalls (Agent.trace (Sessions.turn env st sid msg user).2) = [].
Proof.
  intros Hgate. unfold Sessions.turn.
  destruct (st !! sid) as [d|] eqn:Hd.
  2: { by rewrite handleMessage_missing. }
  destruct (Agent.doc_tasks d) as [|t0 rest] eqn:Hts.
  { by rewrite (handleMessage_empty _ _ _ d). }
  assert (∀ t, t ∈ Agent.doc_tasks d →
            Text.isAffirmative msg = false
            ∨ Agent.state (Agent.taskOfDoc t) ≠ Agent.AWAITING_CONFIRM) as Hopen.
  { intros t Hin. destruct Hgate as [?|Hnone]; [by left|right].
    specialize (Hnone d eq_refl). unfold Frames.noneAwaitsConfirm in Hnone.
    rewrite Forall_forall in Hnone. by apply Hnone. }
  destruct (currentTask_or_drift d) as [[t Ht]|Hdrift].
  - rewrite (handleMessage_in_range _ _ _ d t) by done.
    destruct (dispatch_notJira env (Agent.ofDoc sid d) (Agent.taskOfDoc t) msg user
                (Hopen t (currentTask_elem _ _ Ht)) (Agent.fresh st))
      as (evs & -> & _ & Hevs & _).
    by apply jiraCalls_notJira.
  - rewrite (handleMessage_drift env (Agent.fresh st) sid d t0 rest msg user Hd Hts Hdrift).
    match goal with |- context [Agent.dispatch _ _ _ _ _ ?w1] =>
      destruct (dispatch_notJira env (Agent.ofDoc sid (Sessions.healed d))
                  (Agent.taskOfDoc t0) msg user
                  (Hopen t0 ltac:(rewrite Hts; left)) w1)
        as (evs & -> & _ & Hevs & _) end.
    simpl. by apply jiraCalls_notJira.
Qed.

Lemma jira_only_on_confirmation_witness :
  Sessions.jiraCalls
    (Agent.trace (Sessions.turn (Fixtures.env "Redirect fixed." "comment_and_status" [])
                    Samples.draftedStore "s1" "yes, go ahead" "u1").2) = [].
Proof.
  apply (jira_only_on_confirmation
           (Fixtures.env "Redirect fixed." "comment_and_status" [])
           Samples.draftedStore "s1" "yes, go ahead" "u1").
  right. intros d Hd. vm_compute in Hd. injection Hd as <-.
  repeat constructor. discriminate.
Defined.

(** X5. A turn that fails writes nothing but the index reset: when
    [handleMessage] rejects, the collection is as before the turn, except
    that a session whose index had drifted out of range is stored with
    [currentIndex] 0.  In particular a failed engine or Jira call leaves
    the task in the state it was in. *)
Theorem failed_turn_keeps_store
    (env : Agent.Env) (st : gmap string Agent.SessionDoc) (sid msg user : string)
    (e : Error) :
  (Sessions.turn env st sid msg user).1 = Throw e →
  Agent.store (Sessions.turn env st sid msg user).2 = st
  ∨ ∃ d, st !! sid = Some d ∧ Sessions.currentTask d = None
         ∧ Agent.store (Sessions.turn env st sid msg user).2
           = <[sid := Sessions.healed d]> st.
Proof.
  unfold Sessions.turn.
  destruct (st !! sid) as [d|] eqn:Hd.
  2: { rewrite handleMessage_missing by done. by left. }
  destruct (Agent.doc_tasks d) as [|t0 rest] eqn:Hts.
  { rewrite (handleMessage_empty _ _ _ d) by done. by left. }
  destruct (Sessions.currentTask d) as [t|] eqn:Ht.
  - rewrite (handleMessage_in_range _ _ _ d t) by done.
    intros Hthrow. left. eapply dispatch_throw_store; [|done].
    pose proof (currentTask_inv _ _ Ht). unfold Sessions.inRange; simpl.
    by rewrite length_map.
  - destruct (currentTask_or_drift d) as [[t Ht']|Hdrift]; [congruence|].
    rewrite (handleMessage_drift env (Agent.fresh st) sid d t0 rest msg user Hd Hts Hdrift).
    intros Hthrow. right. exists d. split; [done|]. split; [done|].
    erewrite dispatch_throw_store; [done| |done].
    unfold Sessions.inRange, Sessions.healed; simpl. rewrite Hts. simpl. lia.
Qed.

Lemma failed_turn_keeps_store_witness :
  Agent.store (Sessions.turn Samples.offlineEnv Fixtures.confirmStore
                 "s1" "yes" "u1").2 = Fixtures.confirmStore
  ∨ ∃ d, Fixtures.confirmStore !! "s1" = Some d ∧ Sessions.currentTask d = None
         ∧ Agent.store (Sessions.turn Samples.offlineEnv Fixtures.confirmStore
                          "s1" "yes" "u1").2
           = <["s1" := Sessions.healed d]> Fixtures.confirmStore.
Proof.
  apply (failed_turn_keeps_store Samples.offlineEnv Fixtures.confirmStore
           "s1" "yes" "u1" Fixtures.timeout).
  reflexivity.
Defined.

(** X6. The commit of a comment and a status change is not atomic: when
    the update is classified [comment_and_status], the comment is posted
    and the lookup of the transition to Done then fails, the turn rejects
    with that error after the comment has reached Jira; nothing is saved,
    so the task still awaits confirmation and a repeated confirmation runs
    the same calls and posts the comment again. *)
Theorem comment_posted_before_failed_transition
    (env : Agent.Env) (st : gmap string Agent.SessionDoc) (sid msg user : string)
    (d : Agent.SessionDoc) (t : Agent.TaskDoc) (e : Error) :
  st !! sid = Some d →
  Sessions.currentTask d = Some t →
  Agent.doc_state t = Agent.AWAITING_CONFIRM →
  Agent.doc_status t ≠ "Done" →
  Text.isAffirmative msg = true →
  Engine.analyzeUpdateType (Agent.engine env) (Agent.doc_draftSummary t) user
    = Return "comment_and_status" →
  Jira.addComment (Agent.jira env) (Agent.doc_taskId t) (Agent.doc_draftSummary t) user
    = Return tt →
  Jira.getTransitionId (Agent.jira env) (Agent.doc_taskId t) "Done" user = Throw e →
  Sessions.turn env st sid msg user
  = (Throw e,
     Agent.mkWorld st
       [Agent.EvEngine (Engine.analyzeRequest (Agent.doc_draftSummary t) user) true;
        Agent.EvJira (Jira.CAddComment (Agent.doc_taskId t) (Agent.doc_draftSummary t)) true;
        Agent.EvJira (Jira.CGetTransitionId (Agent.doc_taskId t) "Done") false])
  ∧ Sessions.turn env (Agent.store (Sessions.turn env st sid msg user).2) sid msg user
    = Sessions.turn env st sid msg user.
Proof.
  intros Hd Ht Hst Hstatus Hmsg Hu Hcomment Hlookup.
  assert (Sessions.turn env st sid msg user
          = (Throw e,
             Agent.mkWorld st
               [Agent.EvEngine (Engine.analyzeRequest (Agent.doc_draftSummary t) user) true;
                Agent.EvJira (Jira.CAddComment (Agent.doc_taskId t)
                                (Agent.doc_draftSummary t)) true;
                Agent.EvJira (Jira.CGetTransitionId (Agent.doc_taskId t) "Done") false]))
    as Hturn.
  { unfold Sessions.turn.
    rewrite (handleMessage_in_range env (Agent.fresh st) sid d t msg user Hd Ht).
    unfold Agent.dispatch. simpl. rewrite Hst.
    unfold Agent.onAwaitingConfirm. rewrite Hmsg. simpl.
    unfold Agent.analyzeUpdateType, mbind, Agent.M_bind. rewrite external_run.
    simpl. rewrite Hu. simpl.
    unfold Agent.commit, Agent.addComment, Agent.transitionToDone,
      Agent.getTransitionId, mbind, Agent.M_bind. simpl.
    rewrite external_run. rewrite Hcomment. simpl.
    apply String.eqb_neq in Hstatus. rewrite Hstatus. simpl.
    rewrite external_run. rewrite Hlookup. done. }
  split; [done|]. by rewrite Hturn.
Qed.

Lemma comment_posted_before_failed_transition_witness :
  Sessions.turn Samples.stuckEnv Fixtures.confirmStore "s1" "yes" "u1"
  = (Throw (Err ("Transition to status " +:+ Js.dq +:+ "Done" +:+ Js.dq
                 +:+ " not found")),
     Agent.mkWorld Fixtures.confirmStore
       [Agent.EvEngine
          (Engine.analyzeRequest (Agent.doc_draftSummary Fixtures.confirmTask) "u1") true;
        Agent.EvJira (Jira.CAddComment (Agent.doc_taskId Fixtures.confirmTask)
                        (Agent.doc_draftSummary Fixtures.confirmTask)) true;
        Agent.EvJira (Jira.CGetTransitionId (Agent.doc_taskId Fixtures.confirmTask)
                        "Done") false])
  ∧ Sessions.turn Samples.stuckEnv
      (Agent.store (Sessions.turn Samples.stuckEnv Fixtures.confirmStore
                      "s1" "yes" "u1").2) "s1" "yes" "u1"
    = Sessions.turn Samples.stuckEnv Fixtures.confirmStore "s1" "yes" "u1".
Proof.
  apply (comment_posted_before_failed_transition Samples.stuckEnv
           Fixtures.confirmStore "s1" "yes" "u1" Fixtures.confirmSession
           Fixtures.confirmTask).
  - reflexivity.
  - reflexivity.
  - reflexivity.
  - discriminate.
  - reflexivity.
  - reflexivity.
  - reflexivity.
  - reflexivity.
Defined.

(** ** Turns that answer from the session alone *)

Section quiet_facts.
Import Agent Sessions Frames.

Lemma toDoc_setTask sid (d : SessionDoc) (x : ITaskState) :
  toDoc (setTask (doc_currentIndex d) x (ofDoc sid d))
  = mkSessionDoc (doc_userId d) (doc_currentIndex d)
      (<[Z.to_nat (doc_currentIndex d) := taskToDoc x]> (doc_tasks d)).
Proof.
  unfold toDoc, setTask, ofDoc; simpl. f_equal.
  change (map taskToDoc ?l) with (taskToDoc <$> l).
  rewrite list_fmap_insert. f_equal. apply tasksToDoc_ofDoc.
Qed.

Lemma currentTask_setTask (s : IAgentSession) (x : ITaskState) :
  inRange s →
  currentTask (toDoc (setTask (currentIndex s) x s)) = Some (taskToDoc x).
Proof.
  intros [Hlo Hhi]. unfold currentTask, toDoc, setTask; simpl.
  destruct (_ <? 0) eqn:E; [lia|].
  change (map taskToDoc ?l) with (taskToDoc <$> l).
  rewrite list_lookup_fmap, list_lookup_insert_eq by lia. done.
Qed.

Lemma advanceResult_stays (s : IAgentSession) :
  (advanceResult s).2 = false → (advanceResult s).1 = s.
Proof. unfold advanceResult. by destruct (list_find _ _) as [[k next]|]. Qed.

(** Only the confirming branch answers that all tasks are done, and only
    when the loop found no task to advance to. *)
Lemma dispatch_allDone env s task msg user w s' :
  inRange s →
  (dispatch env s task msg user w).1 = Return (allDoneReply, s') →
  ∃ task1, s' = setTask (currentIndex s) (finalized task1) s
           ∧ store (dispatch env s task msg user w).2
             = <[_id s := toDoc s']> (store w).
Proof.
  intros Hs. unfold dispatch. destruct (state task) eqn:Est.
  - unfold onAwaitingUpdate, generateSummary, mbind, M_bind.
    rewrite external_run. by destruct (Engine.generateSummary _ _ _ _).
  - unfold onAwaitingEditDecision. by destruct (Text.isAffirmative msg).
  - unfold onAwaitingEditInput, applyEdits, mbind, M_bind.
    rewrite external_run. by destruct (Engine.applyEdits _ _ _ _).
  - destruct (Text.isAffirmative msg) eqn:Hmsg.
    2: { unfold onAwaitingConfirm. by rewrite Hmsg. }
    destruct (onAwaitingConfirm_inv env s task msg user w Hmsg Hs)
      as [(_ & _ & e & He)|(u & task1 & evs & _ & _ & _ & Hw & Hr)].
    { rewrite He. done. }
    rewrite Hr, Hw. intros Hreply. exists task1.
    pose proof (advanceResult_stays (setTask (currentIndex s) (finalized task1) s))
      as Hstay.
    destruct (advanceResult _) as [s2 b]; simpl in *. destruct b.
    { by destruct (taskAt (tasks s2) _). }
    injection Hreply as <-. rewrite Hstay by done. done.
  - done.
Qed.
End quiet_facts.

(** X7. In AWAITING_EDIT_DECISION the draft is settled without the engine
    or Jira: an affirmative message moves the current task to
    AWAITING_EDIT_INPUT and every other message to AWAITING_CONFIRM, with
    the confirmation prompt quoting the stored draft.  The turn saves the
    session once; the stored session differs from the one before in the
    state of the current task only. *)
Theorem edit_decision_changes_state_only
    (env : Agent.Env) (st : gmap string Agent.SessionDoc) (sid msg user : string)
    (d : Agent.SessionDoc) (t : Agent.TaskDoc) :
  st !! sid = Some d →
  Sessions.currentTask d = Some t →
  Agent.doc_state t = Agent.AWAITING_EDIT_DECISION →
  let next := if Text.isAffirmative msg
              then Agent.AWAITING_EDIT_INPUT else Agent.AWAITING_CONFIRM in
  let d' := Agent.mkSessionDoc (Agent.doc_userId d) (Agent.doc_currentIndex d)
              (<[Z.to_nat (Agent.doc_currentIndex d) :=
                   Agent.mkTaskDoc (Agent.doc_taskId t) (Agent.doc_title t)
                     (Agent.doc_status t) (Agent.doc_createdAt t)
                     (Agent.doc_updatedAt t) (Agent.doc_draftSummary t)
                     (Agent.doc_finalSummary t) next]> (Agent.doc_tasks d)) in
  ∃ s', Sessions.turn env st sid msg user
        = (Return (if Text.isAffirmative msg then Agent.editPromptReply
                   else Agent.confirmPromptReply (Agent.doc_draftSummary t), s'),
           Agent.mkWorld (<[sid := d']> st) [Agent.EvSave sid d'])
        ∧ Agent.toDoc s' = d'.
Proof.
  intros Hd Ht Hst next d'. unfold Sessions.turn.
  rewrite (handleMessage_in_range env (Agent.fresh st) sid d t msg user Hd Ht).
  unfold Agent.dispatch. simpl. rewrite Hst.
  exists (Agent.setTask (Agent.doc_currentIndex d)
            (Agent.set_state next (Agent.taskOfDoc t)) (Agent.ofDoc sid d)).
  assert (Agent.toDoc (Agent.setTask (Agent.doc_currentIndex d)
                         (Agent.set_state next (Agent.taskOfDoc t))
                         (Agent.ofDoc sid d)) = d') as Hdoc.
  { by rewrite toDoc_setTask. }
  split; [|done]. rewrite <- Hdoc.
  unfold Agent.onAwaitingEditDecision, next.
  by destruct (Text.isAffirmative msg).
Qed.

Lemma edit_decision_changes_state_only_witness :
  ∃ s', Sessions.turn Samples.offlineEnv Samples.draftedStore "s1" "looks good" "u1"
        = (Return (Agent.confirmPromptReply (Some "Redirect fixed."), s'),
           Agent.mkWorld
             (<["s1" := Agent.mkSessionDoc "u1" 0
                          [Agent.mkTaskDoc "KT-2" "Fix login redirect" "In Progress"
                             None None (Some "Redirect fixed.") None
                             Agent.AWAITING_CONFIRM]]> Samples.draftedStore)
             [Agent.EvSave "s1"
                (Agent.mkSessionDoc "u1" 0
                   [Agent.mkTaskDoc "KT-2" "Fix login redirect" "In Progress"
                      None None (Some "Redirect fixed.") None
                      Agent.AWAITING_CONFIRM])])
        ∧ Agent.toDoc s'
          = Agent.mkSessionDoc "u1" 0
              [Agent.mkTaskDoc "KT-2" "Fix login redirect" "In Progress"
                 None None (Some "Redirect fixed.") None Agent.AWAITING_CONFIRM].
Proof.
  apply (edit_decision_changes_state_only Samples.offlineEnv Samples.draftedStore
           "s1" "looks good" "u1"
           (Agent.mkSessionDoc "u1" 0 [Fixtures.secondTask]) Fixtures.secondTask).
  - reflexivity.
  - reflexivity.
  - reflexivity.
Defined.

(** X8. Once a turn has answered that all tasks are done, the session is
    inert: every later message to it, from any user and with any engine
    and Jira, is answered "All tasks are complete." with the session as
    stored, and neither writes to the collection nor calls the engine or
    Jira. *)
Theorem all_done_then_inert
    (env : Agent.Env) (st : gmap string Agent.SessionDoc) (sid msg user : string)
    (s' : Agent.IAgentSession) :
  (Sessions.turn env st sid msg user).1 = Return (Agent.allDoneReply, s') →
  ∀ env' msg' user',
    Sessions.turn env' (Agent.store (Sessions.turn env st sid msg user).2)
      sid msg' user'
    = (Return (Agent.completeReply, Frames.reloaded s'),
       Agent.fresh (Agent.store (Sessions.turn env st sid msg user).2)).
Proof.
  unfold Sessions.turn. intros Hreply env' msg' user'.
  destruct (st !! sid) as [d|] eqn:Hd.
  2: { by rewrite handleMessage_missing in Hreply. }
  destruct (Agent.doc_tasks d) as [|t0 rest] eqn:Hts.
  { by rewrite (handleMessage_empty _ _ _ d) in Hreply. }
  destruct (handleMessage_as_dispatch env st sid d msg user Hd)
    as (d0 & t0' & evs0 & Hts0 & Ht0 & Hrun); [by rewrite Hts|].
  rewrite Hrun in *.
  assert (Sessions.inRange (Agent.ofDoc sid d0)) as Hs.
  { pose proof (currentTask_inv _ _ Ht0). unfold Sessions.inRange; simpl.
    by rewrite length_map. }
  destruct (dispatch_allDone _ _ _ _ _ _ _ Hs Hreply) as (task1 & Hs' & Hstore).
  rewrite Hstore. simpl in *.
  rewrite (handleMessage_in_range env' _ sid (Agent.toDoc s')
             (Agent.taskToDoc (Sessions.finalized task1))).
  - unfold Agent.dispatch. simpl. unfold Frames.reloaded. by rewrite Hs'.
  - simpl. by rewrite lookup_insert_eq.
  - rewrite Hs'. by apply (currentTask_setTask (Agent.ofDoc sid d0)).
Qed.

Lemma all_done_then_inert_witness :
  Sessions.turn Samples.offlineEnv
    (Agent.store (Sessions.turn (Fixtures.env "" "comment_only" [])
                    Fixtures.confirmStore "s1" "yes" "u1").2)
    "s1" "anything else?" "u2"
  = (Return (Agent.completeReply,
             Frames.reloaded
               (Agent.mkSession "s1" "u1" 0
                  [Agent.mkTask "KT-1" "Add Analytics events" "In Progress" None
                     None None (Some "Added tracking events.")
                     (Some "Added tracking events.") Agent.COMPLETED])),
     Agent.fresh (Agent.store (Sessions.turn (Fixtures.env "" "comment_only" [])
                                 Fixtures.confirmStore "s1" "yes" "u1").2)).
Proof.
  apply (all_done_then_inert (Fixtures.env "" "comment_only" [])
           Fixtures.confirmStore "s1" "yes" "u1").
  reflexivity.
Defined.

(** ** Saving, loading and starting a session *)

Section create_facts.
Import Agent.

Lemma failures_nil env user pending :
  failures env user pending = [] →
  user ≠ EmptyString
  ∧ Forall (λ t, Jira.taskId t ≠ EmptyString ∧ Jira.title t ≠ EmptyString
                 ∧ Jira.status t ≠ EmptyString
                 ∧ is_Some (castOptDate env (Jira.createdAt t))
                 ∧ is_Some (castOptDate env (Jira.updatedAt t))) pending.
Proof.
  unfold failures. intros [Huser Htasks]%app_eq_nil. split.
  { by destruct user. }
  apply Forall_lookup. intros i t Hi.
  assert (taskFailures env i t = []) as Hnone.
  { destruct (taskFailures env i t) as [|f fs] eqn:Hf; [done|].
    assert (In f (concat (imap (taskFailures env) pending))) as Hin.
    { apply in_concat. exists (taskFailures env i t). split.
      - apply list_elem_of_In. by apply elem_of_lookup_imap_2.
      - rewrite Hf. by left. }
    by rewrite Htasks in Hin. }
  unfold taskFailures in Hnone.
  apply app_eq_nil in Hnone as [H1 Hnone].
  apply app_eq_nil in Hnone as [H2 Hnone].
  apply app_eq_nil in Hnone as [H3 Hnone].
  apply app_eq_nil in Hnone as [H4 H5].
  split; [by destruct (Jira.taskId t)|]. split; [by destruct (Jira.title t)|].
  split; [by destruct (Jira.status t)|].
  split; [by destruct (castOptDate env (Jira.createdAt t))|].
  by destruct (castOptDate env (Jira.updatedAt t)).
Qed.

End create_facts.

(** X10. [startSession] stores what it returns, or nothing.  When it
    returns, the session is stored under its id and loads back as
    returned; it belongs to the user, points at index 0 and has one task
    per pending issue of Jira's search, in order, each awaiting an update
    with no draft, no final summary and no completion flag and with a
    non-empty [taskId], [title] and [status]; [getPendingTasksCount] for
    the same user and site is the number of its tasks.  When it rejects,
    the collection is unchanged.  It rejects with a validation error,
    although the search returned and [getPendingTasksCount] counts the
    issues, when the user id is empty or an issue has an empty key, an
    empty summary or no status name (which [getPendingTasks] maps to the
    empty string). *)
Theorem start_session_outcome
    (env : Agent.Env) (user : string) (st : gmap string Agent.SessionDoc) :
  (∀ s, (Agent.startSession env user (Agent.fresh st)).1 = Return s →
     Agent.store (Agent.startSession env user (Agent.fresh st)).2
       = <[Agent._id s := Agent.toDoc s]> st
     ∧ Frames.reloaded s = s
     ∧ Agent._id s = Agent.objectId env
     ∧ Agent.userId s = user
     ∧ Agent.currentIndex s = 0
     ∧ Forall (λ t, Agent.state t = Agent.AWAITING_UPDATE
                    ∧ Agent.draftSummary t = None
                    ∧ Agent.finalSummary t = None
                    ∧ Agent.pendingStatusDone t = None
                    ∧ Agent.taskId t ≠ EmptyString
                    ∧ Agent.title t ≠ EmptyString
                    ∧ Agent.status t ≠ EmptyString) (Agent.tasks s)
     ∧ (∃ pending,
          Jira.getPendingTasks (Agent.jira env) user = Return pending
          ∧ map Agent.taskId (Agent.tasks s) = map Jira.taskId pending
          ∧ map Agent.title (Agent.tasks s) = map Jira.title pending
          ∧ map Agent.status (Agent.tasks s) = map Jira.status pending)
     ∧ (Controller.getPendingTasksCount env user (Agent.fresh st)).1
       = Return (length (Agent.tasks s)))
  ∧ (∀ e, (Agent.startSession env user (Agent.fresh st)).1 = Throw e →
       Agent.store (Agent.startSession env user (Agent.fresh st)).2 = st)
  ∧ (∀ pending,
       Jira.getPendingTasks (Agent.jira env) user = Return pending →
       user = EmptyString
       ∨ (∃ t, t ∈ pending
               ∧ (Jira.taskId t = EmptyString ∨ Jira.title t = EmptyString
                  ∨ Jira.status t = EmptyString)) →
       (∃ text, (Agent.startSession env user (Agent.fresh st)).1
                = Throw (ValidationErr text))
       ∧ (Controller.getPendingTasksCount env user (Agent.fresh st)).1
         = Return (length pending)).
Proof.
  unfold Agent.startSession, Controller.getPendingTasksCount, Agent.getPendingTasks,
    mbind, Agent.M_bind.
  rewrite !external_run.
  destruct (Jira.getPendingTasks (Agent.jira env) user) as [pending|e0]; simpl.
  2: { split; [done|]. split; [by intros e [= <-]|done]. }
  unfold Agent.create.
  destruct (Agent.failures env user pending) as [|f fs] eqn:Hf; simpl.
  - apply failures_nil in Hf as [Huser Hvalid].
    split; [|split; [done|]].
    + intros s [= <-]. simpl.
      split; [done|]. split.
      { unfold Frames.reloaded, Agent.ofDoc, Agent.toDoc; simpl. f_equal.
        rewrite !map_map. apply map_ext. by intros []. }
      split; [done|]. split; [done|]. split; [done|]. split.
      { apply Forall_fmap. eapply Forall_impl; [exact Hvalid|].
        intros t (? & ? & ? & _). simpl. by repeat split. }
      split.
      { exists pending. rewrite !map_map. by repeat split. }
      by rewrite length_map.
    + intros pending' [= <-] [?|(t & Hin & Hbad)]; [done|].
      rewrite Forall_forall in Hvalid. destruct (Hvalid t Hin) as (? & ? & ? & _).
      by destruct Hbad as [?|[?|?]].
  - split; [done|]. split; [done|].
    intros pending' [= <-] _. split; [by eexists|done].
Qed.

(** ** Jira: the lookup of a transition *)

Section transition_facts.
Import Jira.

Lemma find_first {A} (f : A → bool) (l : list A) (x : A) :
  List.find f l = Some x ↔
  ∃ i, l !! i = Some x ∧ f x = true
       ∧ ∀ j y, (j < i)%nat → l !! j = Some y → f y = false.
Proof.
  induction l as [|a l IH]; simpl.
  { split; [done|]. by intros (i & Hi & _). }
  destruct (f a) eqn:Ha.
  - split.
    + intros [= <-]. exists 0%nat. split; [done|]. split; [done|]. intros; lia.
    + intros ([|i] & Hi & Hx & Hmin).
      * by injection Hi as <-.
      * specialize (Hmin 0%nat a ltac:(lia) eq_refl). congruence.
  - rewrite IH. split.
    + intros (i & Hi & Hx & Hmin). exists (S i). split; [done|]. split; [done|].
      intros [|j] y Hj Hy; [by injection Hy as <-|]. apply (Hmin j); [lia|done].
    + intros ([|i] & Hi & Hx & Hmin).
      * injection Hi as <-. congruence.
      * exists i. split; [done|]. split; [done|].
        intros j y Hj Hy. apply (Hmin (S j)); [lia|done].
Qed.

Lemma find_none {A} (f : A → bool) (l : list A) :
  List.find f l = None ↔ ∀ y, y ∈ l → f y = false.
Proof.
  induction l as [|a l IH]; simpl.
  { split; [|done]. intros _ y Hy. by apply elem_of_nil in Hy. }
  destruct (f a) eqn:Ha.
  - split; [done|]. intros Hall. specialize (Hall a ltac:(left)). congruence.
  - rewrite IH. split.
    + intros Hall y Hy. apply elem_of_cons in Hy as [->|Hy]; [done|by apply Hall].
    + intros Hall y Hy. apply Hall. by right.
Qed.
End transition_facts.

(** X11. For a user with a Jira integration whose resource and
    transitions can be read, [getTransitionId] returns the id of the
    first listed transition whose target status has exactly the given
    name (the comparison is case-sensitive), and it rejects with
    'Transition to status "<name>" not found' exactly when no listed
    transition has that target. *)
Theorem getTransitionId_first_match
    (api : Jira.Api) (task statusName user accountId cloudId : string)
    (transitions : list Jira.Transition) :
  Jira.integration api user = Some accountId →
  Jira.cloudResource api user = Return cloudId →
  Jira.getTransitions api task = Return transitions →
  (∀ transitionId,
     Jira.getTransitionId api task statusName user = Return transitionId ↔
     ∃ i t, transitions !! i = Some t ∧ Jira.toName t = statusName
            ∧ Jira.id t = transitionId
            ∧ ∀ j t', (j < i)%nat → transitions !! j = Some t' →
                Jira.toName t' ≠ statusName)
  ∧ ((∀ t, t ∈ transitions → Jira.toName t ≠ statusName) ↔
     Jira.getTransitionId api task statusName user
     = Throw (Err ("Transition to status " +:+ Js.dq +:+ statusName +:+ Js.dq
                     +:+ " not found"))).
Proof.
  intros Hint Hres Hts. unfold Jira.getTransitionId. rewrite Hint, Hres, Hts.
  destruct (List.find _ transitions) as [t|] eqn:Hfind.
  - apply find_first in Hfind as (i & Hi & Hname & Hmin).
    apply String.eqb_eq in Hname. split.
    + intros transitionId. split.
      * intros [= <-]. exists i, t. split; [done|]. split; [done|]. split; [done|].
        intros j t' Hj Ht'. apply String.eqb_neq. by eapply Hmin.
      * intros (i' & t' & Hi' & Hname' & <- & Hmin').
        destruct (Nat.lt_trichotomy i i') as [Hlt|[->|Hgt]].
        -- by destruct (Hmin' i t Hlt Hi).
        -- rewrite Hi in Hi'. by injection Hi' as <-.
        -- apply String.eqb_eq in Hname'.
           specialize (Hmin i' t' Hgt Hi'). simpl in Hmin. congruence.
    + split; [|done]. intros Hnone. destruct (Hnone t); [|done].
      by eapply list_elem_of_lookup_2.
  - pose proof (proj1 (find_none _ _) Hfind) as Hnone. split.
    + intros transitionId. split; [done|].
      intros (i & t & Hi & Hname & _).
      apply list_elem_of_lookup_2 in Hi. apply Hnone in Hi.
      apply String.eqb_neq in Hi. done.
    + split; [done|]. intros _ t Ht. apply String.eqb_neq. by apply Hnone.
Qed.

Lemma getTransitionId_first_match_witness :
  (∀ transitionId,
     Jira.getTransitionId (Fixtures.healthyJira []) "KT-1" "Done" "u1"
       = Return transitionId ↔
     ∃ i t, [Jira.mkTransition "11" "In Review"; Jira.mkTransition "31" "Done"] !! i
              = Some t
            ∧ Jira.toName t = "Done" ∧ Jira.id t = transitionId
            ∧ ∀ j t', (j < i)%nat →
                [Jira.mkTransition "11" "In Review"; Jira.mkTransition "31" "Done"] !! j
                  = Some t' →
                Jira.toName t' ≠ "Done")
  ∧ ((∀ t, t ∈ [Jira.mkTransition "11" "In Review"; Jira.mkTransition "31" "Done"] →
        Jira.toName t ≠ "Done") ↔
     Jira.getTransitionId (Fixtures.healthyJira []) "KT-1" "Done" "u1"
     = Throw (Err ("Transition to status " +:+ Js.dq +:+ "Done" +:+ Js.dq
                     +:+ " not found"))).
Proof.
  apply (getTransitionId_first_match (Fixtures.healthyJira []) "KT-1" "Done" "u1"
           "acct-1" "cloud-1").
  - reflexivity.
  - reflexivity.
  - reflexivity.
Defined.

(** ** AIService: the rate limit and the attempt that decides *)

Section decisive_facts.
Import AIService.
Variable engine : nat → Outcome Engine.AIEngineProcessResponse.
Local Arguments isRetryable : simpl never.

Lemma attempts_decisive (k : nat) : ∀ remaining attempt payload lastError,
  (k < remaining)%nat →
  (∀ a, (attempt ≤ a < attempt + k)%nat →
     ∃ e, engine a = Throw e ∧ isRetryable (Some e) = true) →
  match engine (attempt + k) with
  | Return response =>
      (attempts engine remaining attempt payload lastError).1
      = inl (if Engine.success response
             then mapSuccess response else engineError response)
      ∧ engineCalls (attempts engine remaining attempt payload lastError).2 = S k
  | Throw e =>
      isRetryable (Some e) = false ∨ remaining = S k →
      (attempts engine remaining attempt payload lastError).1 = inr (Some e)
      ∧ engineCalls (attempts engine remaining attempt payload lastError).2 = S k
  end.
Proof.
  induction k as [|k IH]; intros remaining attempt payload lastError Hk Hfail.
  - destruct remaining as [|r]; [lia|]. rewrite Nat.add_0_r. simpl.
    destruct (engine attempt) as [response|e]; [done|].
    destruct (isRetryable (Some e)) eqn:Hre; simpl; [|done].
    intros [?|[= ->]]; [done|]. done.
  - destruct remaining as [|r]; [lia|].
    destruct (Hfail attempt ltac:(lia)) as (e0 & He0 & Hre0).
    simpl. rewrite He0, Hre0. simpl.
    specialize (IH r (S attempt) payload (Some e0) ltac:(lia)).
    replace (attempt + S k)%nat with (S attempt + k)%nat by lia.
    assert (∀ a, (S attempt ≤ a < S attempt + k)%nat →
              ∃ e, engine a = Throw e ∧ isRetryable (Some e) = true) as Hrest.
    { intros a Ha. apply Hfail. lia. }
    specialize (IH Hrest). simpl in IH.
    destruct (attempts engine r (S attempt) payload (Some e0)) as [res evs].
    simpl in *. unfold engineCalls in *. simpl.
    destruct (engine (S (attempt + k))).
    + destruct IH as [-> ->]. done.
    + intros Hlast. destruct IH as [-> ->]; [|done].
      destruct Hlast as [?|?]; [by left|right; lia].
Qed.
Lemma attempts_events : ∀ remaining attempt payload lastError,
  Forall (λ ev, match ev with Incr _ => False | _ => True end)
    (attempts engine remaining attempt payload lastError).2.
Proof.
  induction remaining as [|r IH]; intros attempt payload lastError; [done|].
  simpl. destruct (engine attempt) as [response|e]; [by repeat constructor|].
  destruct (isRetryable (Some e)); simpl; [|by repeat constructor].
  specialize (IH (S attempt) payload (Some e)).
  destruct (attempts engine r (S attempt) payload (Some e)) as [res evs].
  simpl in *. by repeat constructor.
Qed.
End decisive_facts.

(** X12. The rate limit counts every request of an identified user, the
    refused ones included: the counter [rate:<userId>] goes up by one per
    call of [processMessage]; once it exceeds 100 the call fails with the
    code RATE_LIMIT_EXCEEDED and the engine is not called; up to 100 the
    engine is called.  A request without a user id touches no counter. *)
Theorem rate_limit_counts_and_blocks
    (engine : nat → Outcome Engine.AIEngineProcessResponse)
    (request : AIService.AIRequest) (redis : AIService.Redis)
    (ctx : AIService.Context) :
  AIService.context request = Some ctx →
  Js.truthy (AIService.userId ctx) = true →
  let key := "rate:" +:+ AIService.userId ctx in
  let n := default 0 (redis !! key) + 1 in
  (AIService.processMessage engine request redis).1.2 = <[key := n]> redis
  ∧ (100 < n →
       AIService.processMessage engine request redis
       = (AIService.Failed (AIService.mkFailure "RATE_LIMIT_EXCEEDED" "Rate limit exceeded"),
          <[key := n]> redis, [AIService.Incr key]))
  ∧ (n ≤ 100 →
       ∃ evs, (AIService.processMessage engine request redis).2
              = AIService.Incr key :: evs
              ∧ (1 ≤ AIService.engineCalls evs)%nat)
  ∧ (∀ anonymous,
       Js.truthyOpt (AIService.userId <$> AIService.context anonymous) = false →
       (AIService.processMessage engine anonymous redis).1.2 = redis
       ∧ ∀ key', AIService.Incr key'
                 ∉ (AIService.processMessage engine anonymous redis).2).
Proof.
  intros Hctx Huser key n.
  assert (AIService.enforceRateLimits request redis
          = (if 100 <? n then Some (Err "Rate limit exceeded") else None,
             <[key := n]> redis, [AIService.Incr key])) as Hrate.
  { unfold AIService.enforceRateLimits. rewrite Hctx, Huser. simpl.
    fold key. fold n. by destruct (100 <? n). }
  split; [|split; [|split]].
  - unfold AIService.processMessage. rewrite Hrate.
    destruct (100 <? n); [done|].
    by destruct (AIService.attempts _ _ _ _ _) as [[response|error] evs].
  - intros Hn. unfold AIService.processMessage. rewrite Hrate.
    apply Z.ltb_lt in Hn. rewrite Hn. done.
  - intros Hn. unfold AIService.processMessage. rewrite Hrate.
    apply Z.ltb_ge in Hn. rewrite Hn.
    destruct (attempts_spec engine AIService.retryAttempts 0
                (AIService.buildPayload request) None) as (k & _ & _ & Hc & _).
    destruct (AIService.attempts _ _ _ _ _) as [[response|error] evs];
      simpl in *; exists evs; (split; [done|]); rewrite Hc; lia.
  - intros anonymous Hanon.
    assert (AIService.enforceRateLimits anonymous redis = (None, redis, [])) as Hfree.
    { unfold AIService.enforceRateLimits.
      destruct (AIService.context anonymous) as [ctx'|]; [|done].
      simpl in Hanon. by rewrite Hanon. }
    unfold AIService.processMessage. rewrite Hfree.
    pose proof (attempts_events engine AIService.retryAttempts 0
                  (AIService.buildPayload anonymous) None) as Hevs.
    destruct (AIService.attempts _ _ _ _ _) as [[response|error] evs];
      simpl in *; (split; [done|]); intros key' Hin;
      rewrite Forall_forall in Hevs; by apply Hevs in Hin.
Qed.

Lemma rate_limit_counts_and_blocks_witness :
  (AIService.processMessage Fixtures.flakyEngine Fixtures.hello Samples.busyCounters).1.2
  = <["rate:u1" := 101]> Samples.busyCounters
  ∧ (100 < 101 →
       AIService.processMessage Fixtures.flakyEngine Fixtures.hello Samples.busyCounters
       = (AIService.Failed (AIService.mkFailure "RATE_LIMIT_EXCEEDED" "Rate limit exceeded"),
          <["rate:u1" := 101]> Samples.busyCounters, [AIService.Incr "rate:u1"]))
  ∧ (101 ≤ 100 →
       ∃ evs, (AIService.processMessage Fixtures.flakyEngine Fixtures.hello
                 Samples.busyCounters).2
              = AIService.Incr "rate:u1" :: evs
              ∧ (1 ≤ AIService.engineCalls evs)%nat)
  ∧ (∀ anonymous,
       Js.truthyOpt (AIService.userId <$> AIService.context anonymous) = false →
       (AIService.processMessage Fixtures.flakyEngine anonymous Samples.busyCounters).1.2
       = Samples.busyCounters
       ∧ ∀ key', AIService.Incr key'
                 ∉ (AIService.processMessage Fixtures.flakyEngine anonymous
                      Samples.busyCounters).2).
Proof.
  apply (rate_limit_counts_and_blocks Fixtures.flakyEngine Fixtures.hello
           Samples.busyCounters (AIService.mkContext "u1" None None)).
  - reflexivity.
  - reflexivity.
Defined.

(** X13. The first attempt that does not fail with a retryable error
    decides the response.  When the attempts before attempt [k] (counted
    from 0, [k < 3]) all failed retryably: an answer of the engine at
    attempt [k] is final, mapped to the data when it has [success] and to
    a failure carrying the engine's [error] and [error_message] otherwise
    (an answer with [success: false] is never retried); an error at
    attempt [k] that is not retryable, or any error at the last attempt,
    is reported as the failure of the call with its own message.  In each
    case the engine was called [k + 1] times. *)
Theorem decisive_attempt_gives_response
    (engine : nat → Outcome Engine.AIEngineProcessResponse)
    (request : AIService.AIRequest) (redis : AIService.Redis) (k : nat) :
  (AIService.enforceRateLimits request redis).1.1 = None →
  (k < 3)%nat →
  (∀ a, (a < k)%nat →
     ∃ e, engine a = Throw e ∧ AIService.isRetryable (Some e) = true) →
  match engine k with
  | Return response =>
      (AIService.processMessage engine request redis).1.1
      = (if Engine.success response
         then AIService.mapSuccess response else AIService.engineError response)
      ∧ AIService.engineCalls (AIService.processMessage engine request redis).2 = S k
  | Throw e =>
      AIService.isRetryable (Some e) = false ∨ k = 2%nat →
      (AIService.processMessage engine request redis).1.1 = AIService.caught (Some e)
      ∧ AIService.engineCalls (AIService.processMessage engine request redis).2 = S k
  end.
Proof.
  intros Hrate Hk Hfail.
  pose proof (enforceRateLimits_events request redis) as [Hc0 _].
  pose proof (attempts_decisive engine k AIService.retryAttempts 0
                (AIService.buildPayload request) None Hk) as Hdec.
  change (0 + k)%nat with k in Hdec. unfold AIService.processMessage.
  destruct (AIService.enforceRateLimits request redis) as [[err redis'] evs0].
  simpl in Hrate, Hc0. subst err.
  specialize (Hdec ltac:(intros a Ha; apply Hfail; lia)).
  destruct (engine k) as [response|e].
  - destruct Hdec as [Hres Hcalls].
    destruct (AIService.attempts _ _ _ _ _) as [res evs]. simpl in *. subst res.
    simpl. by rewrite engineCalls_app, Hc0, Hcalls.
  - intros Hlast. destruct Hdec as [Hres Hcalls].
    { destruct Hlast as [?| ->]; [by left|by right]. }
    destruct (AIService.attempts _ _ _ _ _) as [res evs]. simpl in *. subst res.
    simpl. by rewrite engineCalls_app, Hc0, Hcalls.
Qed.

Lemma decisive_attempt_gives_response_witness :
  (AIService.processMessage Samples.refusingEngine Fixtures.hello Fixtures.noCounters).1.1
  = AIService.Failed (AIService.mkFailure "RATE_LIMITED" "Too many requests")
  ∧ AIService.engineCalls
      (AIService.processMessage Samples.refusingEngine Fixtures.hello
         Fixtures.noCounters).2 = 2%nat.
Proof.
  apply (decisive_attempt_gives_response Samples.refusingEngine Fixtures.hello
           Fixtures.noCounters 1).
  - vm_compute. reflexivity.
  - lia.
  - intros a Ha. exists (Fixtures.httpError 503).
    assert (a = 0%nat) as -> by lia. split; reflexivity.
Defined.

(** ** The classification of errors, the controller and the health route *)

(** X14. [handleAzureError] marks an error retryable exactly when its HTTP
    status is 429 or 503.  Every error it marks retryable is also retried
    by [AIService.isRetryable], but not conversely: what the service
    retries and [handleAzureError] does not is classified INTERNAL_ERROR
    with status 500.  The message of the classified error is never
    empty. *)
Theorem azure_retryable_is_narrower (error : Error) :
  (Azure.isRetryable (Azure.handleAzureError error) = true ↔
   AIService.statusOf error = Some 429 ∨ AIService.statusOf error = Some 503)
  ∧ (Azure.isRetryable (Azure.handleAzureError error) = true →
     AIService.isRetryable (Some error) = true)
  ∧ (AIService.isRetryable (Some error) = true →
     Azure.isRetryable (Azure.handleAzureError error) = false →
     Azure.code (Azure.handleAzureError error) = "INTERNAL_ERROR"
     ∧ Azure.status (Azure.handleAzureError error) = 500)
  ∧ Azure.message (Azure.handleAzureError error) ≠ EmptyString.
Proof.
  assert (∀ m : string, (if Js.truthy m then m else "Unknown error") ≠ EmptyString)
    as Hmessage by (by intros []).
  unfold Azure.handleAzureError, AIService.isRetryable.
  destruct (AIService.statusOf error) as [st|] eqn:Hst.
  2: { rewrite !bool_decide_eq_false_2 by done. simpl.
       split; [split; [done|by intros [|]]|]. split; [done|]. split; [done|].
       apply Hmessage. }
  destruct (decide (st = 429)) as [->|H429].
  { simpl. split; [split; [by left|done]|]. by repeat split. }
  destruct (decide (st = 401)) as [->|H401].
  { simpl. split; [split; [done|by intros [|]]|]. by repeat split. }
  destruct (decide (st = 404)) as [->|H404].
  { simpl. split; [split; [done|by intros [|]]|]. by repeat split. }
  destruct (decide (st = 503)) as [->|H503].
  { simpl. split; [split; [by right|done]|]. by repeat split. }
  rewrite !(bool_decide_eq_false_2 (Some st = Some _)) by congruence. simpl.
  split; [split; [done|intros [|]; congruence]|]. split; [done|]. split; [done|].
  apply Hmessage.
Qed.

(** X15. The handler of a message answers 400 with "sessionId and message
    are required" when either field is missing or empty, without loading
    a session or calling anything.  With both fields it runs
    [handleMessage] of the service on exactly these values: it answers 200
    with the service's reply and session when the service returns, and
    rejects with the service's error, to be handled by [catchAsync],
    otherwise; the world is the one the service leaves. *)
Theorem controller_requires_both_fields
    (env : Agent.Env) (body : Controller.Body) (w : Agent.World) :
  (Js.truthyOpt (Controller.sessionId body) = false
   ∨ Js.truthyOpt (Controller.message body) = false →
   Controller.handleMessage env body w
   = (Return (Controller.mkHttp 400
                (Controller.Failed "sessionId and message are required")), w))
  ∧ (∀ sid msg,
       Controller.sessionId body = Some sid → Controller.message body = Some msg →
       sid ≠ EmptyString → msg ≠ EmptyString →
       (Controller.handleMessage env body w).2
       = (Agent.handleMessage env sid msg (Controller.user body) w).2
       ∧ (∀ reply session,
            (Agent.handleMessage env sid msg (Controller.user body) w).1
            = Return (reply, session) →
            (Controller.handleMessage env body w).1
            = Return (Controller.mkHttp 200 (Controller.Replied reply session)))
       ∧ (∀ e,
            (Agent.handleMessage env sid msg (Controller.user body) w).1 = Throw e →
            (Controller.handleMessage env body w).1 = Throw e)).
Proof.
  split.
  - unfold Controller.handleMessage. by intros [-> | ->]; rewrite ?orb_true_r.
  - intros sid msg Hsid Hmsg Hs Hm. unfold Controller.handleMessage.
    rewrite Hsid, Hmsg. simpl.
    destruct sid; [done|]. destruct msg; [done|]. simpl.
    unfold mbind, Agent.M_bind.
    destruct (Agent.handleMessage env _ _ _ w) as [[[reply session]|e] w'];
      simpl; (split; [done|]); split; intros; congruence.
Qed.

(** X16. The route /ai/health answers 200 exactly when the health request
    to the engine returns and either the payload has no [status] property
    of its own and reports [healthy: true], or its own [status] property is
    "healthy": the payload is spread over the computed status, so a healthy
    engine whose payload carries another [status] (such as "ok") gets 503.
    Every other case is 503; an engine that cannot be reached gives the
    status "unhealthy" with the error message, or "Health check failed"
    when that is empty. *)
Theorem health_route_status (engine : Outcome Health.AIEngineHealthResponse) :
  ((Health.route engine).1 = 200 ↔
   ∃ health, engine = Return health
     ∧ match Health.statusKey health with
       | Some own => own = "healthy"
       | None => Health.healthy health = true
       end)
  ∧ ((Health.route engine).1 = 200 ∨ (Health.route engine).1 = 503)
  ∧ (∀ e, engine = Throw e →
       Health.error (Health.route engine).2
       = Some (if Js.truthy (Js.message e) then Js.message e
               else "Health check failed")
       ∧ Health.status (Health.route engine).2 = "unhealthy").
Proof.
  unfold Health.route, Health.getHealth.
  destruct engine as [health|e]; simpl.
  - split; [|split; [|done]].
    + destruct (Health.statusKey health) as [own|] eqn:Hown; simpl.
      * destruct (String.eqb own "healthy") eqn:E.
        -- apply String.eqb_eq in E. split; [|done]. intros _. exists health.
           by rewrite Hown.
        -- apply String.eqb_neq in E. split; [done|].
           intros (h & [= <-] & Hh). by rewrite Hown in Hh.
      * destruct (Health.healthy health) eqn:Hh; simpl.
        -- split; [|done]. intros _. exists health. by rewrite Hown.
        -- split; [done|]. intros (h & [= <-] & Hh'). rewrite Hown in Hh'.
           congruence.
    + destruct (String.eqb _ "healthy"); [by left|by right].
  - split; [split; [done|by intros (h & ? & ?)]|]. split; [by right|].
    by intros e' [= <-].
Qed.

(** ** The Jira access token *)

(** X17. [ensureValidJiraAccessToken]: without a refresh token it rejects
    with "Missing refresh token for Jira integration." and makes no
    request, even when the access token is still valid.  With a refresh
    token, an access token that is present and not within 60 seconds of
    its expiry (or has no readable expiry date) is returned as it is, with
    no request and no write.  Otherwise the token endpoint is asked once:
    when it answers, the document is saved with the new tokens and the
    expiry [now + expires_in * 1000] and the new access token is returned;
    when it fails, the error is thrown and the document is unchanged.  A
    returned token is always the access token of the document
    afterwards. *)
Theorem token_refreshed_only_when_needed
    (post : string → Outcome JiraAuth.RefreshData) (now : Z)
    (tokenDoc : JiraAuth.TokenDoc) :
  (Js.truthyOpt (JiraAuth.refreshToken tokenDoc) = false →
     JiraAuth.ensureValidJiraAccessToken post now tokenDoc
     = (Throw (Err "Missing refresh token for Jira integration."), tokenDoc, []))
  ∧ (Js.truthyOpt (JiraAuth.refreshToken tokenDoc) = true →
     Js.truthyOpt (JiraAuth.accessToken tokenDoc) = true →
     (∀ t, JiraAuth.expiresAt tokenDoc = Some t → now ≤ t - 60000) →
     JiraAuth.ensureValidJiraAccessToken post now tokenDoc
     = (Return (JiraAuth.accessToken tokenDoc), tokenDoc, []))
  ∧ (Js.truthyOpt (JiraAuth.refreshToken tokenDoc) = true →
     (Js.truthyOpt (JiraAuth.accessToken tokenDoc) = false
      ∨ ∃ t, JiraAuth.expiresAt tokenDoc = Some t ∧ t - 60000 < now) →
     match post (Js.show (JiraAuth.refreshToken tokenDoc)) with
     | Return data =>
         JiraAuth.ensureValidJiraAccessToken post now tokenDoc
         = (Return (Some (JiraAuth.access_token data)),
            JiraAuth.mkToken (Some (JiraAuth.access_token data))
              (Some (JiraAuth.refresh_token data))
              (Some (now + JiraAuth.expires_in data * 1000)),
            [JiraAuth.Refresh (Js.show (JiraAuth.refreshToken tokenDoc));
             JiraAuth.SaveToken
               (JiraAuth.mkToken (Some (JiraAuth.access_token data))
                  (Some (JiraAuth.refresh_token data))
                  (Some (now + JiraAuth.expires_in data * 1000)))])
     | Throw e =>
         JiraAuth.ensureValidJiraAccessToken post now tokenDoc
         = (Throw e, tokenDoc,
            [JiraAuth.Refresh (Js.show (JiraAuth.refreshToken tokenDoc))])
     end)
  ∧ (∀ token,
       (JiraAuth.ensureValidJiraAccessToken post now tokenDoc).1.1 = Return token →
       JiraAuth.accessToken (JiraAuth.ensureValidJiraAccessToken post now tokenDoc).1.2
       = token)
  ∧ (JiraAuth.refreshes (JiraAuth.ensureValidJiraAccessToken post now tokenDoc).2
     ≤ 1)%nat.
Proof.
  unfold JiraAuth.ensureValidJiraAccessToken, JiraAuth.expiring.
  split; [|split; [|split; [|split]]].
  - by intros ->.
  - intros -> -> Hexp. simpl.
    destruct (JiraAuth.expiresAt tokenDoc) as [t|]; [|done].
    specialize (Hexp t eq_refl).
    destruct (t - 60000 <? now) eqn:E; [lia|done].
  - intros -> Hneed. simpl.
    assert ((negb (Js.truthyOpt (JiraAuth.accessToken tokenDoc))
             || match JiraAuth.expiresAt tokenDoc with
                | Some t => t - 60000 <? now
                | None => false
                end)%bool = true) as ->.
    { destruct Hneed as [->|(t & -> & Ht)]; [done|].
      apply Z.ltb_lt in Ht. rewrite Ht. apply orb_true_r. }
    by destruct (post _).
  - intros token.
    destruct (negb (Js.truthyOpt (JiraAuth.refreshToken tokenDoc))); [done|].
    destruct (_ || _)%bool; [|by intros [= <-]].
    destruct (post _); [by intros [= <-]|done].
  - unfold JiraAuth.refreshes.
    destruct (negb (Js.truthyOpt (JiraAuth.refreshToken tokenDoc))); [simpl; lia|].
    destruct (_ || _)%bool; [|simpl; lia].
    destruct (post _); simpl; lia.
Qed.

(** ** When the fallback texts are used *)

Section fallback_facts.
Import Text Agent Sessions.

Lemma trimEnd_idem (s : string) : trimEnd (trimEnd s) = trimEnd s.
Proof.
  induction s as [|c r IH]; [done|]. simpl.
  destruct (trimEnd r) as [|a b] eqn:Hr.
  - destruct (isSpace c) eqn:Hc; [done|]. simpl. by rewrite Hc.
  - simpl in *. by rewrite IH.
Qed.

Lemma trimStart_head (s : string) :
  match trimStart s with
  | EmptyString => True
  | String c _ => isSpace c = false
  end.
Proof.
  induction s as [|c r IH]; [done|]. simpl.
  destruct (isSpace c) eqn:Hc; [done|]. by rewrite Hc.
Qed.

Lemma trimStart_trimEnd (u : string) :
  match u with EmptyString => True | String c _ => isSpace c = false end →
  trimStart (trimEnd u) = trimEnd u.
Proof.
  destruct u as [|c r]; [done|]. intros Hc. simpl.
  destruct (trimEnd r); rewrite ?Hc; simpl; by rewrite Hc.
Qed.

Lemma trim_idem (s : string) : trim (trim s) = trim s.
Proof.
  unfold trim. rewrite trimStart_trimEnd by apply trimStart_head.
  apply trimEnd_idem.
Qed.

Lemma orElse_empty (a : string) : Js.orElse a EmptyString = a.
Proof. by destruct a. Qed.

Lemma ensureSuccess_run (response : Engine.AIEngineProcessResponse) (fallback : string) :
  Engine.ensureSuccess response fallback
  = if (Engine.success response
        && Js.truthyOpt (Engine.generated_content response))%bool
    then Return tt
    else Throw (Err (if Js.truthyOpt (Engine.error_message response)
                     then Js.show (Engine.error_message response)
                     else if Js.truthyOpt (Engine.error response)
                          then Js.show (Engine.error response)
                          else fallback)).
Proof.
  unfold Engine.ensureSuccess.
  by destruct (Engine.success response), (Js.truthyOpt (Engine.generated_content response)).
Qed.
End fallback_facts.

(** X18. The fallback draft "Update noted." is used only for an answer of
    white space.  In AWAITING_UPDATE, when the engine answers the draft
    request: an answer with [success] and a non-empty content gives the
    draft that is the trimmed content, or "Update noted." when the content
    is white space only, stored with the task in AWAITING_EDIT_DECISION;
    an answer without [success] or with a missing or empty content makes
    the turn reject with the engine's [error_message], else its [error],
    else "Failed to generate task summary", and nothing is saved. *)
Theorem summary_fallback_only_for_blank
    (env : Agent.Env) (st : gmap string Agent.SessionDoc) (sid msg user : string)
    (d : Agent.SessionDoc) (t : Agent.TaskDoc)
    (response : Engine.AIEngineProcessResponse) :
  st !! sid = Some d →
  Sessions.currentTask d = Some t →
  Agent.doc_state t = Agent.AWAITING_UPDATE →
  Agent.engine env (Engine.summaryRequest msg (Agent.doc_title t) user)
    = Return response →
  if (Engine.success response
      && Js.truthyOpt (Engine.generated_content response))%bool
  then
    ∃ s', Sessions.turn env st sid msg user
          = (Return (Agent.summaryReply
                       (if Js.truthy (Text.trim (Engine.content response))
                        then Text.trim (Engine.content response)
                        else "Update noted."), s'),
             Agent.mkWorld (<[sid := Agent.toDoc s']> st)
               [Agent.EvEngine (Engine.summaryRequest msg (Agent.doc_title t) user) true;
                Agent.EvSave sid (Agent.toDoc s')])
          ∧ Sessions.currentTask (Agent.toDoc s')
            = Some (Agent.mkTaskDoc (Agent.doc_taskId t) (Agent.doc_title t)
                      (Agent.doc_status t) (Agent.doc_createdAt t)
                      (Agent.doc_updatedAt t)
                      (Some (if Js.truthy (Text.trim (Engine.content response))
                             then Text.trim (Engine.content response)
                             else "Update noted."))
                      (Agent.doc_finalSummary t) Agent.AWAITING_EDIT_DECISION)
  else
    Sessions.turn env st sid msg user
    = (Throw (Err (if Js.truthyOpt (Engine.error_message response)
                   then Js.show (Engine.error_message response)
                   else if Js.truthyOpt (Engine.error response)
                        then Js.show (Engine.error response)
                        else "Failed to generate task summary")),
       Agent.mkWorld st
         [Agent.EvEngine (Engine.summaryRequest msg (Agent.doc_title t) user) false]).
Proof.
  intros Hd Ht Hst Hengine.
  pose proof (currentTask_inv _ _ Ht) as Hidx.
  unfold Sessions.turn.
  rewrite (handleMessage_in_range env (Agent.fresh st) sid d t msg user Hd Ht).
  unfold Agent.dispatch. simpl. rewrite Hst.
  unfold Agent.onAwaitingUpdate, Agent.generateSummary, mbind, Agent.M_bind.
  rewrite external_run. unfold Engine.generateSummary. simpl. rewrite Hengine.
  rewrite ensureSuccess_run.
  destruct (Engine.success response && _)%bool; [|done]. simpl.
  rewrite orElse_empty, trim_idem. unfold Js.orElse.
  eexists. split; [reflexivity|].
  rewrite (currentTask_setTask (Agent.ofDoc sid d)).
  2: { unfold Sessions.inRange; simpl. by rewrite length_map. }
  by destruct (Text.saidDone msg).
Qed.

Lemma summary_fallback_only_for_blank_witness :
  ∃ s', Sessions.turn Samples.blankEnv Samples.freshStore "s1" "worked on it" "u1"
        = (Return (Agent.summaryReply "Update noted.", s'),
           Agent.mkWorld (<["s1" := Agent.toDoc s']> Samples.freshStore)
             [Agent.EvEngine
                (Engine.summaryRequest "worked on it" "Add Analytics events" "u1") true;
              Agent.EvSave "s1" (Agent.toDoc s')])
        ∧ Sessions.currentTask (Agent.toDoc s')
          = Some (Agent.mkTaskDoc "KT-1" "Add Analytics events" "In Progress" None None
                    (Some "Update noted.") None Agent.AWAITING_EDIT_DECISION).
Proof.
  apply (summary_fallback_only_for_blank Samples.blankEnv Samples.freshStore
           "s1" "worked on it" "u1" Samples.freshSession
           (Agent.mkTaskDoc "KT-1" "Add Analytics events" "In Progress" None None
              None None Agent.AWAITING_UPDATE)
           (Fixtures.answer "   ")).
  - reflexivity.
  - reflexivity.
  - reflexivity.
  - reflexivity.
Defined.

(** X19. In AWAITING_EDIT_INPUT the previous draft is kept only for an
    answer of white space.  When the engine answers the edit request with
    [success] and a non-empty content, the draft becomes the trimmed
    content, or stays the previous draft when the content is white space
    only, and the task is stored in AWAITING_CONFIRM; an answer without
    [success] or with a missing or empty content makes the turn reject
    with the engine's [error_message], else its [error], else "Failed to
    apply edits to summary", and nothing is saved, so the task still waits
    for the edits. *)
Theorem edits_fallback_only_for_blank
    (env : Agent.Env) (st : gmap string Agent.SessionDoc) (sid msg user : string)
    (d : Agent.SessionDoc) (t : Agent.TaskDoc)
    (response : Engine.AIEngineProcessResponse) :
  st !! sid = Some d →
  Sessions.currentTask d = Some t →
  Agent.doc_state t = Agent.AWAITING_EDIT_INPUT →
  Agent.engine env (Engine.editsRequest (Agent.doc_draftSummary t) msg user)
    = Return response →
  if (Engine.success response
      && Js.truthyOpt (Engine.generated_content response))%bool
  then
    ∃ s', Sessions.turn env st sid msg user
          = (Return (Agent.updatedReply
                       (if Js.truthy (Text.trim (Engine.content response))
                        then Some (Text.trim (Engine.content response))
                        else Agent.doc_draftSummary t), s'),
             Agent.mkWorld (<[sid := Agent.toDoc s']> st)
               [Agent.EvEngine
                  (Engine.editsRequest (Agent.doc_draftSummary t) msg user) true;
                Agent.EvSave sid (Agent.toDoc s')])
          ∧ Sessions.currentTask (Agent.toDoc s')
            = Some (Agent.mkTaskDoc (Agent.doc_taskId t) (Agent.doc_title t)
                      (Agent.doc_status t) (Agent.doc_createdAt t)
                      (Agent.doc_updatedAt t)
                      (if Js.truthy (Text.trim (Engine.content response))
                       then Some (Text.trim (Engine.content response))
                       else Agent.doc_draftSummary t)
                      (Agent.doc_finalSummary t) Agent.AWAITING_CONFIRM)
  else
    Sessions.turn env st sid msg user
    = (Throw (Err (if Js.truthyOpt (Engine.error_message response)
                   then Js.show (Engine.error_message response)
                   else if Js.truthyOpt (Engine.error response)
                        then Js.show (Engine.error response)
                        else "Failed to apply edits to summary")),
       Agent.mkWorld st
         [Agent.EvEngine
            (Engine.editsRequest (Agent.doc_draftSummary t) msg user) false]).
Proof.
  intros Hd Ht Hst Hengine.
  pose proof (currentTask_inv _ _ Ht) as Hidx.
  unfold Sessions.turn.
  rewrite (handleMessage_in_range env (Agent.fresh st) sid d t msg user Hd Ht).
  unfold Agent.dispatch. simpl. rewrite Hst.
  unfold Agent.onAwaitingEditInput, Agent.applyEdits, mbind, Agent.M_bind.
  rewrite external_run. unfold Engine.applyEdits. simpl. rewrite Hengine.
  rewrite ensureSuccess_run.
  destruct (Engine.success response && _)%bool; [|done]. simpl.
  unfold Agent.orFallback. rewrite orElse_empty, trim_idem.
  eexists. split; [reflexivity|].
  rewrite (currentTask_setTask (Agent.ofDoc sid d)).
  2: { unfold Sessions.inRange; simpl. by rewrite length_map. }
  done.
Qed.

Lemma edits_fallback_only_for_blank_witness :
  ∃ s', Sessions.turn Samples.blankEnv Samples.editingStore "s1" "shorter please" "u1"
        = (Return (Agent.updatedReply (Some "Added tracking events."), s'),
           Agent.mkWorld (<["s1" := Agent.toDoc s']> Samples.editingStore)
             [Agent.EvEngine
                (Engine.editsRequest (Some "Added tracking events.")
                   "shorter please" "u1") true;
              Agent.EvSave "s1" (Agent.toDoc s')])
        ∧ Sessions.currentTask (Agent.toDoc s')
          = Some (Agent.mkTaskDoc "KT-1" "Add Analytics events" "In Progress" None None
                    (Some "Added tracking events.") None Agent.AWAITING_CONFIRM).
Proof.
  apply (edits_fallback_only_for_blank Samples.blankEnv Samples.editingStore
           "s1" "shorter please" "u1" Samples.editingSession
           (Agent.mkTaskDoc "KT-1" "Add Analytics events" "In Progress" None None
              (Some "Added tracking events.") None Agent.AWAITING_EDIT_INPUT)
           (Fixtures.answer "   ")).
  - reflexivity.
  - reflexivity.
  - reflexivity.
  - reflexivity.
Defined.

Lemma completed_task_is_final_witness :
  ∃ d', Agent.store (Sessions.turn (Fixtures.env "" "comment_only" [])
                       Samples.mixedStore "s1" "yes" "u1").2 !! "s2" = Some d'
        ∧ Agent.doc_tasks d' !! 0%nat = Some Samples.doneTask.
Proof.
  apply (completed_task_is_final (Fixtures.env "" "comment_only" [])
           Samples.mixedStore "s1" "yes" "u1" "s2" Samples.archive 0
           Samples.doneTask).
  - reflexivity.
  - reflexivity.
  - reflexivity.
Defined.

(** ** What a turn costs *)

Section budget_facts.
Import Agent Sessions Frames.

Lemma withinBudget_app a b c a' b' c' x y z evs evs' :
  withinBudget a b c evs → withinBudget a' b' c' evs' →
  (a + a' ≤ x)%nat → (b + b' ≤ y)%nat → (c + c' ≤ z)%nat →
  withinBudget x y z (evs ++ evs').
Proof.
  unfold withinBudget, engineRequests, jiraOperations, sessionSaves.
  rewrite !List.filter_app, !length_app. lia.
Qed.

Lemma withinBudget_weaken a b c a' b' c' evs :
  withinBudget a b c evs → (a ≤ a')%nat → (b ≤ b')%nat → (c ≤ c')%nat →
  withinBudget a' b' c' evs.
Proof. unfold withinBudget. lia. Qed.

Lemma transitionToDone_budget env task user w :
  ∃ evs, (transitionToDone env task user w).2 = logged w evs
         ∧ withinBudget 0 2 0 evs.
Proof.
  unfold transitionToDone, getTransitionId, updateTask, mbind, M_bind.
  destruct (negb _).
  - rewrite external_run.
    destruct (Jira.getTransitionId _ _ _ _) as [transitionId|e]; simpl.
    + rewrite external_run. rewrite logged_logged.
      destruct (Jira.updateTask _ _ _ _); simpl; eexists; (split; [done|]);
        unfold withinBudget, engineRequests, jiraOperations, sessionSaves; simpl; lia.
    + eexists. split; [done|].
      unfold withinBudget, engineRequests, jiraOperations, sessionSaves; simpl; lia.
  - exists []. split; [unfold logged; by rewrite app_nil_r; destruct w|].
    unfold withinBudget, engineRequests, jiraOperations, sessionSaves; simpl; lia.
Qed.

Lemma commit_budget env task updateType user w :
  ∃ evs, (commit env task updateType user w).2 = logged w evs
         ∧ withinBudget 0 3 0 evs.
Proof.
  assert (∀ w : World, w = logged w []) as Hnil.
  { intros []. unfold logged. simpl. by rewrite app_nil_r. }
  assert (withinBudget 0 3 0 []) as Hempty.
  { unfold withinBudget, engineRequests, jiraOperations, sessionSaves; simpl; lia. }
  unfold commit, addComment, mbind, M_bind.
  destruct (String.eqb updateType "comment_only").
  { rewrite external_run.
    destruct (Jira.addComment _ _ _ _); simpl; eexists; (split; [done|]);
      unfold withinBudget, engineRequests, jiraOperations, sessionSaves; simpl; lia. }
  destruct (String.eqb updateType "status_only").
  { destruct (transitionToDone_budget env task user w) as (evs & Hw & Hb).
    exists evs. split; [done|]. eapply withinBudget_weaken; [done|lia..]. }
  destruct (String.eqb updateType "comment_and_status").
  2: { exists []. split; [apply Hnil|done]. }
  rewrite external_run.
  destruct (Jira.addComment _ _ _ _) as [[]|e]; simpl.
  - set (w1 := logged w _).
    destruct (transitionToDone_budget env task user w1) as (evs & Hw & Hb).
    rewrite Hw. unfold w1. rewrite logged_logged. eexists. split; [done|].
    apply (withinBudget_app 0 1 0 0 2 0); [|done|lia..].
    unfold withinBudget, engineRequests, jiraOperations, sessionSaves; simpl; lia.
  - eexists. split; [done|].
    unfold withinBudget, engineRequests, jiraOperations, sessionSaves; simpl; lia.
Qed.

Lemma dispatch_budget env s task msg user w :
  inRange s →
  ∃ evs, trace (dispatch env s task msg user w).2 = trace w ++ evs
         ∧ withinBudget 1 3 1 evs.
Proof.
  intros Hs.
  assert (∀ evs, (length evs ≤ 2)%nat →
            (engineRequests evs ≤ 1)%nat → (jiraOperations evs = 0)%nat →
            (sessionSaves evs ≤ 1)%nat → withinBudget 1 3 1 evs) as Hsmall.
  { unfold withinBudget. lia. }
  unfold dispatch. destruct (state task) eqn:Est.
  - unfold onAwaitingUpdate, generateSummary, mbind, M_bind.
    rewrite external_run.
    destruct (Engine.generateSummary _ _ _ _); simpl;
      [rewrite <- app_assoc|]; eexists; (split; [done|]);
      unfold withinBudget, engineRequests, jiraOperations, sessionSaves; simpl; lia.
  - unfold onAwaitingEditDecision.
    destruct (Text.isAffirmative msg); simpl; eexists; (split; [done|]);
      unfold withinBudget, engineRequests, jiraOperations, sessionSaves; simpl; lia.
  - unfold onAwaitingEditInput, applyEdits, mbind, M_bind.
    rewrite external_run.
    destruct (Engine.applyEdits _ _ _ _); simpl;
      [rewrite <- app_assoc|]; eexists; (split; [done|]);
      unfold withinBudget, engineRequests, jiraOperations, sessionSaves; simpl; lia.
  - unfold onAwaitingConfirm. destruct (negb _).
    { exists []. simpl. rewrite app_nil_r. split; [done|].
      unfold withinBudget, engineRequests, jiraOperations, sessionSaves; simpl; lia. }
    unfold analyzeUpdateType, mbind, M_bind. rewrite external_run.
    destruct (Engine.analyzeUpdateType _ _ _) as [u|e]; simpl.
    2: { eexists. split; [done|].
         unfold withinBudget, engineRequests, jiraOperations, sessionSaves; simpl; lia. }
    set (w1 := logged w _).
    destruct (commit_budget env task (forceStatus task u) user w1)
      as (evs & Hw & Hb).
    destruct (commit env task (forceStatus task u) user w1) as [[task1|e] w2];
      simpl in Hw; subst w2.
    2: { simpl. rewrite <- app_assoc. eexists. split; [done|].
         apply (withinBudget_app 1 0 0 0 3 0); [|done|lia..].
         unfold withinBudget, engineRequests, jiraOperations, sessionSaves; simpl; lia. }
    rewrite advance_spec by by apply inRange_setTask.
    destruct (advanceResult _) as [s2 b]. simpl.
    exists ((EvEngine (Engine.analyzeRequest (draftSummary task) user) true :: evs)
            ++ [EvSave (_id s2) (toDoc s2)]).
    split.
    { destruct b; [destruct (taskAt (tasks s2) _)|]; simpl;
        by rewrite <- !app_assoc. }
    apply (withinBudget_app 1 3 0 0 0 1); [| |lia..].
    + apply (withinBudget_app 1 0 0 0 3 0 _ _ _ [_]); [|done|lia..].
      unfold withinBudget, engineRequests, jiraOperations, sessionSaves; simpl; lia.
    + unfold withinBudget, engineRequests, jiraOperations, sessionSaves; simpl; lia.
  - exists []. simpl. rewrite app_nil_r. split; [done|].
    unfold withinBudget, engineRequests, jiraOperations, sessionSaves; simpl; lia.
Qed.
End budget_facts.

(** X20. The cost of a turn is bounded: one [handleMessage] makes at most
    one request to the engine, calls at most three methods of
    [JiraService] (addComment, getTransitionId and updateTask; each of
    them makes its own HTTP requests) and saves the session at most twice,
    whatever the session, the message and the answers; a session whose
    index is in range is saved at most once. *)
Theorem turn_call_budget
    (env : Agent.Env) (st : gmap string Agent.SessionDoc) (sid msg user : string) :
  (Frames.engineRequests (Agent.trace (Sessions.turn env st sid msg user).2) ≤ 1)%nat
  ∧ (Frames.jiraOperations (Agent.trace (Sessions.turn env st sid msg user).2) ≤ 3)%nat
  ∧ (Frames.sessionSaves (Agent.trace (Sessions.turn env st sid msg user).2) ≤ 2)%nat
  ∧ (∀ d, st !! sid = Some d → Sessions.indexOk d →
       (Frames.sessionSaves (Agent.trace (Sessions.turn env st sid msg user).2) ≤ 1)%nat).
Proof.
  unfold Sessions.turn.
  destruct (st !! sid) as [d|] eqn:Hd.
  2: { rewrite handleMessage_missing by done. simpl.
       unfold Frames.engineRequests, Frames.jiraOperations, Frames.sessionSaves. simpl.
       repeat split; first [lia|done|intros; lia]. }
  destruct (Agent.doc_tasks d) as [|t0 rest] eqn:Hts.
  { rewrite (handleMessage_empty _ _ _ d) by done. simpl.
    unfold Frames.engineRequests, Frames.jiraOperations, Frames.sessionSaves. simpl.
    repeat split; first [lia|done|intros; lia]. }
  destruct (Sessions.currentTask d) as [t|] eqn:Ht.
  - rewrite (handleMessage_in_range _ _ _ d t) by done.
    destruct (dispatch_budget env (Agent.ofDoc sid d) (Agent.taskOfDoc t) msg user
                (Agent.fresh st)) as (evs & -> & He & Hj & Hs).
    { pose proof (currentTask_inv _ _ Ht). unfold Sessions.inRange; simpl.
      by rewrite length_map. }
    simpl. unfold Frames.withinBudget in *. repeat split; first [lia|intros; lia].
  - destruct (currentTask_or_drift d) as [[t Ht']|Hdrift]; [congruence|].
    rewrite (handleMessage_drift env (Agent.fresh st) sid d t0 rest msg user Hd Hts Hdrift).
    match goal with |- context [Agent.dispatch _ ?s ?task _ _ ?w1] =>
      destruct (dispatch_budget env s task msg user w1) as (evs & -> & He & Hj & Hs)
    end.
    { unfold Sessions.inRange, Sessions.healed; simpl. rewrite Hts. simpl. lia. }
    simpl. unfold Frames.engineRequests, Frames.jiraOperations, Frames.sessionSaves in *.
    simpl. repeat split; try lia.
    intros d' [= <-] Hok. exfalso. specialize (Hok ltac:(by rewrite Hts)). lia.
Qed.

(** ** The requests of a confirmed commit *)

Section commit_calls.
Import Agent Sessions.

Lemma advanceResult_at_current (s : IAgentSession) :
  inRange s →
  tasks (advanceResult s).1 !! Z.to_nat (currentIndex s)
  = tasks s !! Z.to_nat (currentIndex s).
Proof.
  intros [Hlo Hhi]. unfold advanceResult.
  destruct (list_find _ _) as [[k next]|]; simpl; [|done].
  by rewrite list_lookup_insert_ne by lia.
Qed.

(** The end of a confirming turn once the commit has returned. *)
Lemma finish_confirm (s : IAgentSession) (task1 : ITaskState) (w : World) :
  inRange s →
  let m : M (string * IAgentSession) :=
    '(session, advanced) ← advance (setTask (currentIndex s) (finalized task1) s);
    save session;;
    if advanced : bool then
      match taskAt (tasks session) (currentIndex session) with
      | None => undefinedTask
      | Some next => mret (nextTaskReply (title next), session)
      end
    else mret (allDoneReply, session) in
  ∃ reply s', m w = (Return (reply, s'), saved w s')
              ∧ _id s' = _id s
              ∧ tasks s' !! Z.to_nat (currentIndex s) = Some (finalized task1).
Proof.
  intros Hs m. unfold m, mbind, M_bind.
  pose proof (inRange_setTask (currentIndex s) (finalized task1) s Hs) as Hs1.
  rewrite advance_spec by done.
  pose proof (advanceResult_current _ Hs1) as [next Hnext].
  pose proof (advanceResult_at_current _ Hs1) as Hat.
  pose proof (proj2 (advanceResult_tasks (setTask (currentIndex s) (finalized task1) s)))
    as Hid.
  destruct (advanceResult _) as [s2 b]. simpl in *.
  assert (tasks s2 !! Z.to_nat (currentIndex s) = Some (finalized task1)) as Hfin.
  { rewrite Hat. apply list_lookup_insert_eq. destruct Hs. lia. }
  destruct b; [rewrite Hnext|]; simpl; by eexists _, _.
Qed.
(** The commit against a Jira that answers every request. *)
Lemma commit_run env task updateType user w transitionId :
  updateType ∈ Engine.updateTypes →
  status task ≠ "Done" →
  Jira.addComment (jira env) (taskId task) (draftSummary task) user = Return tt →
  Jira.getTransitionId (jira env) (taskId task) "Done" user = Return transitionId →
  Jira.updateTask (jira env) (taskId task) (Jira.Status transitionId) user = Return tt →
  commit env task updateType user w
  = (Return (if String.eqb updateType "comment_only"
             then task else set_status "Done" task),
     logged w
       ((if String.eqb updateType "status_only" then []
         else [EvJira (Jira.CAddComment (taskId task) (draftSummary task)) true])
        ++ (if String.eqb updateType "comment_only" then []
            else [EvJira (Jira.CGetTransitionId (taskId task) "Done") true;
                  EvJira (Jira.CUpdateTask (taskId task) (Jira.Status transitionId))
                    true]))).
Proof.
  intros Hin Hstatus Hcomment Hlookup Hmove.
  apply String.eqb_neq in Hstatus. apply in_updateTypes in Hin.
  unfold commit, addComment, transitionToDone, getTransitionId, updateTask,
    mbind, M_bind.
  destruct Hin as [->|[->| ->]]; simpl; rewrite ?Hstatus; simpl;
    rewrite !external_run, ?Hcomment, ?Hlookup; simpl;
    rewrite ?external_run, ?Hcomment, ?Hlookup, ?Hmove; simpl;
    rewrite ?external_run, ?Hcomment, ?Hlookup, ?Hmove; simpl;
    by rewrite ?logged_logged.
Qed.
End commit_calls.

(** X21. What a confirmed commit sends to Jira, when Jira answers every
    request and the cached status is not Done: for [comment_only] the
    comment alone; for [status_only] the lookup of the transition to Done
    and the transition with the id found, and no comment, so the draft
    reaches Jira in no form; for [comment_and_status] the comment, then
    the lookup, then the transition.  The turn returns, and the task is
    stored COMPLETED with the draft as its final summary and with the
    cached status Done unless the update was [comment_only]. *)
Theorem confirmed_commit_requests
    (env : Agent.Env) (st : gmap string Agent.SessionDoc) (sid msg user : string)
    (d : Agent.SessionDoc) (t : Agent.TaskDoc) (updateType transitionId : string) :
  st !! sid = Some d →
  Sessions.currentTask d = Some t →
  Agent.doc_state t = Agent.AWAITING_CONFIRM →
  Agent.doc_status t ≠ "Done" →
  Text.isAffirmative msg = true →
  Engine.analyzeUpdateType (Agent.engine env) (Agent.doc_draftSummary t) user
    = Return updateType →
  Jira.addComment (Agent.jira env) (Agent.doc_taskId t) (Agent.doc_draftSummary t) user
    = Return tt →
  Jira.getTransitionId (Agent.jira env) (Agent.doc_taskId t) "Done" user
    = Return transitionId →
  Jira.updateTask (Agent.jira env) (Agent.doc_taskId t) (Jira.Status transitionId) user
    = Return tt →
  Sessions.jiraCalls (Agent.trace (Sessions.turn env st sid msg user).2)
  = (if String.eqb updateType "status_only" then []
     else [(Jira.CAddComment (Agent.doc_taskId t) (Agent.doc_draftSummary t), true)])
    ++ (if String.eqb updateType "comment_only" then []
        else [(Jira.CGetTransitionId (Agent.doc_taskId t) "Done", true);
              (Jira.CUpdateTask (Agent.doc_taskId t) (Jira.Status transitionId), true)])
  ∧ ∃ reply s' d',
      (Sessions.turn env st sid msg user).1 = Return (reply, s')
      ∧ Agent.store (Sessions.turn env st sid msg user).2 !! sid = Some d'
      ∧ Agent.doc_tasks d' !! Z.to_nat (Agent.doc_currentIndex d)
        = Some (Agent.mkTaskDoc (Agent.doc_taskId t) (Agent.doc_title t)
                  (if String.eqb updateType "comment_only"
                   then Agent.doc_status t else "Done")
                  (Agent.doc_createdAt t) (Agent.doc_updatedAt t)
                  (Agent.doc_draftSummary t) (Agent.doc_draftSummary t)
                  Agent.COMPLETED).
Proof.
  intros Hd Ht Hst Hstatus Hmsg Hu Hcomment Hlookup Hmove.
  pose proof (currentTask_inv _ _ Ht) as Hidx.
  assert (Sessions.inRange (Agent.ofDoc sid d)) as Hs.
  { unfold Sessions.inRange; simpl. by rewrite length_map. }
  pose proof (analyzeUpdateType_in_enum _ _ _ _ Hu) as Hin.
  unfold Sessions.turn.
  rewrite (handleMessage_in_range env (Agent.fresh st) sid d t msg user Hd Ht).
  set (task1 := if String.eqb updateType "comment_only"
                then Agent.taskOfDoc t
                else Agent.set_status "Done" (Agent.taskOfDoc t)).
  set (calls :=
         (if String.eqb updateType "status_only" then []
          else [Agent.EvJira (Jira.CAddComment (Agent.doc_taskId t)
                                (Agent.doc_draftSummary t)) true])
         ++ (if String.eqb updateType "comment_only" then []
             else [Agent.EvJira (Jira.CGetTransitionId (Agent.doc_taskId t) "Done") true;
                   Agent.EvJira (Jira.CUpdateTask (Agent.doc_taskId t)
                                   (Jira.Status transitionId)) true])).
  set (w1 := Sessions.logged
               (Sessions.logged (Agent.fresh st)
                  [Agent.EvEngine
                     (Engine.analyzeRequest (Agent.doc_draftSummary t) user) true])
               calls).
  destruct (finish_confirm (Agent.ofDoc sid d) task1 w1 Hs)
    as (reply & s' & Hrun & Hid & Hfin).
  assert (Agent.dispatch env (Agent.ofDoc sid d) (Agent.taskOfDoc t) msg user
            (Agent.fresh st) = (Return (reply, s'), Sessions.saved w1 s')) as Hturn.
  { rewrite <- Hrun.
    unfold Agent.dispatch. simpl. rewrite Hst.
    unfold Agent.onAwaitingConfirm. rewrite Hmsg. simpl.
    unfold Agent.analyzeUpdateType. unfold mbind at 1. unfold Agent.M_bind at 1.
    rewrite external_run. simpl. rewrite Hu.
    change (Agent.forceStatus (Agent.taskOfDoc t) updateType) with updateType.
    unfold mbind at 1. unfold Agent.M_bind at 1.
    rewrite (commit_run env (Agent.taskOfDoc t) updateType user _ transitionId
               Hin Hstatus Hcomment Hlookup Hmove).
    done. }
  rewrite Hturn. split.
  - unfold w1, Sessions.saved, Sessions.logged. simpl.
    unfold Sessions.jiraCalls. rewrite !omap_app. simpl. unfold calls.
    destruct (String.eqb updateType "status_only"),
      (String.eqb updateType "comment_only"); simpl; by rewrite ?app_nil_r.
  - exists reply, s', (Agent.toDoc s'). split; [done|]. split.
    + simpl. rewrite Hid. simpl. by rewrite lookup_insert_eq.
    + unfold Agent.toDoc; simpl.
      change (map Agent.taskToDoc ?l) with (Agent.taskToDoc <$> l).
      rewrite list_lookup_fmap. simpl in Hfin. rewrite Hfin. unfold task1.
      by destruct (String.eqb updateType "comment_only").
Qed.

Lemma confirmed_commit_requests_witness :
  Sessions.jiraCalls
    (Agent.trace (Sessions.turn (Fixtures.env "" "status_only" [])
                    Fixtures.confirmStore "s1" "yes" "u1").2)
  = [] ++ [(Jira.CGetTransitionId "KT-1" "Done", true);
           (Jira.CUpdateTask "KT-1" (Jira.Status "31"), true)]
  ∧ ∃ reply s' d',
      (Sessions.turn (Fixtures.env "" "status_only" [])
         Fixtures.confirmStore "s1" "yes" "u1").1 = Return (reply, s')
      ∧ Agent.store (Sessions.turn (Fixtures.env "" "status_only" [])
                       Fixtures.confirmStore "s1" "yes" "u1").2 !! "s1" = Some d'
      ∧ Agent.doc_tasks d' !! Z.to_nat 0
        = Some (Agent.mkTaskDoc "KT-1" "Add Analytics events" "Done" None None
                  (Some "Added tracking events.") (Some "Added tracking events.")
                  Agent.COMPLETED).
Proof.
  apply (confirmed_commit_requests (Fixtures.env "" "status_only" [])
           Fixtures.confirmStore "s1" "yes" "u1" Fixtures.confirmSession
           Fixtures.confirmTask "status_only" "31").
  - reflexivity.
  - reflexivity.
  - reflexivity.
  - discriminate.
  - reflexivity.
  - reflexivity.
  - reflexivity.
  - reflexivity.
  - reflexivity.
Defined.

(** ** The current index only moves forward *)

Section progress_facts.
Import Agent Sessions.

Lemma advanceResult_forward (s : IAgentSession) :
  inRange s →
  currentIndex s ≤ currentIndex (advanceResult s).1
  ∧ (currentIndex s < currentIndex (advanceResult s).1 →
     state <$> tasks (advanceResult s).1
                 !! Z.to_nat (currentIndex (advanceResult s).1)
     = Some AWAITING_UPDATE).
Proof.
  intros [Hlo Hhi]. unfold advanceResult.
  destruct (list_find _ _) as [[k next]|] eqn:Hfind; simpl; [|lia].
  split; [lia|]. intros _.
  apply list_find_Some in Hfind as (Hk & _ & _).
  rewrite lookup_drop in Hk. apply lookup_lt_Some in Hk.
  rewrite list_lookup_insert_eq by lia. done.
Qed.

Lemma dispatch_forward env s task msg user w :
  inRange s →
  store (dispatch env s task msg user w).2 = store w
  ∨ ∃ s', store (dispatch env s task msg user w).2 = <[_id s := toDoc s']> (store w)
          ∧ currentIndex s ≤ currentIndex s'
          ∧ (currentIndex s < currentIndex s' →
             Text.isAffirmative msg = true ∧ state task = AWAITING_CONFIRM
             ∧ state <$> tasks s' !! Z.to_nat (currentIndex s')
               = Some AWAITING_UPDATE).
Proof.
  intros Hs. unfold dispatch. destruct (state task) eqn:Est.
  - unfold onAwaitingUpdate, generateSummary, mbind, M_bind.
    rewrite external_run. destruct (Engine.generateSummary _ _ _ _); [|by left].
    right. eexists. split; [done|]. simpl. lia.
  - unfold onAwaitingEditDecision.
    destruct (Text.isAffirmative msg); right; (eexists; split; [done|]); simpl; lia.
  - unfold onAwaitingEditInput, applyEdits, mbind, M_bind.
    rewrite external_run. destruct (Engine.applyEdits _ _ _ _); [|by left].
    right. eexists. split; [done|]. simpl. lia.
  - destruct (Text.isAffirmative msg) eqn:Hmsg.
    2: { unfold onAwaitingConfirm. rewrite Hmsg. by left. }
    destruct (onAwaitingConfirm_inv env s task msg user w Hmsg Hs)
      as [(Hst & _)|(u & task1 & evs & _ & _ & _ & Hw & _)]; [by left|].
    right. rewrite Hw.
    pose proof (inRange_setTask (currentIndex s) (finalized task1) s Hs) as Hs1.
    pose proof (advanceResult_forward _ Hs1) as [Hle Hnext].
    pose proof (proj2 (advanceResult_tasks (setTask (currentIndex s) (finalized task1) s)))
      as Hid.
    destruct (advanceResult _) as [s2 b]. simpl in *.
    exists s2. rewrite Hid. split; [done|]. split; [done|].
    intros Hlt. split; [done|]. split; [done|]. by apply Hnext.
  - by left.
Qed.
End progress_facts.

(** X22. The current index only moves forward.  For a stored session whose
    index is in range, the session is still stored after any turn and its
    index is not smaller than before; it is larger only when the message
    was affirmative and the current task awaited confirmation, and then
    the task at the new index awaits its update. *)
Theorem index_moves_forward_only
    (env : Agent.Env) (st : gmap string Agent.SessionDoc) (sid msg user : string)
    (d : Agent.SessionDoc) (t : Agent.TaskDoc) :
  st !! sid = Some d →
  Sessions.currentTask d = Some t →
  ∃ d', Agent.store (Sessions.turn env st sid msg user).2 !! sid = Some d'
        ∧ Agent.doc_currentIndex d ≤ Agent.doc_currentIndex d'
        ∧ (Agent.doc_currentIndex d < Agent.doc_currentIndex d' →
           Text.isAffirmative msg = true
           ∧ Agent.doc_state t = Agent.AWAITING_CONFIRM
           ∧ ∃ next, Sessions.currentTask d' = Some next
                     ∧ Agent.doc_state next = Agent.AWAITING_UPDATE).
Proof.
  intros Hd Ht. pose proof (currentTask_inv _ _ Ht) as Hidx.
  unfold Sessions.turn.
  rewrite (handleMessage_in_range env (Agent.fresh st) sid d t msg user Hd Ht).
  destruct (dispatch_forward env (Agent.ofDoc sid d) (Agent.taskOfDoc t) msg user
              (Agent.fresh st)) as [->|(s' & -> & Hle & Hnext)].
  { unfold Sessions.inRange; simpl. by rewrite length_map. }
  - exists d. split; [done|]. split; [lia|]. lia.
  - exists (Agent.toDoc s'). simpl in *. rewrite lookup_insert_eq.
    split; [done|]. split; [done|]. intros Hlt.
    destruct (Hnext Hlt) as (Hmsg & Hstate & Hupd). split; [done|]. split; [done|].
    unfold Sessions.currentTask, Agent.toDoc; simpl.
    destruct (_ <? 0) eqn:E; [lia|].
    change (map Agent.taskToDoc ?l) with (Agent.taskToDoc <$> l).
    rewrite list_lookup_fmap.
    destruct (Agent.tasks s' !! _) as [next|]; [|done].
    exists (Agent.taskToDoc next). split; [done|]. by injection Hupd.
Qed.

Lemma index_moves_forward_only_witness :
  ∃ d', Agent.store (Sessions.turn (Fixtures.env "" "comment_only" [])
                       Fixtures.twoTaskStore "s1" "yes" "u1").2 !! "s1" = Some d'
        ∧ Agent.doc_currentIndex Fixtures.twoTasks ≤ Agent.doc_currentIndex d'
        ∧ (Agent.doc_currentIndex Fixtures.twoTasks < Agent.doc_currentIndex d' →
           Text.isAffirmative "yes" = true
           ∧ Agent.doc_state Fixtures.confirmTask = Agent.AWAITING_CONFIRM
           ∧ ∃ next, Sessions.currentTask d' = Some next
                     ∧ Agent.doc_state next = Agent.AWAITING_UPDATE).
Proof.
  apply (index_moves_forward_only (Fixtures.env "" "comment_only" [])
           Fixtures.twoTaskStore "s1" "yes" "u1" Fixtures.twoTasks
           Fixtures.confirmTask).
  - reflexivity.
  - reflexivity.
Defined.

(** ** The draft after a turn that generates *)

(** C10 (as stated) fails.  In the session that [startSession] stored,
    with an engine that answers the draft request with an empty text, the
    turn on the task in AWAITING_UPDATE rejects with "Failed to generate
    task summary": no fallback text is applied, nothing is saved, and
    after the turn the task is still in AWAITING_UPDATE without a
    draft. *)
Lemma empty_output_gets_no_fallback :
  Sessions.reachable Sessions.anySite (Agent.store Fixtures.started)
  ∧ Agent.engine Samples.emptyEnv
      (Engine.summaryRequest "worked on it" "Add Analytics events" "u1")
    = Return (Fixtures.answer EmptyString)
  ∧ Sessions.turn Samples.emptyEnv (Agent.store Fixtures.started)
      "s1" "worked on it" "u1"
    = (Throw (Err "Failed to generate task summary"),
       Agent.mkWorld (Agent.store Fixtures.started)
         [Agent.EvEngine
            (Engine.summaryRequest "worked on it" "Add Analytics events" "u1") false])
  ∧ (λ t, (Agent.doc_state t, Agent.doc_draftSummary t))
      <$> (Agent.store (Sessions.turn Samples.emptyEnv (Agent.store Fixtures.started)
                          "s1" "worked on it" "u1").2
             !! "s1" ≫= λ d, Agent.doc_tasks d !! 0%nat)
    = Some (Agent.AWAITING_UPDATE, None).
Proof.
  split; [|repeat split; vm_compute; reflexivity].
  apply (Sessions.reach_start Sessions.anySite Fixtures.scenarioEnv "u1" ∅);
    [constructor|done].
Qed.

(** C10 (amended).  In a store the service produced (whatever Jira
    returned), a turn on a task in AWAITING_UPDATE or AWAITING_EDIT_INPUT
    returns exactly when the generation returns, and it then leaves the
    task, in the reply and in the store, with a draft that is a non-empty
    string: the trimmed output when that is not empty, and for an output
    of white space only "Update noted." in AWAITING_UPDATE and the
    previous draft in AWAITING_EDIT_INPUT.  The generation returns only
    for an answer of the engine with [success] and a non-empty content;
    for an empty or missing content, or without [success], it throws
    (the engine's [error_message], else its [error], else a fixed text),
    and so does the turn: no fallback is applied and nothing is saved, so
    the task keeps its state and the draft it had, which is none for a
    task that was never drafted. *)
Theorem draft_non_empty_or_turn_rejects
    (env : Agent.Env) (st : gmap string Agent.SessionDoc) (sid msg user : string)
    (d : Agent.SessionDoc) (t : Agent.TaskDoc) (site : Jira.Api → Prop) :
  Sessions.reachable site st →
  st !! sid = Some d →
  Sessions.currentTask d = Some t →
  (Agent.doc_state t = Agent.AWAITING_UPDATE →
   match Engine.generateSummary (Agent.engine env) msg (Agent.doc_title t) user with
   | Return raw =>
       ∃ s' draft,
         Sessions.turn env st sid msg user
         = (Return (Agent.summaryReply draft, s'),
            Agent.mkWorld (<[sid := Agent.toDoc s']> st)
              [Agent.EvEngine
                 (Engine.summaryRequest msg (Agent.doc_title t) user) true;
               Agent.EvSave sid (Agent.toDoc s')])
         ∧ draft = (if Js.truthy (Text.trim raw) then Text.trim raw
                    else "Update noted.")
         ∧ draft ≠ EmptyString
         ∧ Agent.doc_draftSummary <$> Sessions.currentTask (Agent.toDoc s')
           = Some (Some draft)
   | Throw e =>
       Sessions.turn env st sid msg user
       = (Throw e,
          Agent.mkWorld st
            [Agent.EvEngine
               (Engine.summaryRequest msg (Agent.doc_title t) user) false])
   end
   ∧ ∀ response,
       Agent.engine env (Engine.summaryRequest msg (Agent.doc_title t) user)
         = Return response →
       Engine.generateSummary (Agent.engine env) msg (Agent.doc_title t) user
       = if (Engine.success response
             && Js.truthyOpt (Engine.generated_content response))%bool
         then Return (Text.trim (Engine.content response))
         else Throw (Err (if Js.truthyOpt (Engine.error_message response)
                          then Js.show (Engine.error_message response)
                          else if Js.truthyOpt (Engine.error response)
                               then Js.show (Engine.error response)
                               else "Failed to generate task summary")))
  ∧ (Agent.doc_state t = Agent.AWAITING_EDIT_INPUT →
     match Engine.applyEdits (Agent.engine env) (Agent.doc_draftSummary t) msg user with
     | Return raw =>
         ∃ s' draft,
           Sessions.turn env st sid msg user
           = (Return (Agent.updatedReply (Some draft), s'),
              Agent.mkWorld (<[sid := Agent.toDoc s']> st)
                [Agent.EvEngine
                   (Engine.editsRequest (Agent.doc_draftSummary t) msg user) true;
                 Agent.EvSave sid (Agent.toDoc s')])
           ∧ Some draft = (if Js.truthy (Text.trim raw) then Some (Text.trim raw)
                           else Agent.doc_draftSummary t)
           ∧ draft ≠ EmptyString
           ∧ Agent.doc_draftSummary <$> Sessions.currentTask (Agent.toDoc s')
             = Some (Some draft)
     | Throw e =>
         Sessions.turn env st sid msg user
         = (Throw e,
            Agent.mkWorld st
              [Agent.EvEngine
                 (Engine.editsRequest (Agent.doc_draftSummary t) msg user) false])
     end
     ∧ ∀ response,
         Agent.engine env (Engine.editsRequest (Agent.doc_draftSummary t) msg user)
           = Return response →
         Engine.applyEdits (Agent.engine env) (Agent.doc_draftSummary t) msg user
         = if (Engine.success response
               && Js.truthyOpt (Engine.generated_content response))%bool
           then Return (Text.trim (Engine.content response))
           else Throw (Err (if Js.truthyOpt (Engine.error_message response)
                            then Js.show (Engine.error_message response)
                            else if Js.truthyOpt (Engine.error response)
                                 then Js.show (Engine.error response)
                                 else "Failed to apply edits to summary"))).
Proof.
  intros Hreach Hd Ht.
  pose proof (currentTask_inv _ _ Ht) as Hidx.
  assert (Sessions.inRange (Agent.ofDoc sid d)) as Hs.
  { unfold Sessions.inRange; simpl. by rewrite length_map. }
  pose proof (reachable_draftOk _ _ Hreach _ _ Hd) as Hdoc.
  assert (Sessions.draftOk (Agent.taskOfDoc t)) as Hdraft.
  { rewrite Forall_forall in Hdoc. apply Hdoc.
    unfold Sessions.currentTask in Ht. destruct (_ <? 0); [done|].
    by eapply list_elem_of_lookup_2. }
  unfold Sessions.turn.
  rewrite (handleMessage_in_range env (Agent.fresh st) sid d t msg user Hd Ht).
  unfold Agent.dispatch. simpl.
  split; intros Hst; rewrite Hst; (split;
    [|intros response Hresp;
      unfold Engine.generateSummary, Engine.applyEdits; rewrite Hresp, ensureSuccess_run;
      by destruct (Engine.success response && _)%bool]).
  - unfold Agent.onAwaitingUpdate, Agent.generateSummary, mbind, Agent.M_bind.
    rewrite external_run.
    destruct (Engine.generateSummary _ _ _ _) as [raw|e]; [|done]. simpl.
    rewrite orElse_empty.
    eexists _, _. split; [reflexivity|]. split; [done|].
    split; [by apply orElse_nonempty|].
    rewrite (currentTask_setTask (Agent.ofDoc sid d)) by done.
    by destruct (Text.saidDone msg).
  - unfold Agent.onAwaitingEditInput, Agent.applyEdits, mbind, Agent.M_bind.
    rewrite external_run.
    destruct (Engine.applyEdits _ _ _ _) as [raw|e]; [|done]. simpl.
    unfold Agent.orFallback. rewrite orElse_empty.
    unfold Sessions.draftOk in Hdraft. simpl in Hdraft. rewrite Hst in Hdraft.
    destruct Hdraft as (prev & Hprev & Hne); [by right; left|].
    destruct (Js.truthy (Text.trim raw)) eqn:Etr.
    + eexists _, (Text.trim raw). split; [reflexivity|]. split; [done|].
      split; [by apply truthy_nonempty|].
      by rewrite (currentTask_setTask (Agent.ofDoc sid d)).
    + rewrite Hprev. eexists _, prev. split; [reflexivity|]. split; [done|].
      split; [done|].
      by rewrite (currentTask_setTask (Agent.ofDoc sid d)).
Qed.

Lemma draft_non_empty_or_turn_rejects_witness :
  (∃ s' draft,
     Sessions.turn Fixtures.scenarioEnv (Agent.store Fixtures.started)
       "s1" "completed, added tracking" "u1"
     = (Return (Agent.summaryReply draft, s'),
        Agent.mkWorld (<["s1" := Agent.toDoc s']> (Agent.store Fixtures.started))
          [Agent.EvEngine
             (Engine.summaryRequest "completed, added tracking"
                "Add Analytics events" "u1") true;
           Agent.EvSave "s1" (Agent.toDoc s')])
     ∧ draft = (if Js.truthy (Text.trim "Added tracking events.")
                then Text.trim "Added tracking events." else "Update noted.")
     ∧ draft ≠ EmptyString
     ∧ Agent.doc_draftSummary <$> Sessions.currentTask (Agent.toDoc s')
       = Some (Some draft))
  ∧ ∀ response,
      Agent.engine Fixtures.scenarioEnv
        (Engine.summaryRequest "completed, added tracking" "Add Analytics events" "u1")
        = Return response →
      Engine.generateSummary (Agent.engine Fixtures.scenarioEnv)
        "completed, added tracking" "Add Analytics events" "u1"
      = if (Engine.success response
            && Js.truthyOpt (Engine.generated_content response))%bool
        then Return (Text.trim (Engine.content response))
        else Throw (Err (if Js.truthyOpt (Engine.error_message response)
                         then Js.show (Engine.error_message response)
                         else if Js.truthyOpt (Engine.error response)
                              then Js.show (Engine.error response)
                              else "Failed to generate task summary")).
Proof.
  apply (proj1 (draft_non_empty_or_turn_rejects Fixtures.scenarioEnv
                  (Agent.store Fixtures.started)
                  "s1" "completed, added tracking" "u1"
                  (Agent.mkSessionDoc "u1" 0
                     [Agent.mkTaskDoc "KT-1" "Add Analytics events" "In Progress"
                        None None None None Agent.AWAITING_UPDATE])
                  (Agent.mkTaskDoc "KT-1" "Add Analytics events" "In Progress"
                     None None None None Agent.AWAITING_UPDATE)
                  Sessions.anySite
                  (proj1 (scenario_reachable Sessions.anySite I))
                  ltac:(vm_compute; reflexivity)
                  ltac:(reflexivity))
           ltac:(reflexivity)).
Defined.
